(** * BhashaConnect API: the resource routers (schemes, jobs, training,
      marketplace) and their models

    A shallow embedding of [backend/routes/schemes.js] (schemes and jobs
    routers), [backend/routes/training.js] (training and marketplace
    routers), the Mongoose models and [backend/config/database.js].

    Conventions of the embedding:
    - a JavaScript string is a [string] read as a list of characters
      (case folding is the ASCII one);
    - an ObjectId is a [nat]; a route parameter [:id] is given by what
      Mongoose's cast to ObjectId makes of it ([IdParam]);
    - the query parameters [page] and [limit] are given by their numeric
      reading in [Z] (decimal numerals, on which [Number] coercion and
      [parseInt] agree); the other query parameters are strings;
    - a request body is a JSON object, given as the list of its entries;
    - an [async] handler is a state-and-exception computation over the
      database; its [try]/[catch] turns an exception into the 500 answer. *)

From Stdlib Require Import List String Ascii ZArith Lia Bool Arith.
From Stdlib Require Import Permutation DecimalString Sorted.
Import ListNotations.
Open Scope string_scope.
Open Scope list_scope.

(* ================================================================== *)
(** * Characters and strings *)
(* ================================================================== *)

Module Js.

Definition chars (s : string) : list ascii := list_ascii_of_string s.

(** The double quote character, used by Joi around labels. *)
Definition dq : string := String "034"%char EmptyString.

Definition is_upper (c : ascii) : bool :=
  let n := nat_of_ascii c in ((65 <=? n) && (n <=? 90))%nat.

Definition is_lower (c : ascii) : bool :=
  let n := nat_of_ascii c in ((97 <=? n) && (n <=? 122))%nat.

Definition is_digit (c : ascii) : bool :=
  let n := nat_of_ascii c in ((48 <=? n) && (n <=? 57))%nat.

(** [\w] of JavaScript regular expressions: [A-Za-z0-9_]. *)
Definition is_word (c : ascii) : bool :=
  is_upper c || is_lower c || is_digit c || Ascii.eqb c "_"%char.

Definition to_lower (c : ascii) : ascii :=
  if is_upper c then ascii_of_nat (nat_of_ascii c + 32) else c.

Definition lowercase (s : string) : string :=
  string_of_list_ascii (map to_lower (chars s)).

(** Equality of characters up to ASCII case. *)
Definition eqb_ci (a b : ascii) : bool := Ascii.eqb (to_lower a) (to_lower b).

Definition mem (x : string) (l : list string) : bool :=
  existsb (String.eqb x) l.

(** [Array.prototype.join]. *)
Fixpoint join (sep : string) (l : list string) : string :=
  match l with
  | [] => ""
  | [x] => x
  | x :: rest => x ++ sep ++ join sep rest
  end.

Definition show_nat (n : nat) : string :=
  NilEmpty.string_of_uint (Nat.to_uint n).

(** Lookup of an own property in an object given as its list of entries,
    in insertion order. *)
Fixpoint prop {V : Type} (k : string) (o : list (string * V)) : option V :=
  match o with
  | [] => None
  | (k', v) :: rest => if String.eqb k k' then Some v else prop k rest
  end.

(** Assignment [o[k] = v]: replaces the entry in place, or appends it. *)
Fixpoint set_prop {V : Type} (k : string) (v : V) (o : list (string * V))
  : list (string * V) :=
  match o with
  | [] => [(k, v)]
  | (k', v') :: rest =>
      if String.eqb k k' then (k, v) :: rest else (k', v') :: set_prop k v rest
  end.

(** Truthiness of a value that is [undefined] or a string:
    [if (language)] is taken for a non-empty string only. *)
Definition truthy (v : option string) : bool :=
  match v with
  | Some s => negb (String.eqb s "")
  | None => false
  end.

(** [Math.ceil(a / b)] on integers, [b] not zero. *)
Definition ceil_div (a b : Z) : Z := (- ((- a) / b))%Z.

(** [Math.ceil(a / b)] as it is serialised by [res.json]: a division by
    zero gives [Infinity] or [NaN], which JSON renders as [null]. *)
Definition ceil_div_json (a b : Z) : option Z :=
  if (b =? 0)%Z then None else Some (ceil_div a b).

(** Values found in a JSON request body, as far as the validators tell
    them apart: strings, objects, and the rest (numbers, booleans, null,
    arrays). *)
#[warnings="-register-all"]
Inductive value : Type :=
| VStr (s : string)
| VObj (o : list (string * value))
| VOther.

Definition as_string (v : option value) : option string :=
  match v with
  | Some (VStr s) => Some s
  | _ => None
  end.

End Js.

(* ================================================================== *)
(** * Regular expressions *)
(* ================================================================== *)

(** A matcher for regular expressions given as syntax trees, used for the
    [match] validators of the Mongoose schemas (written out as trees
    below) and for the fragment of the [$regex] operator that is
    modelled. The matcher explores all alternatives: [run r s k] holds
    when some prefix of [s] matches [r] and the rest satisfies [k]. *)
Module Regex.

Inductive re : Type :=
| Eps
| Chr (p : ascii -> bool)
| Cat (a b : re)
| Alt (a b : re)
| Star (a : re).

Fixpoint run (r : re) (s : list ascii) (k : list ascii -> bool) {struct r}
  : bool :=
  match r with
  | Eps => k s
  | Chr p =>
      match s with
      | c :: s' => p c && k s'
      | [] => false
      end
  | Cat a b => run a s (fun s' => run b s' k)
  | Alt a b => run a s k || run b s k
  | Star a =>
      (fix loop (fuel : nat) (s : list ascii) {struct fuel} : bool :=
         k s ||
         match fuel with
         | O => false
         | S fuel' =>
             run a s (fun s' =>
               (List.length s' <? List.length s)%nat && loop fuel' s')
         end) (List.length s) s
  end.

Definition Opt (a : re) : re := Alt a Eps.
Definition Plus (a : re) : re := Cat a (Star a).

(** [a{0,n}] *)
Fixpoint UpTo (n : nat) (a : re) : re :=
  match n with
  | O => Eps
  | S n' => Opt (Cat a (UpTo n' a))
  end.

(** [a{m,m+n}] *)
Fixpoint Between (m n : nat) (a : re) : re :=
  match m with
  | O => UpTo n a
  | S m' => Cat a (Between m' n a)
  end.

Definition Lit (c : ascii) : re := Chr (Ascii.eqb c).

Definition Str (s : string) : re :=
  fold_right (fun c r => Cat (Lit c) r) Eps (Js.chars s).

Definition OneOf (s : string) : re :=
  Chr (fun c => existsb (Ascii.eqb c) (Js.chars s)).

(** [.] of a JavaScript regular expression: any character but a line
    terminator. *)
Definition js_dot : re :=
  Chr (fun c => negb (Ascii.eqb c "010"%char || Ascii.eqb c "013"%char)).

Definition at_end (s : list ascii) : bool :=
  match s with [] => true | _ => false end.

Definition anything (_ : list ascii) : bool := true.

(** [/^r/.test(s)] *)
Definition test_prefix (r : re) (s : string) : bool :=
  run r (Js.chars s) anything.

(** [/^r$/.test(s)] *)
Definition test_whole (r : re) (s : string) : bool :=
  run r (Js.chars s) at_end.

(** An unanchored search: [r] matches at some position of [s]. *)
Fixpoint search_from (r : re) (s : list ascii) : bool :=
  run r s anything ||
  match s with
  | [] => false
  | _ :: s' => search_from r s'
  end.

End Regex.

(** Case-insensitive substring test, the reading the specification gives
    of the text filters. *)
Module Substring.

Fixpoint prefix_ci (p s : list ascii) : bool :=
  match p, s with
  | [], _ => true
  | _ :: _, [] => false
  | a :: p', b :: s' => Js.eqb_ci a b && prefix_ci p' s'
  end.

Fixpoint occurs_ci (p s : list ascii) : bool :=
  prefix_ci p s ||
  match s with
  | [] => false
  | _ :: s' => occurs_ci p s'
  end.

Definition contains_ci (needle hay : string) : bool :=
  occurs_ci (Js.chars needle) (Js.chars hay).

End Substring.

(* ================================================================== *)
(** * The libraries the routers call *)
(* ================================================================== *)

(** What is taken from the libraries without being modelled: the format
    checks of the validation library, and the regular-expression engine
    of the storage engine outside the fragment modelled in [MongoRegex].
    Every definition and theorem below is parametric in them. *)
Class External : Type := {
  (** [Joi.string().uri()] *)
  joi_uri : string -> bool;
  (** [Joi.string().email()] *)
  joi_email : string -> bool;
  (** The case-insensitive search compiled from a [$regex] pattern that
      uses syntax outside the modelled fragment; [None] when the engine
      rejects the pattern. *)
  pcre_other : string -> option (string -> bool)
}.

(** The [$regex] operator with [$options: 'i']. The fragment modelled
    exactly is: patterns made of ordinary characters, each matching itself
    up to case, and of [.], matching any character but a line feed. A
    pattern with any other metacharacter is left to [pcre_other]. *)
Module MongoRegex.

Definition other_meta : string := "\^$[]|()?*+{}".

Definition is_other_meta (c : ascii) : bool :=
  existsb (Ascii.eqb c) (Js.chars other_meta).

Definition in_fragment (pat : string) : bool :=
  forallb (fun c => negb (is_other_meta c)) (Js.chars pat).

Definition atom (c : ascii) : Regex.re :=
  if Ascii.eqb c "."%char
  then Regex.Chr (fun x => negb (Ascii.eqb x "010"%char))
  else Regex.Chr (Js.eqb_ci c).

Definition compile_fragment (pat : string) : Regex.re :=
  fold_right (fun c r => Regex.Cat (atom c) r) Regex.Eps (Js.chars pat).

Definition regex_i `{External} (pat : string) : option (string -> bool) :=
  if in_fragment pat
  then Some (fun s => Regex.search_from (compile_fragment pat) (Js.chars s))
  else pcre_other pat.

(** A pattern without any metacharacter. *)
Definition plain (pat : string) : bool :=
  forallb (fun c => negb (is_other_meta c) && negb (Ascii.eqb c "."%char))
          (Js.chars pat).

End MongoRegex.

(** ** Joi: object schemas of string keys, validated with the default
    options ([abortEarly: true], unknown keys refused, no conversion of
    strings). *)
Module Joi.

Record Detail : Type := { path : string; message : string }.

Inductive Rule : Type :=
| Min (n : nat)
| Max (n : nat)
| Uri
| Email
| Pattern (source : string) (test : string -> bool).

(** [Joi.string()...]: presence, the [valid(...)] list when there is one,
    and the rules in the order they are chained. *)
Record StringSchema : Type := {
  required : bool;
  only : option (list string);
  rules : list Rule
}.

Inductive KeySchema : Type :=
| KString (s : StringSchema)
| KObject (required_ : bool) (keys : list (string * StringSchema)).

Definition ObjectSchema : Type := list (string * KeySchema).

Definition label (l : string) : string := Js.dq ++ l ++ Js.dq.

Definition err (l what : string) : Detail :=
  {| path := l; message := label l ++ what |}.

Definition check_rule `{External} (l : string) (r : Rule) (s : string)
  : option Detail :=
  match r with
  | Min n =>
      if (n <=? String.length s)%nat then None
      else Some (err l (" length must be at least " ++ Js.show_nat n
                          ++ " characters long"))
  | Max n =>
      if (String.length s <=? n)%nat then None
      else Some (err l (" length must be less than or equal to "
                          ++ Js.show_nat n ++ " characters long"))
  | Uri => if joi_uri s then None else Some (err l " must be a valid uri")
  | Email =>
      if joi_email s then None else Some (err l " must be a valid email")
  | Pattern src test =>
      if test s then None
      else Some (err l (" with value " ++ Js.dq ++ s ++ Js.dq
                          ++ " fails to match the required pattern: " ++ src))
  end.

Fixpoint check_rules `{External} (l : string) (rs : list Rule) (s : string)
  : option Detail :=
  match rs with
  | [] => None
  | r :: rest =>
      match check_rule l r s with
      | Some e => Some e
      | None => check_rules l rest s
      end
  end.

(** The first violation of one string key, if any. *)
Definition check_string `{External} (l : string) (sch : StringSchema)
  (v : option Js.value) : option Detail :=
  match v with
  | None => if required sch then Some (err l " is required") else None
  | Some v =>
      match only sch with
      | Some allowed =>
          let bad :=
            Some (err l (" must be one of [" ++ Js.join ", " allowed ++ "]")) in
          match v with
          | Js.VStr s => if Js.mem s allowed then None else bad
          | _ => bad
          end
      | None =>
          match v with
          | Js.VStr s =>
              if String.eqb s "" then Some (err l " is not allowed to be empty")
              else check_rules l (rules sch) s
          | _ => Some (err l " must be a string")
          end
      end
  end.

Definition opt_list {A : Type} (o : option A) : list A :=
  match o with Some a => [a] | None => [] end.

(** Keys of the object that the schema does not know, in the object's
    order. *)
Definition unknown_keys {S V : Type} (prefix : string)
  (known : list (string * S)) (o : list (string * V)) : list Detail :=
  flat_map (fun kv =>
              if Js.mem (fst kv) (map fst known) then []
              else [err (prefix ++ fst kv) " is not allowed"]) o.

Definition check_key `{External} (k : string) (sch : KeySchema)
  (o : list (string * Js.value)) : list Detail :=
  match sch with
  | KString s => opt_list (check_string k s (Js.prop k o))
  | KObject req keys =>
      match Js.prop k o with
      | None => if req then [err k " is required"] else []
      | Some (Js.VObj inner) =>
          flat_map (fun ks =>
                      opt_list (check_string (k ++ "." ++ fst ks) (snd ks)
                                  (Js.prop (fst ks) inner))) keys
          ++ unknown_keys (k ++ ".") keys inner
      | Some _ => [err k " must be of type object"]
      end
  end.

(** The first violation of every failing key, in the order Joi visits the
    keys: the schema's keys as declared, then the unknown keys. *)
Definition violations `{External} (schema : ObjectSchema)
  (o : list (string * Js.value)) : list Detail :=
  flat_map (fun ks => check_key (fst ks) (snd ks) o) schema
  ++ unknown_keys "" schema o.

(** [schema.validate(body)]: [{ error, value }]. With [abortEarly] the
    error holds the first violation only. *)
Definition validate `{External} (schema : ObjectSchema)
  (o : list (string * Js.value))
  : list Detail + list (string * Js.value) :=
  match violations schema o with
  | [] => inr o
  | e :: _ => inl [e]
  end.

Definition str (rs : list Rule) : KeySchema :=
  KString {| required := true; only := None; rules := rs |}.

End Joi.

(** ** Mongoose: documents, schemas, models and queries *)
Module Mongoose.

Record User : Type := { user_id : nat; name : string; role : string }.

(** A stored document: the schema's paths as an object, the reference to
    the creator, and the timestamps the [timestamps] option maintains. *)
Record Doc : Type := {
  _id : nat;
  fields : list (string * Js.value);
  createdBy : nat;
  createdAt : nat;
  updatedAt : nat
}.

(** A document as the handlers answer it: [{...doc.toObject(),
    created_by_name: doc.createdBy?.name}], where [createdBy] is the
    populated creator ([None] when no user has that id, or when the
    query did not populate). *)
Record Item : Type := { doc : Doc; owner : option User }.

Definition created_by_name (i : Item) : option string :=
  option_map name (owner i).

(** A route parameter [:id] after the cast to ObjectId. *)
Inductive IdParam : Type :=
| Malformed
| Oid (n : nat).

Inductive Exn : Type :=
| ReferenceError (identifier : string)
| TypeError (what : string)
| CastError
| ValidationError
| MongoServerError.

Inductive ModelName : Type := Scheme | Job | TrainingContent | Marketplace.

Record Db : Type := {
  users : list User;
  schemes : list Doc;
  jobs : list Doc;
  trainingcontents : list Doc;
  marketplaces : list Doc;
  (** the time of the next write *)
  clock : nat;
  (** the next ObjectId to be generated *)
  next_id : nat
}.

Definition coll (m : ModelName) (db : Db) : list Doc :=
  match m with
  | Scheme => schemes db
  | Job => jobs db
  | TrainingContent => trainingcontents db
  | Marketplace => marketplaces db
  end.

(** A write to the collection of [m]; the clock advances. *)
Definition write (m : ModelName) (c : list Doc) (db : Db) : Db :=
  {| users := users db;
     schemes := match m with Scheme => c | _ => schemes db end;
     jobs := match m with Job => c | _ => jobs db end;
     trainingcontents :=
       match m with TrainingContent => c | _ => trainingcontents db end;
     marketplaces := match m with Marketplace => c | _ => marketplaces db end;
     clock := S (clock db);
     next_id := next_id db |}.

Definition fresh_id (db : Db) : Db :=
  {| users := users db; schemes := schemes db; jobs := jobs db;
     trainingcontents := trainingcontents db;
     marketplaces := marketplaces db;
     clock := clock db; next_id := S (next_id db) |}.

(** *** Schemas *)

Record PathSpec : Type := {
  path : list string;
  required : bool;
  minlength : option nat;
  maxlength : option nat;
  match_ : option (string -> bool);
  enum : option (list string);
  lowercase : bool
}.

Definition Schema : Type := list PathSpec.

Fixpoint get_path (p : list string) (o : list (string * Js.value))
  : option Js.value :=
  match p with
  | [] => None
  | [k] => Js.prop k o
  | k :: rest =>
      match Js.prop k o with
      | Some (Js.VObj inner) => get_path rest inner
      | _ => None
      end
  end.

Fixpoint map_path (p : list string) (f : string -> string)
  (o : list (string * Js.value)) : list (string * Js.value) :=
  match p with
  | [] => o
  | [k] =>
      map (fun kv =>
             if String.eqb (fst kv) k
             then (fst kv, match snd kv with
                           | Js.VStr s => Js.VStr (f s)
                           | v => v
                           end)
             else kv) o
  | k :: rest =>
      map (fun kv =>
             if String.eqb (fst kv) k
             then (fst kv, match snd kv with
                           | Js.VObj inner => Js.VObj (map_path rest f inner)
                           | v => v
                           end)
             else kv) o
  end.

(** The setters of the schema ([lowercase: true]). *)
Definition apply_setters (sch : Schema) (o : list (string * Js.value))
  : list (string * Js.value) :=
  fold_left (fun acc ps =>
               if lowercase ps then map_path (path ps) Js.lowercase acc
               else acc) sch o.

Definition opt_ok {A : Type} (o : option A) (p : A -> bool) : bool :=
  match o with Some a => p a | None => true end.

(** The validators of one String path. Only strings reach the models: the
    request validator before them refuses every other value. *)
Definition path_ok (ps : PathSpec) (o : list (string * Js.value)) : bool :=
  match get_path (path ps) o with
  | None => negb (required ps)
  | Some (Js.VStr s) =>
      (negb (required ps) || negb (String.eqb s ""))
      && opt_ok (minlength ps) (fun n => (n <=? String.length s)%nat)
      && opt_ok (maxlength ps) (fun n => (String.length s <=? n)%nat)
      && opt_ok (match_ ps) (fun test => String.eqb s "" || test s)
      && opt_ok (enum ps) (fun vs => Js.mem s vs)
  | Some _ => false
  end.

Definition schema_ok (sch : Schema) (o : list (string * Js.value)) : bool :=
  forallb (fun ps => path_ok ps o) sch.

Definition text (p : string) (mn mx : option nat) : PathSpec :=
  {| path := [p]; required := true; minlength := mn; maxlength := mx;
     match_ := None; enum := None; lowercase := false |}.

(** [/^https?:\/\/.+/] *)
Definition url_re : Regex.re :=
  Regex.Cat (Regex.Str "http")
    (Regex.Cat (Regex.Opt (Regex.Lit "s"))
       (Regex.Cat (Regex.Str "://") (Regex.Plus Regex.js_dot))).

Definition url_test (s : string) : bool := Regex.test_prefix url_re s.

(** [/^[\+]?[1-9][\d]{0,15}$/] *)
Definition phone_re : Regex.re :=
  Regex.Cat (Regex.Opt (Regex.Lit "+"))
    (Regex.Cat (Regex.OneOf "123456789")
       (Regex.UpTo 15 (Regex.Chr Js.is_digit))).

Definition phone_test (s : string) : bool := Regex.test_whole phone_re s.

(** [/^\w+([.-]?\w+)*@\w+([.-]?\w+)*(\.\w{2,3})+$/] *)
Definition email_re : Regex.re :=
  let w := Regex.Chr Js.is_word in
  let tail := Regex.Star (Regex.Cat (Regex.Opt (Regex.OneOf ".-"))
                                    (Regex.Plus w)) in
  Regex.Cat (Regex.Plus w)
    (Regex.Cat tail
       (Regex.Cat (Regex.Lit "@")
          (Regex.Cat (Regex.Plus w)
             (Regex.Cat tail
                (Regex.Plus (Regex.Cat (Regex.Lit ".")
                                       (Regex.Between 2 1 w))))))).

Definition email_test (s : string) : bool := Regex.test_whole email_re s.

(** [models/Scheme.js] *)
Definition schemeSchema : Schema :=
  [ text "title" (Some 3) (Some 255);
    text "description" (Some 10) None;
    text "eligibility" (Some 10) None;
    {| path := ["link"]; required := true; minlength := None;
       maxlength := None; match_ := Some url_test; enum := None;
       lowercase := false |};
    text "category" (Some 2) (Some 100);
    text "language" (Some 2) (Some 50) ].

(** [models/Job.js] *)
Definition jobSchema : Schema :=
  [ text "title" (Some 3) (Some 255);
    text "description" (Some 10) None;
    text "category" (Some 2) (Some 100);
    text "location" (Some 2) (Some 255);
    text "language" (Some 2) (Some 50) ].

(** [models/TrainingContent.js] *)
Definition trainingContentSchema : Schema :=
  [ text "title" (Some 3) (Some 255);
    text "description" (Some 10) None;
    {| path := ["type"]; required := true; minlength := None;
       maxlength := None; match_ := None;
       enum := Some ["video"; "pdf"; "text"; "infographic"];
       lowercase := false |};
    {| path := ["url"]; required := true; minlength := None;
       maxlength := None; match_ := Some url_test; enum := None;
       lowercase := false |};
    text "language" (Some 2) (Some 50) ].

(** [models/Marketplace.js] *)
Definition marketplaceSchema : Schema :=
  [ text "businessName" (Some 2) (Some 255);
    text "ownerName" (Some 2) (Some 255);
    text "productService" (Some 10) None;
    {| path := ["contact"; "phone"]; required := true; minlength := None;
       maxlength := None; match_ := Some phone_test; enum := None;
       lowercase := false |};
    {| path := ["contact"; "email"]; required := true; minlength := None;
       maxlength := None; match_ := Some email_test; enum := None;
       lowercase := true |};
    {| path := ["contact"; "address"]; required := true;
       minlength := Some 10; maxlength := None; match_ := None;
       enum := None; lowercase := false |};
    text "location" (Some 2) (Some 255);
    text "language" (Some 2) (Some 50) ].

Definition schema_of (m : ModelName) : Schema :=
  match m with
  | Scheme => schemeSchema
  | Job => jobSchema
  | TrainingContent => trainingContentSchema
  | Marketplace => marketplaceSchema
  end.

End Mongoose.

(** ** Asynchronous code: state of the database and exceptions *)
Module Async.
Import Mongoose.

Definition M (A : Type) : Type := Db -> Db * (Exn + A).

Definition ret {A : Type} (a : A) : M A := fun db => (db, inr a).

Definition throw {A : Type} (e : Exn) : M A := fun db => (db, inl e).

Definition bind {A B : Type} (m : M A) (k : A -> M B) : M B :=
  fun db =>
    match m db with
    | (db', inl e) => (db', inl e)
    | (db', inr a) => k a db'
    end.

Definition gets {A : Type} (f : Db -> A) : M A := fun db => (db, inr (f db)).

Definition modify (f : Db -> Db) : M unit := fun db => (f db, inr tt).

Definition lift {A : Type} (r : option A) (e : Exn) : M A :=
  match r with Some a => ret a | None => throw e end.

End Async.

Declare Scope async_scope.
Delimit Scope async_scope with async.
Notation "x <- m ;; k" := (Async.bind m (fun x => k))
  (at level 100, m at next level, right associativity) : async_scope.
Notation "m ;;; k" := (Async.bind m (fun _ => k))
  (at level 100, right associativity) : async_scope.
Notation "x |> f" := (f x) (at level 45, left associativity, only parsing).

(** ** The models' operations *)
Module Model.
Import Mongoose Async.
Local Open Scope async_scope.

(** Filter objects: [{ f: v }], [{ f: { $regex: p, $options: 'i' } }] and
    [{ $or: [ { f: ... }, ... ] }], the entries of one object holding
    together. *)
Inductive Cond : Type :=
| Equals (v : string)
| RegexI (pattern : string).

Inductive Clause : Type :=
| Field (name : string) (c : Cond)
| Or (alternatives : list (string * Cond)).

Definition Filter : Type := list Clause.

Definition field_string (f : string) (d : Doc) : option string :=
  Js.as_string (Js.prop f (fields d)).

Definition on_field (f : string) (p : string -> bool) (d : Doc) : bool :=
  match field_string f d with
  | Some s => p s
  | None => false
  end.

Definition compile_cond `{External} (f : string) (c : Cond)
  : option (Doc -> bool) :=
  match c with
  | Equals v => Some (on_field f (String.eqb v))
  | RegexI pat => option_map (on_field f) (MongoRegex.regex_i pat)
  end.

Fixpoint compile_alternatives `{External} (alts : list (string * Cond))
  : option (Doc -> bool) :=
  match alts with
  | [] => Some (fun _ => false)
  | (f, c) :: rest =>
      match compile_cond f c, compile_alternatives rest with
      | Some p, Some q => Some (fun d => p d || q d)
      | _, _ => None
      end
  end.

Definition compile_clause `{External} (cl : Clause) : option (Doc -> bool) :=
  match cl with
  | Field f c => compile_cond f c
  | Or alts => compile_alternatives alts
  end.

(** The predicate of a filter; [None] when the engine rejects one of its
    patterns. *)
Fixpoint compile `{External} (f : Filter) : option (Doc -> bool) :=
  match f with
  | [] => Some (fun _ => true)
  | cl :: rest =>
      match compile_clause cl, compile rest with
      | Some p, Some q => Some (fun d => p d && q d)
      | _, _ => None
      end
  end.

(** [sort({ createdAt: -1 })]: newest first, documents of the same time
    in their stored order. *)
Fixpoint insert_desc (d : Doc) (l : list Doc) : list Doc :=
  match l with
  | [] => [d]
  | x :: rest =>
      if (createdAt x <=? createdAt d)%nat then d :: x :: rest
      else x :: insert_desc d rest
  end.

Definition sort_desc (l : list Doc) : list Doc := fold_right insert_desc [] l.

(** [skip] and [limit] of a cursor: a negative skip is refused by the
    server, a limit of zero is no limit, a negative limit counts as its
    absolute value. *)
Definition window (skip limit : Z) (l : list Doc) : option (list Doc) :=
  if (skip <? 0)%Z then None
  else
    let rest := skipn (Z.to_nat skip) l in
    Some (if (limit =? 0)%Z then rest
          else firstn (Z.to_nat (Z.abs limit)) rest).

Definition find_user (id : nat) (us : list User) : option User :=
  List.find (fun u => (user_id u =? id)%nat) us.

(** [populate('createdBy', 'name')] *)
Definition populate (d : Doc) : M Item :=
  us <- gets users ;;
  ret {| doc := d; owner := find_user (createdBy d) us |}.

(** A query under construction. *)
Record Query : Type := {
  q_model : ModelName;
  q_filter : Filter;
  q_populate : bool;
  q_sort : bool;
  q_skip : Z;
  q_limit : Z
}.

Definition find (m : ModelName) (f : Filter) : Query :=
  {| q_model := m; q_filter := f; q_populate := false; q_sort := false;
     q_skip := 0; q_limit := 0 |}.

Definition populate_createdBy (q : Query) : Query :=
  {| q_model := q_model q; q_filter := q_filter q; q_populate := true;
     q_sort := q_sort q; q_skip := q_skip q; q_limit := q_limit q |}.

Definition sort_createdAt_desc (q : Query) : Query :=
  {| q_model := q_model q; q_filter := q_filter q;
     q_populate := q_populate q; q_sort := true;
     q_skip := q_skip q; q_limit := q_limit q |}.

Definition skip (n : Z) (q : Query) : Query :=
  {| q_model := q_model q; q_filter := q_filter q;
     q_populate := q_populate q; q_sort := q_sort q;
     q_skip := n; q_limit := q_limit q |}.

Definition limit (n : Z) (q : Query) : Query :=
  {| q_model := q_model q; q_filter := q_filter q;
     q_populate := q_populate q; q_sort := q_sort q;
     q_skip := q_skip q; q_limit := n |}.

(** [await query] *)
Definition exec `{External} (q : Query) : M (list Item) :=
  p <- lift (compile (q_filter q)) MongoServerError ;;
  c <- gets (coll (q_model q)) ;;
  us <- gets users ;;
  let matching := List.filter p c in
  let ordered := if q_sort q then sort_desc matching else matching in
  page <- lift (window (q_skip q) (q_limit q) ordered) MongoServerError ;;
  ret (map (fun d =>
              {| doc := d;
                 owner := if q_populate q then find_user (createdBy d) us
                          else None |}) page).

Definition countDocuments `{External} (m : ModelName) (f : Filter) : M Z :=
  p <- lift (compile f) MongoServerError ;;
  c <- gets (coll m) ;;
  ret (Z.of_nat (List.length (List.filter p c))).

Definition has_id (id : nat) (d : Doc) : bool := (_id d =? id)%nat.

Definition findById (m : ModelName) (id : IdParam) : M (option Doc) :=
  match id with
  | Malformed => throw CastError
  | Oid n => c <- gets (coll m) ;; ret (List.find (has_id n) c)
  end.

(** [Model.findById(id).populate('createdBy', 'name')] *)
Definition findById_populated (m : ModelName) (id : IdParam)
  : M (option Item) :=
  d <- findById m id ;;
  match d with
  | None => ret None
  | Some d => i <- populate d ;; ret (Some i)
  end.

(** [new Model({ ...value, createdBy })]: a fresh ObjectId, the setters
    applied. *)
Definition new (m : ModelName) (value : list (string * Js.value))
  (creator : nat) : M Doc :=
  id <- gets next_id ;;
  modify fresh_id ;;;
  ret {| _id := id; fields := apply_setters (schema_of m) value;
         createdBy := creator; createdAt := 0; updatedAt := 0 |}.

(** [doc.save()] of a new document: the schema's validators, then the
    insertion with both timestamps. *)
Definition save (m : ModelName) (d : Doc) : M unit :=
  if schema_ok (schema_of m) (fields d)
  then
    now <- gets clock ;;
    c <- gets (coll m) ;;
    modify (write m (c ++ [ {| _id := _id d; fields := fields d;
                               createdBy := createdBy d;
                               createdAt := now; updatedAt := now |} ]))
  else throw ValidationError.

Fixpoint update_first (id : nat) (f : Doc -> Doc) (c : list Doc) : list Doc :=
  match c with
  | [] => []
  | d :: rest =>
      if has_id id d then f d :: rest else d :: update_first id f rest
  end.

Fixpoint remove_first (id : nat) (c : list Doc) : list Doc :=
  match c with
  | [] => []
  | d :: rest => if has_id id d then rest else d :: remove_first id rest
  end.

(** The [$set] of every key of [value]. *)
Definition assign (value : list (string * Js.value)) (now : nat) (d : Doc)
  : Doc :=
  {| _id := _id d;
     fields := fold_left (fun o kv => Js.set_prop (fst kv) (snd kv) o)
                         value (fields d);
     createdBy := createdBy d;
     createdAt := createdAt d;
     updatedAt := now |}.

(** [Model.findByIdAndUpdate(id, value, { new: true })]: the setters are
    applied, the validators are not run. *)
Definition findByIdAndUpdate (m : ModelName) (id : IdParam)
  (value : list (string * Js.value)) : M (option Doc) :=
  match id with
  | Malformed => throw CastError
  | Oid n =>
      c <- gets (coll m) ;;
      match List.find (has_id n) c with
      | None => ret None
      | Some d =>
          now <- gets clock ;;
          let d' := assign (apply_setters (schema_of m) value) now d in
          modify (write m (update_first n (fun _ => d') c)) ;;;
          ret (Some d')
      end
  end.

Definition findByIdAndDelete (m : ModelName) (id : IdParam) : M unit :=
  match id with
  | Malformed => throw CastError
  | Oid n =>
      c <- gets (coll m) ;;
      match List.find (has_id n) c with
      | None => ret tt
      | Some _ => modify (write m (remove_first n c))
      end
  end.

End Model.

(* ================================================================== *)
(** * Requests, responses and middleware *)
(* ================================================================== *)

Module Http.
Import Mongoose Async.

Record Pagination : Type := {
  currentPage : Z;
  (** [null] when the quotient is not a finite number *)
  totalPages : option Z;
  totalItems : Z;
  itemsPerPage : Z
}.

(** The values the training list handler computes with: the promise that
    a call of [db] returns, and [undefined]. *)
Inductive Dyn : Type := DPromise | DUndefined.

Inductive Body : Type :=
(** [{ success, message }] *)
| Message (success : bool) (message : string)
(** [{ success: false, message, errors }] *)
| Errors (message : string) (errors : list string)
(** [{ success: true, message?, data: { key: item } }] *)
| One (message : option string) (key : string) (item : Item)
(** [{ success: true, data: { key: items, pagination? } }] *)
| Page (key : string) (items : list Item) (pagination : option Pagination)
(** the same, of values that are no documents *)
| RawPage (key : string) (rows count : Dyn) (page limit : Z)
(** an answer of the authentication middleware *)
| Refused.

Record Response : Type := { status : nat; body : Body }.

Record Request : Type := {
  (** the user the bearer token stands for, if it is valid *)
  caller : option User;
  (** [req.params.id] *)
  param_id : IdParam;
  (** [req.params.category], [req.params.type], [req.params.query] *)
  param : string;
  (** [req.query] but for [page] and [limit] *)
  query : list (string * string);
  query_page : option Z;
  query_limit : option Z;
  (** [req.body] *)
  payload : list (string * Js.value)
}.

Definition default (d : Z) (v : option Z) : Z :=
  match v with Some z => z | None => d end.

(** [res.json(b)] and [res.status(n).json(b)] *)
Definition json (b : Body) : Response := {| status := 200; body := b |}.
Definition status_json (n : nat) (b : Body) : Response :=
  {| status := n; body := b |}.

Definition internal_error : Response :=
  status_json 500 (Message false "Internal server error").

Definition validation_error (details : list Joi.Detail) : Response :=
  status_json 400 (Errors "Validation error" (map Joi.message details)).

(** [try { ... } catch (error) { res.status(500).json(...) }] *)
Definition try_catch (m : M Response) (db : Db) : Response * Db :=
  match m db with
  | (db', inr r) => (r, db')
  | (db', inl _) => (internal_error, db')
  end.

(** Modelled from the spec: [middleware/auth.js] is not among the sources.
    The specification has the authentication collaborator answer 401 to a
    missing or invalid token, and 403 to an authenticated caller whose
    role is not allowed; otherwise the handler runs with [req.user]. *)
Definition authenticateToken (req : Request)
  (next : User -> Db -> Response * Db) (db : Db) : Response * Db :=
  match caller req with
  | Some u => next u db
  | None => (status_json 401 Refused, db)
  end.

(** Modelled from the spec: [middleware/auth.js] is not among the sources
    (see [authenticateToken]). *)
Definition requireRole (roles : list string) (u : User)
  (next : Db -> Response * Db) (db : Db) : Response * Db :=
  if Js.mem (role u) roles then next db
  else (status_json 403 Refused, db).

(** The entry a truthy query parameter adds to a filter object. *)
Definition when_given (v : option string) (f : string -> Model.Clause)
  : Model.Filter :=
  match v with
  | Some s => if Js.truthy v then [f s] else []
  | None => []
  end.

(** [doc.toObject()] of what may be [null]. *)
Definition non_null {A : Type} (o : option A) : M A :=
  lift o (TypeError "Cannot read properties of null").

End Http.

(* ================================================================== *)
(** * [routes/schemes.js] *)
(* ================================================================== *)

Module SchemesRouter.
Import Mongoose Async Http.
Local Open Scope async_scope.

Definition schemeSchema : Joi.ObjectSchema :=
  [ ("title", Joi.str [Joi.Min 3; Joi.Max 255]);
    ("description", Joi.str [Joi.Min 10]);
    ("eligibility", Joi.str [Joi.Min 5]);
    ("link", Joi.str [Joi.Uri]);
    ("language", Joi.str [Joi.Min 2; Joi.Max 50]);
    ("category", Joi.str [Joi.Max 100]) ].

(** The filter object of [router.get('/')] *)
Definition list_filter (req : Request) : Model.Filter :=
  let language := Js.prop "language" (query req) in
  let category := Js.prop "category" (query req) in
  when_given language (fun v => Model.Field "language" (Model.Equals v))
    ++ when_given category
         (fun v => Model.Field "category" (Model.RegexI v)).

(** [router.get('/')] *)
Definition get_root `{External} (req : Request) : Db -> Response * Db :=
  try_catch (
    let language := Js.prop "language" (query req) in
    let category := Js.prop "category" (query req) in
    let page := default 1 (query_page req) in
    let limit := default 10 (query_limit req) in
    let filter := list_filter req in
    let skip := ((page - 1) * limit)%Z in
    schemes <- (Model.find Scheme filter
                |> Model.populate_createdBy
                |> Model.sort_createdAt_desc
                |> Model.skip skip
                |> Model.limit limit
                |> Model.exec) ;;
    totalCount <- Model.countDocuments Scheme filter ;;
    ret (json (Page "schemes" schemes
                 (Some {| currentPage := page;
                          totalPages := Js.ceil_div_json totalCount limit;
                          totalItems := totalCount;
                          itemsPerPage := limit |})))).

(** [router.get('/:id')] *)
Definition get_id (req : Request) : Db -> Response * Db :=
  try_catch (
    scheme <- Model.findById_populated Scheme (param_id req) ;;
    match scheme with
    | None => ret (status_json 404 (Message false "Scheme not found"))
    | Some scheme => ret (json (One None "scheme" scheme))
    end).

(** The handler of [router.post('/')] *)
Definition post_root `{External} (user : User) (req : Request)
  : Db -> Response * Db :=
  try_catch (
    match Joi.validate schemeSchema (payload req) with
    | inl details => ret (validation_error details)
    | inr value =>
        scheme <- Model.new Scheme value (user_id user) ;;
        Model.save Scheme scheme ;;;
        newScheme <- Model.findById_populated Scheme (Oid (_id scheme)) ;;
        newScheme <- non_null newScheme ;;
        ret (status_json 201
               (One (Some "Scheme created successfully") "scheme" newScheme))
    end).

(** The handler of [router.put('/:id')] *)
Definition put_id `{External} (req : Request) : Db -> Response * Db :=
  try_catch (
    let id := param_id req in
    match Joi.validate schemeSchema (payload req) with
    | inl details => ret (validation_error details)
    | inr value =>
        existingScheme <- Model.findById Scheme id ;;
        match existingScheme with
        | None => ret (status_json 404 (Message false "Scheme not found"))
        | Some _ =>
            updatedScheme <- Model.findByIdAndUpdate Scheme id value ;;
            updatedScheme <- non_null updatedScheme ;;
            updatedScheme <- Model.populate updatedScheme ;;
            ret (json (One (Some "Scheme updated successfully") "scheme"
                         updatedScheme))
        end
    end).

(** The handler of [router.delete('/:id')] *)
Definition delete_id (req : Request) : Db -> Response * Db :=
  try_catch (
    let id := param_id req in
    existingScheme <- Model.findById Scheme id ;;
    match existingScheme with
    | None => ret (status_json 404 (Message false "Scheme not found"))
    | Some _ =>
        Model.findByIdAndDelete Scheme id ;;;
        ret (json (Message true "Scheme deleted successfully"))
    end).

(** The filter object of [router.get('/category/:category')] *)
Definition category_filter (req : Request) : Model.Filter :=
  let category := param req in
  let language := Js.prop "language" (query req) in
  [Model.Field "category" (Model.RegexI category)]
    ++ when_given language
         (fun v => Model.Field "language" (Model.Equals v)).

(** [router.get('/category/:category')] *)
Definition get_category `{External} (req : Request) : Db -> Response * Db :=
  try_catch (
    let category := param req in
    let language := Js.prop "language" (query req) in
    let page := default 1 (query_page req) in
    let limit := default 10 (query_limit req) in
    let filter := category_filter req in
    let skip := ((page - 1) * limit)%Z in
    schemes <- (Model.find Scheme filter
                |> Model.populate_createdBy
                |> Model.sort_createdAt_desc
                |> Model.skip skip
                |> Model.limit limit
                |> Model.exec) ;;
    ret (json (Page "schemes" schemes None))).

(** The filter object of [router.get('/search/:query')] *)
Definition search_filter (req : Request) : Model.Filter :=
  let query_ := param req in
  let language := Js.prop "language" (query req) in
  [Model.Or [ ("title", Model.RegexI query_);
                ("description", Model.RegexI query_);
                ("category", Model.RegexI query_) ]]
    ++ when_given language
         (fun v => Model.Field "language" (Model.Equals v)).

(** [router.get('/search/:query')] *)
Definition get_search `{External} (req : Request) : Db -> Response * Db :=
  try_catch (
    let query_ := param req in
    let language := Js.prop "language" (query req) in
    let page := default 1 (query_page req) in
    let limit := default 10 (query_limit req) in
    let searchFilter := search_filter req in
    let skip := ((page - 1) * limit)%Z in
    results <- (Model.find Scheme searchFilter
                |> Model.populate_createdBy
                |> Model.sort_createdAt_desc
                |> Model.skip skip
                |> Model.limit limit
                |> Model.exec) ;;
    ret (json (Page "results" results None))).

(** The routes with their middleware. *)
Definition POST `{External} (req : Request) : Db -> Response * Db :=
  authenticateToken req (fun user =>
    requireRole ["admin"] user (post_root user req)).

Definition PUT `{External} (req : Request) : Db -> Response * Db :=
  authenticateToken req (fun user => requireRole ["admin"] user (put_id req)).

Definition DELETE (req : Request) : Db -> Response * Db :=
  authenticateToken req (fun user =>
    requireRole ["admin"] user (delete_id req)).

End SchemesRouter.

(** * [routes/jobs.js] *)
Module JobsRouter.
Import Mongoose Async Http.
Local Open Scope async_scope.

Definition jobSchema : Joi.ObjectSchema :=
  [ ("title", Joi.str [Joi.Min 3; Joi.Max 255]);
    ("description", Joi.str [Joi.Min 10]);
    ("category", Joi.str [Joi.Min 2; Joi.Max 100]);
    ("location", Joi.str [Joi.Min 2; Joi.Max 255]);
    ("language", Joi.str [Joi.Min 2; Joi.Max 50]) ].

(** The filter object of [router.get('/')] *)
Definition list_filter (req : Request) : Model.Filter :=
  let category := Js.prop "category" (query req) in
  let location := Js.prop "location" (query req) in
  let language := Js.prop "language" (query req) in
  when_given category (fun v => Model.Field "category" (Model.RegexI v))
    ++ when_given location
         (fun v => Model.Field "location" (Model.RegexI v))
    ++ when_given language
         (fun v => Model.Field "language" (Model.Equals v)).

(** [router.get('/')] *)
Definition get_root `{External} (req : Request) : Db -> Response * Db :=
  try_catch (
    let category := Js.prop "category" (query req) in
    let location := Js.prop "location" (query req) in
    let language := Js.prop "language" (query req) in
    let page := default 1 (query_page req) in
    let limit := default 10 (query_limit req) in
    let filter := list_filter req in
    let skip := ((page - 1) * limit)%Z in
    jobs <- (Model.find Job filter
             |> Model.populate_createdBy
             |> Model.sort_createdAt_desc
             |> Model.skip skip
             |> Model.limit limit
             |> Model.exec) ;;
    totalCount <- Model.countDocuments Job filter ;;
    ret (json (Page "jobs" jobs
                 (Some {| currentPage := page;
                          totalPages := Js.ceil_div_json totalCount limit;
                          totalItems := totalCount;
                          itemsPerPage := limit |})))).

(** [router.get('/:id')] *)
Definition get_id (req : Request) : Db -> Response * Db :=
  try_catch (
    job <- Model.findById_populated Job (param_id req) ;;
    match job with
    | None => ret (status_json 404 (Message false "Job not found"))
    | Some job => ret (json (One None "job" job))
    end).

(** The handler of [router.post('/')] *)
Definition post_root `{External} (user : User) (req : Request)
  : Db -> Response * Db :=
  try_catch (
    match Joi.validate jobSchema (payload req) with
    | inl details => ret (validation_error details)
    | inr value =>
        job <- Model.new Job value (user_id user) ;;
        Model.save Job job ;;;
        newJob <- Model.findById_populated Job (Oid (_id job)) ;;
        newJob <- non_null newJob ;;
        ret (status_json 201
               (One (Some "Job created successfully") "job" newJob))
    end).

(** The handler of [router.put('/:id')] *)
Definition put_id `{External} (user : User) (req : Request)
  : Db -> Response * Db :=
  try_catch (
    let id := param_id req in
    match Joi.validate jobSchema (payload req) with
    | inl details => ret (validation_error details)
    | inr value =>
        existingJob <- Model.findById Job id ;;
        match existingJob with
        | None => ret (status_json 404 (Message false "Job not found"))
        | Some existingJob =>
            if negb (createdBy existingJob =? user_id user)%nat
               && negb (String.eqb (role user) "admin")
            then ret (status_json 403
                        (Message false "You can only update your own jobs"))
            else
              updatedJob <- Model.findByIdAndUpdate Job id value ;;
              updatedJob <- non_null updatedJob ;;
              updatedJob <- Model.populate updatedJob ;;
              ret (json (One (Some "Job updated successfully") "job"
                           updatedJob))
        end
    end).

(** The handler of [router.delete('/:id')] *)
Definition delete_id (user : User) (req : Request) : Db -> Response * Db :=
  try_catch (
    let id := param_id req in
    existingJob <- Model.findById Job id ;;
    match existingJob with
    | None => ret (status_json 404 (Message false "Job not found"))
    | Some existingJob =>
        if negb (createdBy existingJob =? user_id user)%nat
           && negb (String.eqb (role user) "admin")
        then ret (status_json 403
                    (Message false "You can only delete your own jobs"))
        else
          Model.findByIdAndDelete Job id ;;;
          ret (json (Message true "Job deleted successfully"))
    end).

Definition POST `{External} (req : Request) : Db -> Response * Db :=
  authenticateToken req (fun user => post_root user req).

Definition PUT `{External} (req : Request) : Db -> Response * Db :=
  authenticateToken req (fun user => put_id user req).

Definition DELETE (req : Request) : Db -> Response * Db :=
  authenticateToken req (fun user => delete_id user req).

End JobsRouter.

(** * [routes/marketplace.js] *)
Module MarketplaceRouter.
Import Mongoose Async Http.
Local Open Scope async_scope.

Definition marketplaceSchema : Joi.ObjectSchema :=
  [ ("businessName", Joi.str [Joi.Min 2; Joi.Max 255]);
    ("ownerName", Joi.str [Joi.Min 2; Joi.Max 255]);
    ("productService", Joi.str [Joi.Min 5]);
    ("contact",
     Joi.KObject true
       [ ("phone",
          {| Joi.required := true; Joi.only := None;
             Joi.rules := [Joi.Pattern "/^[\+]?[1-9][\d]{0,15}$/"
                                       phone_test] |});
         ("email",
          {| Joi.required := true; Joi.only := None;
             Joi.rules := [Joi.Email] |});
         ("address",
          {| Joi.required := true; Joi.only := None;
             Joi.rules := [Joi.Min 10] |}) ]);
    ("language", Joi.str [Joi.Min 2; Joi.Max 50]);
    ("location", Joi.str [Joi.Max 255]) ].

(** The filter object of [router.get('/')] *)
Definition list_filter (req : Request) : Model.Filter :=
  let language := Js.prop "language" (query req) in
  let location := Js.prop "location" (query req) in
  when_given language (fun v => Model.Field "language" (Model.Equals v))
    ++ when_given location
         (fun v => Model.Field "location" (Model.RegexI v)).

(** [router.get('/')] *)
Definition get_root `{External} (req : Request) : Db -> Response * Db :=
  try_catch (
    let language := Js.prop "language" (query req) in
    let location := Js.prop "location" (query req) in
    let page := default 1 (query_page req) in
    let limit := default 10 (query_limit req) in
    let filter := list_filter req in
    let skip := ((page - 1) * limit)%Z in
    marketplace <- (Model.find Marketplace filter
                    |> Model.populate_createdBy
                    |> Model.sort_createdAt_desc
                    |> Model.skip skip
                    |> Model.limit limit
                    |> Model.exec) ;;
    totalCount <- Model.countDocuments Marketplace filter ;;
    ret (json (Page "marketplace" marketplace
                 (Some {| currentPage := page;
                          totalPages := Js.ceil_div_json totalCount limit;
                          totalItems := totalCount;
                          itemsPerPage := limit |})))).

(** [router.get('/:id')] *)
Definition get_id (req : Request) : Db -> Response * Db :=
  try_catch (
    entry <- Model.findById_populated Marketplace (param_id req) ;;
    match entry with
    | None =>
        ret (status_json 404 (Message false "Marketplace entry not found"))
    | Some entry => ret (json (One None "entry" entry))
    end).

(** The handler of [router.post('/')] *)
Definition post_root `{External} (user : User) (req : Request)
  : Db -> Response * Db :=
  try_catch (
    match Joi.validate marketplaceSchema (payload req) with
    | inl details => ret (validation_error details)
    | inr value =>
        entry <- Model.new Marketplace value (user_id user) ;;
        Model.save Marketplace entry ;;;
        newEntry <- Model.findById_populated Marketplace (Oid (_id entry)) ;;
        newEntry <- non_null newEntry ;;
        ret (status_json 201
               (One (Some "Marketplace entry created successfully") "entry"
                    newEntry))
    end).

(** The handler of [router.put('/:id')] *)
Definition put_id `{External} (user : User) (req : Request)
  : Db -> Response * Db :=
  try_catch (
    let id := param_id req in
    match Joi.validate marketplaceSchema (payload req) with
    | inl details => ret (validation_error details)
    | inr value =>
        existingEntry <- Model.findById Marketplace id ;;
        match existingEntry with
        | None =>
            ret (status_json 404
                   (Message false "Marketplace entry not found"))
        | Some existingEntry =>
            if negb (createdBy existingEntry =? user_id user)%nat
               && negb (String.eqb (role user) "admin")
            then ret (status_json 403
                        (Message false
                           "You can only update your own marketplace entries"))
            else
              updatedEntry <- Model.findByIdAndUpdate Marketplace id value ;;
              updatedEntry <- non_null updatedEntry ;;
              updatedEntry <- Model.populate updatedEntry ;;
              ret (json (One (Some "Marketplace entry updated successfully")
                           "entry" updatedEntry))
        end
    end).

(** The handler of [router.delete('/:id')] *)
Definition delete_id (user : User) (req : Request) : Db -> Response * Db :=
  try_catch (
    let id := param_id req in
    existingEntry <- Model.findById Marketplace id ;;
    match existingEntry with
    | None =>
        ret (status_json 404 (Message false "Marketplace entry not found"))
    | Some existingEntry =>
        if negb (createdBy existingEntry =? user_id user)%nat
           && negb (String.eqb (role user) "admin")
        then ret (status_json 403
                    (Message false
                       "You can only delete your own marketplace entries"))
        else
          Model.findByIdAndDelete Marketplace id ;;;
          ret (json (Message true "Marketplace entry deleted successfully"))
    end).

(** The filter object of [router.get('/search/:query')] *)
Definition search_filter (req : Request) : Model.Filter :=
  let query_ := param req in
  let language := Js.prop "language" (query req) in
  [Model.Or [ ("businessName", Model.RegexI query_);
                ("productService", Model.RegexI query_) ]]
    ++ when_given language
         (fun v => Model.Field "language" (Model.Equals v)).

(** [router.get('/search/:query')] *)
Definition get_search `{External} (req : Request) : Db -> Response * Db :=
  try_catch (
    let query_ := param req in
    let language := Js.prop "language" (query req) in
    let page := default 1 (query_page req) in
    let limit := default 10 (query_limit req) in
    let searchFilter := search_filter req in
    let skip := ((page - 1) * limit)%Z in
    results <- (Model.find Marketplace searchFilter
                |> Model.populate_createdBy
                |> Model.sort_createdAt_desc
                |> Model.skip skip
                |> Model.limit limit
                |> Model.exec) ;;
    ret (json (Page "results" results None))).

Definition POST `{External} (req : Request) : Db -> Response * Db :=
  authenticateToken req (fun user => post_root user req).

Definition PUT `{External} (req : Request) : Db -> Response * Db :=
  authenticateToken req (fun user => put_id user req).

Definition DELETE (req : Request) : Db -> Response * Db :=
  authenticateToken req (fun user => delete_id user req).

End MarketplaceRouter.

(** * [routes/training.js] *)
Module TrainingRouter.
Import Mongoose Async Http.
Local Open Scope async_scope.

(** What the identifiers of the module are bound to: the [require]d
    libraries, [db], the two middleware functions, [router] and
    [trainingSchema]. No identifier is bound to a model. *)
Inductive Binding : Type :=
| Library
| AsyncFunction
| Middleware
| JoiSchema
| ModelOf (m : ModelName).

Definition bindings : list (string * Binding) :=
  [ ("express", Library); ("Joi", Library); ("db", AsyncFunction);
    ("authenticateToken", Middleware); ("requireRole", Middleware);
    ("router", Library); ("trainingSchema", JoiSchema) ].

(** The evaluation of an identifier used as a model. *)
Definition model (identifier : string) : M ModelName :=
  match Js.prop identifier bindings with
  | Some (ModelOf m) => ret m
  | Some _ => throw (TypeError (identifier ++ " is not a model"))
  | None => throw (ReferenceError identifier)
  end.

(** [config/database.js] exports [connectDB], an [async] function: a call
    of [db] returns a promise, which resolves to [undefined]. *)
Definition db (_ : string) : Dyn := DPromise.

Definition promise_methods : list string := ["then"; "catch"; "finally"].

(** [o.name(...)] *)
Definition call_method (o : Dyn) (name : string) : M Dyn :=
  match o with
  | DPromise =>
      if Js.mem name promise_methods then ret DPromise
      else throw (TypeError (name ++ " is not a function"))
  | DUndefined => throw (TypeError "Cannot read properties of undefined")
  end.

(** [await o] *)
Definition await (o : Dyn) : M Dyn := ret DUndefined.

(** [o.count] *)
Definition get_count (o : Dyn) : M Dyn :=
  match o with
  | DPromise => ret DUndefined
  | DUndefined => throw (TypeError "Cannot read properties of undefined")
  end.

Definition trainingSchema : Joi.ObjectSchema :=
  [ ("title", Joi.str [Joi.Min 3; Joi.Max 255]);
    ("type",
     Joi.KString
       {| Joi.required := true;
          Joi.only := Some ["video"; "pdf"; "text"; "infographic"];
          Joi.rules := [] |});
    ("url", Joi.str [Joi.Uri]);
    ("language", Joi.str [Joi.Min 2; Joi.Max 50]);
    ("description",
     Joi.KString
       {| Joi.required := false; Joi.only := None;
          Joi.rules := [Joi.Max 1000] |}) ].

(** [router.get('/')] *)
Definition get_root (req : Request) : Db -> Response * Db :=
  try_catch (
    let type := Js.prop "type" (query req) in
    let language := Js.prop "language" (query req) in
    let page := default 1 (query_page req) in
    let limit := default 10 (query_limit req) in
    query_ <- call_method (db "training_content") "select" ;;
    query_ <- call_method query_ "leftJoin" ;;
    query_ <- call_method query_ "orderBy" ;;
    query_ <- (if Js.truthy type then call_method query_ "where"
               else ret query_) ;;
    query_ <- (if Js.truthy language then call_method query_ "where"
               else ret query_) ;;
    limited <- call_method query_ "limit" ;;
    limited <- call_method limited "offset" ;;
    trainingContent <- await limited ;;
    let countQuery := db "training_content" in
    countQuery <- (if Js.truthy type then call_method countQuery "where"
                   else ret countQuery) ;;
    countQuery <- (if Js.truthy language then call_method countQuery "where"
                   else ret countQuery) ;;
    counted <- call_method countQuery "count" ;;
    counted <- call_method counted "first" ;;
    totalCount <- await counted ;;
    count <- get_count totalCount ;;
    ret (json (RawPage "trainingContent" trainingContent count page limit))).

(** [router.get('/:id')] *)
Definition get_id (req : Request) : Db -> Response * Db :=
  try_catch (
    TrainingContent <- model "TrainingContent" ;;
    content <- Model.findById_populated TrainingContent (param_id req) ;;
    match content with
    | None =>
        ret (status_json 404 (Message false "Training content not found"))
    | Some content => ret (json (One None "content" content))
    end).

(** The handler of [router.post('/')] *)
Definition post_root `{External} (user : User) (req : Request)
  : Db -> Response * Db :=
  try_catch (
    match Joi.validate trainingSchema (payload req) with
    | inl details => ret (validation_error details)
    | inr value =>
        TrainingContent <- model "TrainingContent" ;;
        content <- Model.new TrainingContent value (user_id user) ;;
        Model.save TrainingContent content ;;;
        newContent <- Model.findById_populated TrainingContent
                        (Oid (_id content)) ;;
        newContent <- non_null newContent ;;
        ret (status_json 201
               (One (Some "Training content created successfully") "content"
                    newContent))
    end).

(** The handler of [router.put('/:id')] *)
Definition put_id `{External} (user : User) (req : Request)
  : Db -> Response * Db :=
  try_catch (
    let id := param_id req in
    match Joi.validate trainingSchema (payload req) with
    | inl details => ret (validation_error details)
    | inr value =>
        TrainingContent <- model "TrainingContent" ;;
        existingContent <- Model.findById TrainingContent id ;;
        match existingContent with
        | None =>
            ret (status_json 404
                   (Message false "Training content not found"))
        | Some existingContent =>
            if negb (createdBy existingContent =? user_id user)%nat
               && negb (String.eqb (role user) "admin")
            then ret (status_json 403
                        (Message false
                           "You can only update your own training content"))
            else
              updatedContent <-
                Model.findByIdAndUpdate TrainingContent id value ;;
              updatedContent <- non_null updatedContent ;;
              updatedContent <- Model.populate updatedContent ;;
              ret (json (One (Some "Training content updated successfully")
                           "content" updatedContent))
        end
    end).

(** The handler of [router.delete('/:id')] *)
Definition delete_id (user : User) (req : Request) : Db -> Response * Db :=
  try_catch (
    let id := param_id req in
    TrainingContent <- model "TrainingContent" ;;
    existingContent <- Model.findById TrainingContent id ;;
    match existingContent with
    | None =>
        ret (status_json 404 (Message false "Training content not found"))
    | Some existingContent =>
        if negb (createdBy existingContent =? user_id user)%nat
           && negb (String.eqb (role user) "admin")
        then ret (status_json 403
                    (Message false
                       "You can only delete your own training content"))
        else
          Model.findByIdAndDelete TrainingContent id ;;;
          ret (json (Message true "Training content deleted successfully"))
    end).

(** The filter object of [router.get('/type/:type')] *)
Definition type_filter (req : Request) : Model.Filter :=
  let type := param req in
  let language := Js.prop "language" (query req) in
  [Model.Field "type" (Model.Equals type)]
    ++ when_given language
         (fun v => Model.Field "language" (Model.Equals v)).

(** [router.get('/type/:type')] *)
Definition get_type `{External} (req : Request) : Db -> Response * Db :=
  try_catch (
    let type := param req in
    let language := Js.prop "language" (query req) in
    let page := default 1 (query_page req) in
    let limit := default 10 (query_limit req) in
    let filter := type_filter req in
    let skip := ((page - 1) * limit)%Z in
    TrainingContent <- model "TrainingContent" ;;
    content <- (Model.find TrainingContent filter
                |> Model.populate_createdBy
                |> Model.sort_createdAt_desc
                |> Model.skip skip
                |> Model.limit limit
                |> Model.exec) ;;
    ret (json (Page "content" content None))).

Definition POST `{External} (req : Request) : Db -> Response * Db :=
  authenticateToken req (fun user =>
    requireRole ["entrepreneur"; "admin"] user (post_root user req)).

Definition PUT `{External} (req : Request) : Db -> Response * Db :=
  authenticateToken req (fun user =>
    requireRole ["entrepreneur"; "admin"] user (put_id user req)).

Definition DELETE (req : Request) : Db -> Response * Db :=
  authenticateToken req (fun user =>
    requireRole ["entrepreneur"; "admin"] user (delete_id user req)).

End TrainingRouter.

(* ================================================================== *)
(** * The specification's reading of the filters, and sample data *)
(* ================================================================== *)

(** Requests that differ from another in one component. *)
Module Req.
Import Mongoose Http.

Definition empty : Request :=
  {| caller := None; param_id := Malformed; param := ""; query := [];
     query_page := None; query_limit := None; payload := [] |}.

Definition sent_by (u : User) (r : Request) : Request :=
  {| caller := Some u; param_id := param_id r; param := param r;
     query := query r; query_page := query_page r;
     query_limit := query_limit r; payload := payload r |}.

Definition on_id (n : nat) (r : Request) : Request :=
  {| caller := caller r; param_id := Oid n; param := param r;
     query := query r; query_page := query_page r;
     query_limit := query_limit r; payload := payload r |}.

Definition on_param (s : string) (r : Request) : Request :=
  {| caller := caller r; param_id := param_id r; param := s;
     query := query r; query_page := query_page r;
     query_limit := query_limit r; payload := payload r |}.

Definition with_query (q : list (string * string)) (r : Request) : Request :=
  {| caller := caller r; param_id := param_id r; param := param r;
     query := q; query_page := query_page r;
     query_limit := query_limit r; payload := payload r |}.

Definition with_page (p : Z) (r : Request) : Request :=
  {| caller := caller r; param_id := param_id r; param := param r;
     query := query r; query_page := Some p;
     query_limit := query_limit r; payload := payload r |}.

Definition with_limit (l : Z) (r : Request) : Request :=
  {| caller := caller r; param_id := param_id r; param := param r;
     query := query r; query_page := query_page r;
     query_limit := Some l; payload := payload r |}.

Definition with_payload (b : list (string * Js.value)) (r : Request)
  : Request :=
  {| caller := caller r; param_id := param_id r; param := param r;
     query := query r; query_page := query_page r;
     query_limit := query_limit r; payload := b |}.

End Req.

(** The predicates the specification describes. *)
Module Spec.
Import Mongoose Http.

(** [language] by exact equality. *)
Definition language_is (v : string) (d : Doc) : bool :=
  Model.on_field "language" (String.eqb v) d.

(** A text field holding the value as a substring, whatever the case. *)
Definition field_contains (f v : string) (d : Doc) : bool :=
  Model.on_field f (Substring.contains_ci v) d.

(** The claim as the specification words it: every parameter that is
    supplied constrains the records. *)
Definition supplied (v : option string) (p : string -> Doc -> bool) (d : Doc)
  : bool :=
  match v with
  | Some s => p s d
  | None => true
  end.

(** What the handlers do: a parameter constrains the records when it is
    supplied and not empty. *)
Definition given (v : option string) (p : string -> Doc -> bool) (d : Doc)
  : bool :=
  if Js.truthy v then supplied v p d else true.

(** The conjunction of the predicates of a List request: [language], and
    the text parameters [texts]. *)
Definition list_matches
  (combine : option string -> (string -> Doc -> bool) -> Doc -> bool)
  (texts : list string) (q : list (string * string)) (d : Doc) : bool :=
  combine (Js.prop "language" q) language_is d
  && forallb (fun f => combine (Js.prop f q) (field_contains f) d) texts.

(** The predicate of a Search request over the text fields [texts]. *)
Definition search_matches
  (combine : option string -> (string -> Doc -> bool) -> Doc -> bool)
  (texts : list string) (term : string) (q : list (string * string))
  (d : Doc) : bool :=
  existsb (fun f => field_contains f term d) texts
  && combine (Js.prop "language" q) language_is d.

(** A text parameter on which the regular-expression reading and the
    substring reading coincide: absent, or without metacharacter. *)
Definition plain_param (v : option string) : bool :=
  match v with
  | Some s => MongoRegex.plain s
  | None => true
  end.

(** The page of [l] that a request for [page] and [limit] gets. *)
Definition page_of (page limit : Z) (l : list Doc) : list Doc :=
  firstn (Z.to_nat limit) (skipn (Z.to_nat ((page - 1) * limit)) l).

(** The populated creator of each document. *)
Definition populated (db : Db) (l : list Doc) : list Item :=
  map (fun d => {| doc := d;
                   owner := Model.find_user (createdBy d) (users db) |}) l.

(** The page of the records of [c] that satisfy [p], newest first, each
    with its creator. *)
Definition listing (db : Db) (c : list Doc) (p : Doc -> bool)
  (page limit : Z) : list Item :=
  populated db (page_of page limit (Model.sort_desc (List.filter p c))).

(** The number of records of [c] that satisfy [p]. *)
Definition total (c : list Doc) (p : Doc -> bool) : Z :=
  Z.of_nat (List.length (List.filter p c)).

(** [n] is the ceiling of [a / b]. *)
Definition is_ceiling (n a b : Z) : Prop := (b * (n - 1) < a <= b * n)%Z.

(** The failing keys of a payload: the paths of its violations. *)
Definition failing_keys `{External} (schema : Joi.ObjectSchema)
  (o : list (string * Js.value)) : list string :=
  map Joi.path (Joi.violations schema o).

(** A message names a key when it holds the key between double quotes. *)
Definition names_key (msg key : string) : bool :=
  Substring.occurs_ci (Js.chars (Joi.label key)) (Js.chars msg).

(** A violation names its key. *)
Definition named (e : Joi.Detail) : Prop :=
  names_key (Joi.message e) (Joi.path e) = true.

End Spec.

Module Sample.
Import Mongoose Http.

(** An instance of the libraries' parameters, to run the handlers on
    examples: the models' own patterns for the two formats, and an engine
    that rejects every pattern outside the modelled fragment. *)
Definition libraries : External :=
  {| joi_uri := url_test; joi_email := email_test;
     pcre_other := fun _ => None |}.

Definition asha : User := {| user_id := 1; name := "Asha"; role := "admin" |}.
Definition ravi : User :=
  {| user_id := 2; name := "Ravi"; role := "entrepreneur" |}.
Definition meena : User := {| user_id := 3; name := "Meena"; role := "user" |}.
Definition kiran : User :=
  {| user_id := 4; name := "Kiran"; role := "entrepreneur" |}.

Definition text_fields (l : list (string * string))
  : list (string * Js.value) :=
  map (fun kv => (fst kv, Js.VStr (snd kv))) l.

Definition scheme_fields (title category language : string)
  : list (string * Js.value) :=
  text_fields [ ("title", title);
                ("description", "Support for small growers");
                ("eligibility", "Any registered grower");
                ("link", "https://x.test/scheme");
                ("language", language);
                ("category", category) ].

Definition job_fields (title category location language : string)
  : list (string * Js.value) :=
  text_fields [ ("title", title);
                ("description", "Seasonal work, paid weekly");
                ("category", category);
                ("location", location);
                ("language", language) ].

Definition training_fields : list (string * Js.value) :=
  text_fields [ ("title", "Intro"); ("type", "video");
                ("url", "https://x.test/a"); ("language", "en") ].

Definition marketplace_fields (business location language : string)
  : list (string * Js.value) :=
  [ ("businessName", Js.VStr business);
    ("ownerName", Js.VStr "Meena");
    ("productService", Js.VStr "Hand-woven baskets");
    ("contact", Js.VObj (text_fields [ ("phone", "919812345678");
                                       ("email", "meena@x.co");
                                       ("address", "12 Market Road, Pune") ]));
    ("language", Js.VStr language);
    ("location", Js.VStr location) ].

Definition stored (id : nat) (f : list (string * Js.value)) (creator t : nat)
  : Doc :=
  {| _id := id; fields := f; createdBy := creator; createdAt := t;
     updatedAt := t |}.

Definition store : Db :=
  {| users := [asha; ravi; meena; kiran];
     schemes :=
       [ stored 10 (scheme_fields "Farm credit" "agriculture" "en") 1 1;
         stored 11 (scheme_fields "Crop cover" "Farming" "en") 2 2;
         stored 12 (scheme_fields "Loom grant" "textile" "hi") 1 3 ];
     jobs :=
       [ stored 20 (job_fields "Picker" "farm" "Pune" "en") 3 4;
         stored 21 (job_fields "Weaver" "textile" "Nashik" "hi") 2 5 ];
     trainingcontents :=
       [ stored 30 (training_fields
                    ++ [("description", Js.VStr "A first lesson")]) 2 6 ];
     marketplaces :=
       [ stored 40 (marketplace_fields "Basket House" "Pune" "en") 3 7 ];
     clock := 8;
     next_id := 50 |}.

(** The request of the training scenario. *)
Definition scenario (u : User) : Request :=
  Req.sent_by u (Req.with_payload training_fields Req.empty).

End Sample.

(** The routers side by side: the four resources, with the handlers,
    the schema and the messages of each. *)
Module Endpoints.
Import Mongoose Http.

Inductive Listing : Type := SchemesList | JobsList | MarketplaceList.

Definition list_handler `{External} (e : Listing)
  : Request -> Db -> Response * Db :=
  match e with
  | SchemesList => SchemesRouter.get_root
  | JobsList => JobsRouter.get_root
  | MarketplaceList => MarketplaceRouter.get_root
  end.

Definition list_filter (e : Listing) : Request -> Model.Filter :=
  match e with
  | SchemesList => SchemesRouter.list_filter
  | JobsList => JobsRouter.list_filter
  | MarketplaceList => MarketplaceRouter.list_filter
  end.

Definition list_key (e : Listing) : string :=
  match e with
  | SchemesList => "schemes"
  | JobsList => "jobs"
  | MarketplaceList => "marketplace"
  end.

Definition list_model (e : Listing) : ModelName :=
  match e with
  | SchemesList => Scheme
  | JobsList => Job
  | MarketplaceList => Marketplace
  end.

(** The text parameters of a listing, beside [language]. *)
Definition list_texts (e : Listing) : list string :=
  match e with
  | SchemesList => ["category"]
  | JobsList => ["category"; "location"]
  | MarketplaceList => ["location"]
  end.

(** The parameters a listing reads: the filters, and [page] and [limit]
    (which a request holds apart from the others). *)
Definition recognized (e : Listing) (k : string) : bool :=
  Js.mem k ("language" :: list_texts e ++ ["page"; "limit"]).

Inductive Search : Type := SchemesSearch | MarketplaceSearch.

Definition search_handler `{External} (e : Search)
  : Request -> Db -> Response * Db :=
  match e with
  | SchemesSearch => SchemesRouter.get_search
  | MarketplaceSearch => MarketplaceRouter.get_search
  end.

Definition search_filter (e : Search) : Request -> Model.Filter :=
  match e with
  | SchemesSearch => SchemesRouter.search_filter
  | MarketplaceSearch => MarketplaceRouter.search_filter
  end.

Definition search_model (e : Search) : ModelName :=
  match e with
  | SchemesSearch => Scheme
  | MarketplaceSearch => Marketplace
  end.

(** The text fields a search looks into. *)
Definition search_texts (e : Search) : list string :=
  match e with
  | SchemesSearch => ["title"; "description"; "category"]
  | MarketplaceSearch => ["businessName"; "productService"]
  end.

Inductive Resource : Type := Schemes | Jobs | Training | Marketplaces.

Definition model_of (r : Resource) : ModelName :=
  match r with
  | Schemes => Scheme
  | Jobs => Job
  | Training => TrainingContent
  | Marketplaces => Marketplace
  end.

Definition schema_of (r : Resource) : Joi.ObjectSchema :=
  match r with
  | Schemes => SchemesRouter.schemeSchema
  | Jobs => JobsRouter.jobSchema
  | Training => TrainingRouter.trainingSchema
  | Marketplaces => MarketplaceRouter.marketplaceSchema
  end.

(** The handlers, as they run once the middleware has let [user] in. *)
Definition post_handler `{External} (r : Resource) (user : User)
  : Request -> Db -> Response * Db :=
  match r with
  | Schemes => SchemesRouter.post_root user
  | Jobs => JobsRouter.post_root user
  | Training => TrainingRouter.post_root user
  | Marketplaces => MarketplaceRouter.post_root user
  end.

Definition put_handler `{External} (r : Resource) (user : User)
  : Request -> Db -> Response * Db :=
  match r with
  | Schemes => SchemesRouter.put_id
  | Jobs => JobsRouter.put_id user
  | Training => TrainingRouter.put_id user
  | Marketplaces => MarketplaceRouter.put_id user
  end.

Definition delete_handler (r : Resource) (user : User)
  : Request -> Db -> Response * Db :=
  match r with
  | Schemes => SchemesRouter.delete_id
  | Jobs => JobsRouter.delete_id user
  | Training => TrainingRouter.delete_id user
  | Marketplaces => MarketplaceRouter.delete_id user
  end.

(** The routes, middleware included. *)
Definition PUT `{External} (r : Resource) : Request -> Db -> Response * Db :=
  match r with
  | Schemes => SchemesRouter.PUT
  | Jobs => JobsRouter.PUT
  | Training => TrainingRouter.PUT
  | Marketplaces => MarketplaceRouter.PUT
  end.

Definition DELETE (r : Resource) : Request -> Db -> Response * Db :=
  match r with
  | Schemes => SchemesRouter.DELETE
  | Jobs => JobsRouter.DELETE
  | Training => TrainingRouter.DELETE
  | Marketplaces => MarketplaceRouter.DELETE
  end.

Definition not_found (r : Resource) : Response :=
  status_json 404
    (Message false
       match r with
       | Schemes => "Scheme not found"
       | Jobs => "Job not found"
       | Training => "Training content not found"
       | Marketplaces => "Marketplace entry not found"
       end).

Definition plural (r : Resource) : string :=
  match r with
  | Schemes => "schemes"
  | Jobs => "jobs"
  | Training => "training content"
  | Marketplaces => "marketplace entries"
  end.

(** [403 You can only update/delete your own ...] *)
Definition forbidden (verb : string) (r : Resource) : Response :=
  status_json 403
    (Message false
       ("You can only " ++ verb ++ " your own " ++ plural r)%string).

Definition singular (r : Resource) : string :=
  match r with
  | Schemes => "Scheme"
  | Jobs => "Job"
  | Training => "Training content"
  | Marketplaces => "Marketplace entry"
  end.

Definition data_key (r : Resource) : string :=
  match r with
  | Schemes => "scheme"
  | Jobs => "job"
  | Training => "content"
  | Marketplaces => "entry"
  end.

Definition deleted (r : Resource) : Response :=
  json (Message true (singular r ++ " deleted successfully")%string).

Definition updated (r : Resource) (i : Item) : Response :=
  json (One (Some (singular r ++ " updated successfully")%string)
            (data_key r) i).

(** The resources whose update and delete handlers reach the comparison
    of the caller with the creator. *)
Definition owned (r : Resource) : bool :=
  match r with
  | Jobs | Marketplaces => true
  | Schemes | Training => false
  end.

(** The resources whose handlers reach their model. *)
Definition served (r : Resource) : bool :=
  match r with
  | Training => false
  | _ => true
  end.

End Endpoints.

(** The handlers that read, side by side; the answers of get-by-id and
    of create; and plain descriptions of what the models' patterns
    accept. *)
Module Reading.
Import Mongoose Http.

Definition get_handler (r : Endpoints.Resource)
  : Request -> Db -> Response * Db :=
  match r with
  | Endpoints.Schemes => SchemesRouter.get_id
  | Endpoints.Jobs => JobsRouter.get_id
  | Endpoints.Training => TrainingRouter.get_id
  | Endpoints.Marketplaces => MarketplaceRouter.get_id
  end.

Inductive Read : Type :=
| ListOf (e : Endpoints.Listing)
| SearchOf (e : Endpoints.Search)
| ById (r : Endpoints.Resource)
| SchemesByCategory
| TrainingList
| TrainingByType.

Definition read_handler `{External} (x : Read)
  : Request -> Db -> Response * Db :=
  match x with
  | ListOf e => Endpoints.list_handler e
  | SearchOf e => Endpoints.search_handler e
  | ById r => get_handler r
  | SchemesByCategory => SchemesRouter.get_category
  | TrainingList => TrainingRouter.get_root
  | TrainingByType => TrainingRouter.get_type
  end.

(** A document with its populated creator. *)
Definition with_creator (db : Db) (d : Doc) : Item :=
  {| doc := d; owner := Model.find_user (createdBy d) (users db) |}.

(** [200 { success: true, data: { key: item } }] *)
Definition found (r : Endpoints.Resource) (i : Item) : Response :=
  json (One None (Endpoints.data_key r) i).

(** [201 { success: true, message: '... created successfully', data }] *)
Definition created (r : Endpoints.Resource) (i : Item) : Response :=
  status_json 201
    (One (Some (Endpoints.singular r ++ " created successfully")%string)
         (Endpoints.data_key r) i).

(** The document a successful [save] of a new document stores. *)
Definition inserted (db : Db) (creator : nat) (f : list (string * Js.value))
  : Doc :=
  {| _id := next_id db; fields := f; createdBy := creator;
     createdAt := clock db; updatedAt := clock db |}.

(** The records of a response that is a page. *)
Definition items_of (r : Response) : list Item :=
  match body r with
  | Page _ items _ => items
  | _ => []
  end.

(** Documents in the order newest first. *)
Definition newest_first (l : list Doc) : Prop :=
  StronglySorted (fun a b => createdAt b <= createdAt a) l.

(** No two documents of a collection share their id. *)
Definition unique_ids (c : list Doc) : Prop := NoDup (map _id c).

(** The caller may change the record: the creator, or an admin. *)
Definition may_mutate (user : User) (d : Doc) : Prop :=
  createdBy d = user_id user \/ role user = "admin".

(** The database once the record of id [n] is deleted from [r]. *)
Definition without (r : Endpoints.Resource) (n : nat) (db : Db) : Db :=
  write (Endpoints.model_of r)
    (Model.remove_first n (coll (Endpoints.model_of r) db)) db.

(** The record [d] of [r] once [value] is assigned to it. *)
Definition revised (r : Endpoints.Resource)
  (value : list (string * Js.value)) (db : Db) (d : Doc) : Doc :=
  Model.assign
    (apply_setters (Mongoose.schema_of (Endpoints.model_of r)) value)
    (clock db) d.

(** The database once the record of id [n] of [r] is replaced by [d']. *)
Definition with_revision (r : Endpoints.Resource) (n : nat) (d' : Doc)
  (db : Db) : Db :=
  write (Endpoints.model_of r)
    (Model.update_first n (fun _ => d') (coll (Endpoints.model_of r) db)) db.

(** The records of a category: the category holds the term, whatever
    the case, and the language is the parameter's when it is given. *)
Definition category_matches (term : string) (q : list (string * string))
  (d : Doc) : bool :=
  Spec.field_contains "category" term d
  && Spec.given (Js.prop "language" q) Spec.language_is d.

(** A phone number as the pattern of the marketplace describes it: an
    optional [+], a digit from 1 to 9, then at most fifteen digits. *)
Definition is_phone (s : string) : bool :=
  let number :=
    match Js.chars s with
    | c :: rest => if Ascii.eqb c "+"%char then rest else c :: rest
    | [] => []
    end in
  match number with
  | c :: digits =>
      existsb (Ascii.eqb c) (Js.chars "123456789")
      && forallb Js.is_digit digits
      && (List.length digits <=? 15)%nat
  | [] => false
  end.

(** [p] stripped from the head of [s]. *)
Fixpoint strip (p s : list ascii) : option (list ascii) :=
  match p, s with
  | [], _ => Some s
  | _ :: _, [] => None
  | a :: p', b :: s' => if Ascii.eqb a b then strip p' s' else None
  end.

Definition line_terminator (c : ascii) : bool :=
  Ascii.eqb c "010"%char || Ascii.eqb c "013"%char.

(** A URL as the pattern of the models describes it: [http://] or
    [https://], then a character that ends no line. *)
Definition is_http_url (s : string) : bool :=
  let after scheme :=
    match strip (Js.chars scheme) (Js.chars s) with
    | Some (c :: _) => negb (line_terminator c)
    | _ => false
    end in
  after "http://" || after "https://".

End Reading.

(** More sample payloads. *)
Module MoreSamples.
Import Mongoose Http.

(** A scheme whose eligibility text has seven characters. *)
Definition short_scheme : list (string * Js.value) :=
  Sample.text_fields [ ("title", "Seed fund");
                       ("description", "Seeds for the next season");
                       ("eligibility", "Growers");
                       ("link", "https://x.test/seed");
                       ("language", "en");
                       ("category", "agriculture") ].

(** A marketplace entry whose product description has seven
    characters. *)
Definition short_entry : list (string * Js.value) :=
  [ ("businessName", Js.VStr "Basket House");
    ("ownerName", Js.VStr "Meena");
    ("productService", Js.VStr "Baskets");
    ("contact",
     Js.VObj (Sample.text_fields [ ("phone", "919812345678");
                                   ("email", "meena@x.co");
                                   ("address", "12 Market Road, Pune") ]));
    ("language", Js.VStr "en");
    ("location", Js.VStr "Pune") ].

Definition picker : list (string * Js.value) :=
  Sample.job_fields "Picker" "farm" "Pune" "en".

Definition packer : list (string * Js.value) :=
  Sample.job_fields "Packer" "farm" "Pune" "en".

(** The job of id 20, which Meena created. *)
Definition job_20 : Doc := Sample.stored 20 picker 3 4.

(** The scheme of id 11, which Ravi created. *)
Definition scheme_11 : Doc :=
  Sample.stored 11 (Sample.scheme_fields "Crop cover" "Farming" "en") 2 2.

End MoreSamples.

(** Unfolding of the handlers' control operators. *)
Ltac handler :=
  cbv beta delta [Http.try_catch Async.bind Async.ret Async.throw Async.gets
                  Async.modify Async.lift Http.non_null
                  Http.authenticateToken Http.requireRole] iota zeta.

(* ================================================================== *)
(** * Properties of the libraries' models *)
(* ================================================================== *)

Section RegexFacts.

(** A pattern of ordinary characters matches at the head of a string
    exactly when it is a prefix of it, up to case. *)
Lemma run_plain_prefix (ps s : list ascii) :
  forallb (fun c => negb (MongoRegex.is_other_meta c)
                    && negb (Ascii.eqb c "."%char)) ps = true ->
  Regex.run (fold_right (fun c r => Regex.Cat (MongoRegex.atom c) r)
                        Regex.Eps ps) s Regex.anything
  = Substring.prefix_ci ps s.
Proof.
  revert s. induction ps as [|c ps IH]; intros s Hp.
  - destruct s; reflexivity.
  - simpl in Hp. apply andb_true_iff in Hp as [Hc Hps].
    apply andb_true_iff in Hc as [_ Hdot].
    apply negb_true_iff in Hdot.
    cbn [fold_right Regex.run]. unfold MongoRegex.atom at 1. rewrite Hdot.
    cbn [Regex.run]. destruct s as [|b s]; [reflexivity|].
    cbn [Substring.prefix_ci]. now rewrite IH.
Qed.

Lemma search_plain_occurs (pat : string) (s : list ascii) :
  MongoRegex.plain pat = true ->
  Regex.search_from (MongoRegex.compile_fragment pat) s
  = Substring.occurs_ci (Js.chars pat) s.
Proof.
  intros Hp. unfold MongoRegex.compile_fragment.
  induction s as [|b s IH]; cbn [Regex.search_from Substring.occurs_ci];
    rewrite (run_plain_prefix _ _ Hp); [reflexivity|].
  now rewrite IH.
Qed.

Lemma plain_in_fragment (pat : string) :
  MongoRegex.plain pat = true -> MongoRegex.in_fragment pat = true.
Proof.
  unfold MongoRegex.plain, MongoRegex.in_fragment.
  induction (Js.chars pat) as [|c l IH]; [reflexivity|].
  cbn [forallb]. intros H. apply andb_true_iff in H as [Hc Hl].
  apply andb_true_iff in Hc as [Hc _]. rewrite Hc. now apply IH.
Qed.

Example url_pattern :
  map Mongoose.url_test ["https://x.test/a"; "http://x"; "http://"; "ftp://x"]
  = [true; true; false; false].
Proof. reflexivity. Qed.

Example phone_pattern :
  map Mongoose.phone_test
      ["+919812345678"; "919"; "0123"; "12345678901234567"; "12a"]
  = [true; true; false; false; false].
Proof. reflexivity. Qed.

Example email_pattern :
  map Mongoose.email_test
      ["meena@x.co"; "a.b-c@x.co.in"; "a@x"; "a@x.test"; "@x.co"; "a b@x.co"]
  = [true; true; false; false; false; false].
Proof. reflexivity. Qed.

Context `{External}.

(** On a pattern without metacharacter the [$regex] operator is the
    case-insensitive substring test. *)
Lemma regex_i_plain (pat : string) :
  MongoRegex.plain pat = true ->
  exists m, MongoRegex.regex_i pat = Some m
            /\ forall s, m s = Substring.contains_ci pat s.
Proof.
  intros Hp. unfold MongoRegex.regex_i.
  rewrite (plain_in_fragment _ Hp). eexists. split; [reflexivity|].
  intros s. cbv beta. now rewrite search_plain_occurs.
Qed.

End RegexFacts.

Section SortFacts.
Import Mongoose.

Lemma insert_desc_perm (d : Doc) (l : list Doc) :
  Permutation (Model.insert_desc d l) (d :: l).
Proof.
  induction l as [|x l IH]; cbn [Model.insert_desc]; [reflexivity|].
  destruct (createdAt x <=? createdAt d)%nat; [reflexivity|].
  rewrite IH. apply perm_swap.
Qed.

Lemma sort_desc_perm (l : list Doc) : Permutation (Model.sort_desc l) l.
Proof.
  induction l as [|d l IH]; cbn [Model.sort_desc fold_right]; [reflexivity|].
  fold (Model.sort_desc l). rewrite insert_desc_perm. now constructor.
Qed.

Lemma sort_desc_length (l : list Doc) :
  List.length (Model.sort_desc l) = List.length l.
Proof. apply Permutation_length, sort_desc_perm. Qed.

Lemma sort_desc_in (l : list Doc) (d : Doc) :
  In d (Model.sort_desc l) <-> In d l.
Proof.
  split; apply Permutation_in;
    [apply sort_desc_perm | symmetry; apply sort_desc_perm].
Qed.

Lemma in_firstn {A : Type} (n : nat) (l : list A) (x : A) :
  In x (firstn n l) -> In x l.
Proof.
  revert l. induction n as [|n IH]; intros [|y l]; cbn; try tauto.
  intros [->|Hin]; [now left | right; now apply IH].
Qed.

Lemma in_skipn {A : Type} (n : nat) (l : list A) (x : A) :
  In x (skipn n l) -> In x l.
Proof.
  revert l. induction n as [|n IH]; intros [|y l]; cbn; try tauto.
  intros Hin. right. now apply IH.
Qed.

Lemma in_page_of (page limit : Z) (l : list Doc) (d : Doc) :
  In d (Spec.page_of page limit l) -> In d l.
Proof.
  unfold Spec.page_of. intros Hin.
  apply in_firstn in Hin. eapply in_skipn; eassumption.
Qed.

End SortFacts.

Section ArithFacts.

(** [ceil_div] is the ceiling of the quotient. *)
Lemma ceil_div_spec (a b : Z) :
  (0 < b)%Z ->
  (b * (Js.ceil_div a b - 1) < a <= b * Js.ceil_div a b)%Z.
Proof.
  intros Hb. unfold Js.ceil_div.
  pose proof (Z.div_mod (- a) b ltac:(lia)) as Hdm.
  pose proof (Z.mod_pos_bound (- a) b Hb) as Hm.
  nia.
Qed.

Lemma ceil_div_nonneg (a b : Z) :
  (0 <= a)%Z -> (0 < b)%Z -> (0 <= Js.ceil_div a b)%Z.
Proof. intros Ha Hb. pose proof (ceil_div_spec a b Hb). nia. Qed.

(** A page after the last one starts at or after the end. *)
Lemma beyond_last_page (total page limit : Z) :
  (0 <= total)%Z -> (0 < limit)%Z -> (Js.ceil_div total limit < page)%Z ->
  (total <= (page - 1) * limit)%Z.
Proof. intros Ht Hl Hp. pose proof (ceil_div_spec total limit Hl). nia. Qed.

End ArithFacts.

(* ================================================================== *)
(** * The handlers, step by step *)
(* ================================================================== *)

Section Queries.
Import Mongoose Http.
Context `{External}.

(** A listing query with a filter the engine accepts answers the
    requested page of the matching records. *)
Lemma exec_listing (m : ModelName) (f : Model.Filter) (p : Doc -> bool)
  (page limit : Z) (db : Db) :
  Model.compile f = Some p -> (0 < page)%Z -> (0 < limit)%Z ->
  Model.exec (Model.limit limit
                (Model.skip ((page - 1) * limit)
                   (Model.sort_createdAt_desc
                      (Model.populate_createdBy (Model.find m f))))) db
  = (db, inr (Spec.listing db (coll m db) p page limit)).
Proof.
  intros Hc Hp Hl. unfold Model.exec. handler. cbn. rewrite Hc. cbn.
  unfold Model.window.
  replace ((page - 1) * limit <? 0)%Z with false by (symmetry; apply Z.ltb_ge; nia).
  replace (limit =? 0)%Z with false by (symmetry; apply Z.eqb_neq; lia).
  cbn. rewrite Z.abs_eq by lia. reflexivity.
Qed.

Lemma exec_rejected (q : Model.Query) (db : Db) :
  Model.compile (Model.q_filter q) = None ->
  Model.exec q db = (db, inl MongoServerError).
Proof. intros Hc. unfold Model.exec. handler. now rewrite Hc. Qed.

Lemma count_total (m : ModelName) (f : Model.Filter) (p : Doc -> bool)
  (db : Db) :
  Model.compile f = Some p ->
  Model.countDocuments m f db = (db, inr (Spec.total (coll m db) p)).
Proof. intros Hc. unfold Model.countDocuments. handler. now rewrite Hc. Qed.

(** The records of a listing satisfy the predicate and are stored. *)
Lemma listing_sound (db : Db) (c : list Doc) (p : Doc -> bool)
  (page limit : Z) (i : Item) :
  In i (Spec.listing db c p page limit) ->
  In (doc i) c /\ p (doc i) = true
  /\ owner i = Model.find_user (createdBy (doc i)) (users db).
Proof.
  unfold Spec.listing, Spec.populated. intros Hin.
  apply in_map_iff in Hin as (d & <- & Hd). cbn.
  apply in_page_of, sort_desc_in, filter_In in Hd. tauto.
Qed.

Lemma listing_length (db : Db) (c : list Doc) (p : Doc -> bool)
  (page limit : Z) :
  (0 <= limit)%Z ->
  (Z.of_nat (List.length (Spec.listing db c p page limit)) <= limit)%Z.
Proof.
  intros Hl. unfold Spec.listing, Spec.populated, Spec.page_of.
  rewrite length_map.
  pose proof (firstn_le_length (Z.to_nat limit)
                (skipn (Z.to_nat ((page - 1) * limit))
                   (Model.sort_desc (List.filter p c)))).
  lia.
Qed.

Lemma listing_beyond (db : Db) (c : list Doc) (p : Doc -> bool)
  (page limit : Z) :
  (0 < limit)%Z -> (Js.ceil_div (Spec.total c p) limit < page)%Z ->
  Spec.listing db c p page limit = [].
Proof.
  intros Hl Hp. unfold Spec.listing, Spec.populated, Spec.page_of.
  rewrite skipn_all2; [now rewrite firstn_nil|].
  rewrite sort_desc_length.
  pose proof (beyond_last_page (Spec.total c p) page limit) as Hb.
  unfold Spec.total in *. lia.
Qed.

(** A first page that holds every matching record holds exactly them. *)
Lemma listing_complete (db : Db) (c : list Doc) (p : Doc -> bool)
  (limit : Z) :
  (Spec.total c p <= limit)%Z ->
  Permutation (map doc (Spec.listing db c p 1 limit)) (List.filter p c).
Proof.
  intros Hl. unfold Spec.listing, Spec.populated, Spec.page_of.
  rewrite map_map. cbn [doc]. rewrite map_id.
  change (Z.to_nat ((1 - 1) * limit)) with 0%nat. cbn [skipn].
  rewrite firstn_all2; [apply sort_desc_perm|].
  rewrite sort_desc_length. unfold Spec.total in Hl. lia.
Qed.

Lemma listing_ext (db : Db) (c : list Doc) (p q : Doc -> bool)
  (page limit : Z) :
  (forall d, p d = q d) ->
  Spec.listing db c p page limit = Spec.listing db c q page limit
  /\ Spec.total c p = Spec.total c q.
Proof.
  intros Hpq. unfold Spec.listing, Spec.total.
  now rewrite (filter_ext p q Hpq).
Qed.

End Queries.

Section Filters.
Import Mongoose Http.
Context `{External}.

Lemma compile_app (f g : Model.Filter) (p q : Doc -> bool) :
  Model.compile f = Some p -> Model.compile g = Some q ->
  exists r, Model.compile (f ++ g) = Some r
            /\ forall d, r d = p d && q d.
Proof.
  revert p. induction f as [|cl f IH]; intros p Hf Hg.
  - cbn in Hf. injection Hf as <-. exists q. split; [exact Hg|reflexivity].
  - cbn [Model.compile] in Hf. cbn [app Model.compile].
    destruct (Model.compile_clause cl) as [pc|]; [|discriminate].
    destruct (Model.compile f) as [pf|]; [|discriminate].
    injection Hf as <-.
    destruct (IH pf eq_refl Hg) as (r & -> & Hr).
    eexists. split; [reflexivity|]. intros d. cbv beta.
    now rewrite Hr, andb_assoc.
Qed.

(** The [language] entry is the exact comparison, when the parameter is
    given. *)
Lemma compile_language (v : option string) :
  exists p,
    Model.compile
      (when_given v (fun s => Model.Field "language" (Model.Equals s)))
    = Some p
    /\ forall d, p d = Spec.given v Spec.language_is d.
Proof.
  unfold when_given, Spec.given. destruct v as [s|]; cbn [Js.truthy].
  - destruct (negb (String.eqb s "")); cbn; eexists; split;
      try reflexivity; intros d; cbn; now rewrite ?andb_true_r.
  - cbn. eexists. split; reflexivity.
Qed.

(** A text entry is the substring test, when the parameter is given and
    has no metacharacter. *)
Lemma compile_text (f : string) (v : option string) :
  Spec.plain_param v = true ->
  exists p,
    Model.compile (when_given v (fun s => Model.Field f (Model.RegexI s)))
    = Some p
    /\ forall d, p d = Spec.given v (Spec.field_contains f) d.
Proof.
  unfold when_given, Spec.given, Spec.plain_param.
  destruct v as [s|]; cbn [Js.truthy]; intros Hp.
  - destruct (negb (String.eqb s "")).
    + destruct (regex_i_plain s Hp) as (m & Hm & Hms).
      cbn. rewrite Hm. cbn. eexists. split; [reflexivity|].
      intros d. cbn. unfold Spec.field_contains, Model.on_field.
      rewrite andb_true_r. destruct (Model.field_string f d); auto.
    + cbn. eexists. split; reflexivity.
  - cbn. eexists. split; reflexivity.
Qed.

(** The filter of a listing whose text parameters have no metacharacter
    is the conjunction the specification describes, an empty parameter
    counting as an absent one. *)
Lemma list_filter_plain (e : Endpoints.Listing) (req : Request) :
  forallb (fun f => Spec.plain_param (Js.prop f (query req)))
          (Endpoints.list_texts e) = true ->
  exists p,
    Model.compile (Endpoints.list_filter e req) = Some p
    /\ forall d,
         p d = Spec.list_matches Spec.given (Endpoints.list_texts e)
                 (query req) d.
Proof.
  intros Hp.
  destruct (compile_language (Js.prop "language" (query req)))
    as (pl & Hl & Hld).
  destruct e; cbn [Endpoints.list_texts forallb] in Hp;
    cbn [Endpoints.list_filter Endpoints.list_texts];
    unfold SchemesRouter.list_filter, JobsRouter.list_filter,
      MarketplaceRouter.list_filter, Spec.list_matches; cbn [forallb].
  - rewrite andb_true_r in Hp.
    destruct (compile_text "category" _ Hp) as (pc & Hc & Hcd).
    destruct (compile_app _ _ _ _ Hl Hc) as (r & Hr & Hrd).
    exists r. split; [exact Hr|]. intros d.
    now rewrite Hrd, Hld, Hcd, andb_true_r.
  - apply andb_true_iff in Hp as [Hp1 Hp2]. rewrite andb_true_r in Hp2.
    destruct (compile_text "category" _ Hp1) as (pc & Hc & Hcd).
    destruct (compile_text "location" _ Hp2) as (po & Ho & Hod).
    destruct (compile_app _ _ _ _ Ho Hl) as (r1 & Hr1 & Hr1d).
    destruct (compile_app _ _ _ _ Hc Hr1) as (r & Hr & Hrd).
    exists r. split; [exact Hr|]. intros d.
    rewrite Hrd, Hr1d, Hld, Hcd, Hod, andb_true_r.
    destruct (Spec.given (Js.prop "category" (query req)) _ d),
      (Spec.given (Js.prop "location" (query req)) _ d),
      (Spec.given (Js.prop "language" (query req)) _ d); reflexivity.
  - rewrite andb_true_r in Hp.
    destruct (compile_text "location" _ Hp) as (po & Ho & Hod).
    destruct (compile_app _ _ _ _ Hl Ho) as (r & Hr & Hrd).
    exists r. split; [exact Hr|]. intros d.
    now rewrite Hrd, Hld, Hod, andb_true_r.
Qed.

(** The alternatives of a search for a term without metacharacter. *)
Lemma compile_alternatives_plain (term : string) (texts : list string) :
  MongoRegex.plain term = true ->
  exists p,
    Model.compile_alternatives
      (map (fun f => (f, Model.RegexI term)) texts) = Some p
    /\ forall d, p d = existsb (fun f => Spec.field_contains f term d) texts.
Proof.
  intros Hp. destruct (regex_i_plain term Hp) as (m & Hm & Hms).
  induction texts as [|f texts (p & IHp & IHd)].
  - cbn. eexists. split; reflexivity.
  - cbn [map Model.compile_alternatives Model.compile_cond].
    rewrite Hm, IHp. cbn. eexists. split; [reflexivity|].
    intros d. cbn. rewrite IHd. f_equal.
    unfold Spec.field_contains, Model.on_field.
    destruct (Model.field_string f d); auto.
Qed.

Lemma search_filter_shape (e : Endpoints.Search) (req : Request) :
  Endpoints.search_filter e req
  = [Model.Or (map (fun f => (f, Model.RegexI (param req)))
                   (Endpoints.search_texts e))]
    ++ when_given (Js.prop "language" (query req))
         (fun v => Model.Field "language" (Model.Equals v)).
Proof. destruct e; reflexivity. Qed.

(** The filter of a search for a term without metacharacter. *)
Lemma search_filter_plain (e : Endpoints.Search) (req : Request) :
  MongoRegex.plain (param req) = true ->
  exists p,
    Model.compile (Endpoints.search_filter e req) = Some p
    /\ forall d,
         p d = Spec.search_matches Spec.given (Endpoints.search_texts e)
                 (param req) (query req) d.
Proof.
  intros Hp. rewrite search_filter_shape.
  destruct (compile_language (Js.prop "language" (query req)))
    as (pl & Hl & Hld).
  destruct (compile_alternatives_plain (param req)
              (Endpoints.search_texts e) Hp)
    as (pa & Ha & Had).
  assert (Hor : Model.compile
                  [Model.Or (map (fun f => (f, Model.RegexI (param req)))
                                 (Endpoints.search_texts e))]
                = Some (fun d => pa d && true)).
  { cbn. now rewrite Ha. }
  destruct (compile_app _ _ _ _ Hor Hl) as (r & Hr & Hrd).
  exists r. split; [exact Hr|]. intros d.
  unfold Spec.search_matches. now rewrite Hrd, Hld, Had, andb_true_r.
Qed.

End Filters.

Section Listings.
Import Mongoose Http.
Context `{External}.

(** A List request whose filter the engine accepts is answered with the
    requested page of the matching records and the counts. *)
Lemma list_handler_accepted (e : Endpoints.Listing) (req : Request) (db : Db)
  (p : Doc -> bool) :
  Model.compile (Endpoints.list_filter e req) = Some p ->
  (0 < default 1 (query_page req))%Z ->
  (0 < default 10 (query_limit req))%Z ->
  Endpoints.list_handler e req db
  = (json (Page (Endpoints.list_key e)
             (Spec.listing db (coll (Endpoints.list_model e) db) p
                (default 1 (query_page req)) (default 10 (query_limit req)))
             (Some {| currentPage := default 1 (query_page req);
                      totalPages :=
                        Some (Js.ceil_div
                                (Spec.total (coll (Endpoints.list_model e) db)
                                            p)
                                (default 10 (query_limit req)));
                      totalItems :=
                        Spec.total (coll (Endpoints.list_model e) db) p;
                      itemsPerPage := default 10 (query_limit req) |})),
     db).
Proof.
  intros Hc Hp Hl.
  assert (Hz : (default 10 (query_limit req) =? 0)%Z = false)
    by (apply Z.eqb_neq; lia).
  destruct e; cbn [Endpoints.list_handler Endpoints.list_filter
                   Endpoints.list_key Endpoints.list_model] in *;
    unfold SchemesRouter.get_root, JobsRouter.get_root,
      MarketplaceRouter.get_root; handler;
    rewrite (exec_listing _ _ p _ _ db Hc Hp Hl);
    rewrite (count_total _ _ p db Hc);
    unfold Js.ceil_div_json; rewrite Hz; reflexivity.
Qed.

(** A List request whose filter the engine rejects is answered 500. *)
Lemma list_handler_rejected (e : Endpoints.Listing) (req : Request)
  (db : Db) :
  Model.compile (Endpoints.list_filter e req) = None ->
  Endpoints.list_handler e req db = (internal_error, db).
Proof.
  intros Hc.
  destruct e; cbn [Endpoints.list_handler Endpoints.list_filter] in *;
    unfold SchemesRouter.get_root, JobsRouter.get_root,
      MarketplaceRouter.get_root; handler;
    rewrite exec_rejected by exact Hc; reflexivity.
Qed.

(** A Search request whose filter the engine accepts is answered with the
    requested page of the matching records, and nothing else. *)
Lemma search_handler_accepted (e : Endpoints.Search) (req : Request)
  (db : Db) (p : Doc -> bool) :
  Model.compile (Endpoints.search_filter e req) = Some p ->
  (0 < default 1 (query_page req))%Z ->
  (0 < default 10 (query_limit req))%Z ->
  Endpoints.search_handler e req db
  = (json (Page "results"
             (Spec.listing db (coll (Endpoints.search_model e) db) p
                (default 1 (query_page req)) (default 10 (query_limit req)))
             None),
     db).
Proof.
  intros Hc Hp Hl.
  destruct e; cbn [Endpoints.search_handler Endpoints.search_filter
                   Endpoints.search_model] in *;
    unfold SchemesRouter.get_search, MarketplaceRouter.get_search; handler;
    rewrite (exec_listing _ _ p _ _ db Hc Hp Hl); reflexivity.
Qed.

(** The filter of a listing reads the recognized parameters only. *)
Lemma list_filter_ignores (e : Endpoints.Listing) (req : Request)
  (k v : string) :
  Endpoints.recognized e k = false ->
  Endpoints.list_filter e (Req.with_query ((k, v) :: query req) req)
  = Endpoints.list_filter e req.
Proof.
  unfold Endpoints.recognized, Js.mem. intros Hk.
  destruct e; cbn [Endpoints.list_texts existsb] in Hk;
    repeat (apply orb_false_iff in Hk as [?E Hk]);
    cbn [Endpoints.list_filter];
    unfold SchemesRouter.list_filter, JobsRouter.list_filter,
      MarketplaceRouter.list_filter;
    cbn [Req.with_query query Js.prop];
    rewrite ?(String.eqb_sym "language" k), ?(String.eqb_sym "category" k),
      ?(String.eqb_sym "location" k), ?E, ?E0, ?E1; reflexivity.
Qed.

Lemma list_handler_ignores (e : Endpoints.Listing) (req : Request) (db : Db)
  (k v : string) :
  Endpoints.recognized e k = false ->
  Endpoints.list_handler e (Req.with_query ((k, v) :: query req) req) db
  = Endpoints.list_handler e req db.
Proof.
  intros Hk. pose proof (list_filter_ignores e req k v Hk) as Hf.
  destruct e; cbn [Endpoints.list_handler Endpoints.list_filter] in *;
    unfold SchemesRouter.get_root, JobsRouter.get_root,
      MarketplaceRouter.get_root; handler; rewrite Hf; reflexivity.
Qed.

Lemma list_filter_page (e : Endpoints.Listing) (req : Request) (page : Z) :
  Endpoints.list_filter e (Req.with_page page req)
  = Endpoints.list_filter e req.
Proof. destruct e; reflexivity. Qed.

End Listings.

(* ================================================================== *)
(** * The training router *)
(* ================================================================== *)

Section TrainingRouterFacts.
Import Mongoose Http.
Context `{External}.

(** The identifier [TrainingContent] is not bound in the module. *)
Lemma training_model_unbound (db : Db) :
  TrainingRouter.model "TrainingContent" db
  = (db, inl (ReferenceError "TrainingContent")).
Proof. reflexivity. Qed.

(** The document of the scenario does not pass the validators of the
    [TrainingContent] model either: the model requires a description. *)
Lemma scenario_fails_model_validators :
  schema_ok trainingContentSchema
    (apply_setters trainingContentSchema Sample.training_fields) = false.
Proof. reflexivity. Qed.

(** C1. The handler of the training scenario, a POST of
    [{title: "Intro", type: "video", url: "https://x.test/a",
    language: "en"}] by a caller of role [entrepreneur], does not answer
    201 with the created record: once the validator has accepted the
    payload (its URL being a valid uri), the handler refers to the unbound
    [TrainingContent], and the answer is 500 with nothing stored. *)
Theorem training_scenario_answers_500 (u : User) (db : Db) :
  role u = "entrepreneur" ->
  joi_uri "https://x.test/a" = true ->
  TrainingRouter.POST (Sample.scenario u) db = (internal_error, db).
Proof.
  intros Hr Hu.
  assert (Hv : Joi.validate TrainingRouter.trainingSchema
                 Sample.training_fields = inr Sample.training_fields).
  { unfold Joi.validate, Joi.violations. cbn. rewrite Hu. reflexivity. }
  unfold TrainingRouter.POST, Sample.scenario. handler.
  cbn [caller Req.sent_by]. rewrite Hr.
  change (Js.mem "entrepreneur" ["entrepreneur"; "admin"]) with true.
  cbv iota. unfold TrainingRouter.post_root. handler.
  cbn [payload Req.sent_by Req.with_payload]. rewrite Hv. reflexivity.
Qed.

(** C2, amended. Every request that reaches a handler of the training
    router is answered without success and without a write: list,
    get-by-id, delete and list-by-type always take the catch branch (500
    Internal server error); create and update answer 400 Validation error
    when the payload fails the validator, and take the catch branch
    otherwise. *)
Theorem training_handlers_never_succeed (user : User) (req : Request)
  (db : Db) :
  TrainingRouter.get_root req db = (internal_error, db)
  /\ TrainingRouter.get_id req db = (internal_error, db)
  /\ TrainingRouter.delete_id user req db = (internal_error, db)
  /\ TrainingRouter.get_type req db = (internal_error, db)
  /\ TrainingRouter.post_root user req db
     = (match Joi.validate TrainingRouter.trainingSchema (payload req) with
        | inl details => validation_error details
        | inr _ => internal_error
        end, db)
  /\ TrainingRouter.put_id user req db
     = (match Joi.validate TrainingRouter.trainingSchema (payload req) with
        | inl details => validation_error details
        | inr _ => internal_error
        end, db).
Proof.
  repeat split; try reflexivity.
  - unfold TrainingRouter.post_root. handler.
    destruct (Joi.validate _ _); reflexivity.
  - unfold TrainingRouter.put_id. handler.
    destruct (Joi.validate _ _); reflexivity.
Qed.

End TrainingRouterFacts.

(* ================================================================== *)
(** * The request validator *)
(* ================================================================== *)

Section JoiFacts.
Context `{External}.

Lemma chars_app (a b : string) :
  Js.chars (a ++ b) = Js.chars a ++ Js.chars b.
Proof.
  unfold Js.chars. induction a as [|c a IH]; cbn; [reflexivity|].
  now rewrite IH.
Qed.

Lemma prefix_ci_app (p s : list ascii) : Substring.prefix_ci p (p ++ s) = true.
Proof.
  induction p as [|c p IH]; cbn; [reflexivity|].
  unfold Js.eqb_ci. now rewrite Ascii.eqb_refl, IH.
Qed.

Lemma occurs_of_prefix (p s : list ascii) :
  Substring.prefix_ci p s = true -> Substring.occurs_ci p s = true.
Proof. intros Hp. destruct s; cbn [Substring.occurs_ci]; now rewrite Hp. Qed.

Lemma err_named (l what : string) : Spec.named (Joi.err l what).
Proof.
  unfold Spec.named, Spec.names_key, Joi.err. cbn [Joi.message Joi.path].
  rewrite chars_app. apply occurs_of_prefix, prefix_ci_app.
Qed.

Lemma check_rules_named (l : string) (rs : list Joi.Rule) (s : string)
  (e : Joi.Detail) :
  Joi.check_rules l rs s = Some e -> Spec.named e.
Proof.
  induction rs as [|r rs IH]; cbn [Joi.check_rules]; [discriminate|].
  destruct (Joi.check_rule l r s) as [e'|] eqn:Hr; [|exact IH].
  intros [= <-]. revert Hr. unfold Joi.check_rule.
  destruct r;
    match goal with
    | |- (if ?c then _ else _) = _ -> _ => destruct c
    end; try discriminate; intros [= <-]; apply err_named.
Qed.

Lemma check_string_named (l : string) (sch : Joi.StringSchema)
  (v : option Js.value) (e : Joi.Detail) :
  Joi.check_string l sch v = Some e -> Spec.named e.
Proof.
  unfold Joi.check_string. destruct v as [v|].
  - destruct (Joi.only sch) as [allowed|].
    + destruct v as [s| |]; [destruct (Js.mem s allowed)| |];
        try discriminate; intros [= <-]; apply err_named.
    + destruct v as [s| |];
        [destruct (String.eqb s "")| |];
        try (intros [= <-]; apply err_named).
      apply check_rules_named.
  - destruct (Joi.required sch); [|discriminate].
    intros [= <-]. apply err_named.
Qed.

Lemma unknown_keys_named {S V : Type} (prefix : string)
  (known : list (string * S)) (o : list (string * V)) :
  Forall Spec.named (Joi.unknown_keys prefix known o).
Proof.
  unfold Joi.unknown_keys. induction o as [|kv o IH]; cbn; [constructor|].
  apply Forall_app. split; [|exact IH].
  destruct (Js.mem (fst kv) (map fst known)); repeat constructor.
  apply err_named.
Qed.

Lemma opt_list_named (l : string) (sch : Joi.StringSchema)
  (v : option Js.value) :
  Forall Spec.named (Joi.opt_list (Joi.check_string l sch v)).
Proof.
  destruct (Joi.check_string l sch v) as [e|] eqn:He; cbn;
    repeat constructor.
  eapply check_string_named; eassumption.
Qed.

Lemma check_key_named (k : string) (sch : Joi.KeySchema)
  (o : list (string * Js.value)) :
  Forall Spec.named (Joi.check_key k sch o).
Proof.
  destruct sch as [s|req keys]; cbn [Joi.check_key].
  - apply opt_list_named.
  - destruct (Js.prop k o) as [[s|inner|]|].
    + repeat constructor. apply err_named.
    + apply Forall_app. split; [|apply unknown_keys_named].
      induction keys as [|ks keys IH]; cbn; [constructor|].
      apply Forall_app. split; [apply opt_list_named|exact IH].
    + repeat constructor. apply err_named.
    + destruct req; repeat constructor. apply err_named.
Qed.

Lemma violations_named (schema : Joi.ObjectSchema)
  (o : list (string * Js.value)) :
  Forall Spec.named (Joi.violations schema o).
Proof.
  unfold Joi.violations. apply Forall_app.
  split; [|apply unknown_keys_named].
  induction schema as [|ks schema IH]; cbn; [constructor|].
  apply Forall_app. split; [apply check_key_named|exact IH].
Qed.

(** With [abortEarly], the error holds the first violation and nothing
    else. *)
Lemma validate_first (schema : Joi.ObjectSchema)
  (o : list (string * Js.value)) (e : Joi.Detail) (rest : list Joi.Detail) :
  Joi.violations schema o = e :: rest ->
  Joi.validate schema o = inl [e].
Proof. unfold Joi.validate. now intros ->. Qed.

Lemma validate_accepts (schema : Joi.ObjectSchema)
  (o value : list (string * Js.value)) :
  Joi.validate schema o = inr value ->
  value = o /\ Joi.violations schema o = [].
Proof.
  unfold Joi.validate. destruct (Joi.violations schema o); [|discriminate].
  now intros [= <-].
Qed.

End JoiFacts.

Section Validation.
Import Mongoose Http.
Context `{External}.

(** What create and update answer to a payload the validator refuses. *)
Lemma refused_payload (r : Endpoints.Resource) (user : User) (req : Request)
  (db : Db) (details : list Joi.Detail) :
  Joi.validate (Endpoints.schema_of r) (payload req) = inl details ->
  Endpoints.post_handler r user req db = (validation_error details, db)
  /\ Endpoints.put_handler r user req db = (validation_error details, db).
Proof.
  intros Hv.
  destruct r; cbn [Endpoints.post_handler Endpoints.put_handler
                   Endpoints.schema_of] in *;
    unfold SchemesRouter.post_root, SchemesRouter.put_id,
      JobsRouter.post_root, JobsRouter.put_id,
      TrainingRouter.post_root, TrainingRouter.put_id,
      MarketplaceRouter.post_root, MarketplaceRouter.put_id;
    handler; rewrite Hv; split; reflexivity.
Qed.

(** C10, amended. For every create or update request whose payload
    fails the validator of its resource, the handler answers 400 with the
    message 'Validation error' and a list of exactly one message, which
    names the first failing key (the schema's keys in their order, then
    the unknown keys); nothing is written. *)
Theorem invalid_payload_answers_first_violation (r : Endpoints.Resource)
  (user : User) (req : Request) (db : Db) :
  Joi.violations (Endpoints.schema_of r) (payload req) <> [] ->
  exists first rest,
    Joi.violations (Endpoints.schema_of r) (payload req) = first :: rest
    /\ Spec.names_key (Joi.message first) (Joi.path first) = true
    /\ Endpoints.post_handler r user req db
       = (status_json 400 (Errors "Validation error" [Joi.message first]), db)
    /\ Endpoints.put_handler r user req db
       = (status_json 400 (Errors "Validation error" [Joi.message first]), db).
Proof.
  intros Hne.
  destruct (Joi.violations (Endpoints.schema_of r) (payload req))
    as [|first rest] eqn:Hv; [congruence|].
  exists first, rest. split; [reflexivity|]. split.
  - pose proof (violations_named (Endpoints.schema_of r) (payload req)) as Hn.
    rewrite Hv in Hn. now inversion Hn.
  - apply (refused_payload r user req db [first]).
    eapply validate_first; eassumption.
Qed.

End Validation.

(* ================================================================== *)
(** * Update and delete *)
(* ================================================================== *)

Section Mutation.
Import Mongoose Http.
Context `{External}.

Lemma neither_owner_nor_admin (d : Doc) (user : User) :
  createdBy d <> user_id user -> role user <> "admin" ->
  negb (createdBy d =? user_id user)%nat
  && negb (String.eqb (role user) "admin") = true.
Proof.
  intros Ho Ha. apply Nat.eqb_neq in Ho. apply String.eqb_neq in Ha.
  now rewrite Ho, Ha.
Qed.

Lemma owner_passes (d : Doc) (user : User) :
  createdBy d = user_id user ->
  negb (createdBy d =? user_id user)%nat
  && negb (String.eqb (role user) "admin") = false.
Proof. intros ->. now rewrite Nat.eqb_refl. Qed.

Lemma admin_only (user : User) :
  Js.mem (role user) ["admin"] = String.eqb (role user) "admin".
Proof. cbn. apply orb_false_r. Qed.

(** Delete by a caller who is neither the creator nor an admin. *)
Lemma delete_by_stranger (r : Endpoints.Resource) (user : User)
  (req : Request) (db : Db) (n : nat) (d : Doc) :
  Endpoints.owned r = true ->
  param_id req = Oid n ->
  List.find (Model.has_id n) (coll (Endpoints.model_of r) db) = Some d ->
  createdBy d <> user_id user -> role user <> "admin" ->
  Endpoints.delete_handler r user req db = (Endpoints.forbidden "delete" r, db).
Proof.
  intros Hr Hid Hd Ho Ha. pose proof (neither_owner_nor_admin d user Ho Ha).
  destruct r; try discriminate;
    cbn [Endpoints.delete_handler Endpoints.model_of coll] in *;
    unfold JobsRouter.delete_id, MarketplaceRouter.delete_id;
    handler; rewrite Hid; unfold Model.findById; handler;
    cbn [coll]; rewrite Hd; handler;
    match goal with Hn : _ && _ = true |- _ => rewrite Hn end; reflexivity.
Qed.

(** Update by a caller who is neither the creator nor an admin. *)
Lemma update_by_stranger (r : Endpoints.Resource) (user : User)
  (req : Request) (db : Db) (n : nat) (d : Doc) :
  Endpoints.owned r = true ->
  param_id req = Oid n ->
  List.find (Model.has_id n) (coll (Endpoints.model_of r) db) = Some d ->
  createdBy d <> user_id user -> role user <> "admin" ->
  Endpoints.put_handler r user req db
  = (match Joi.validate (Endpoints.schema_of r) (payload req) with
     | inl details => validation_error details
     | inr _ => Endpoints.forbidden "update" r
     end, db).
Proof.
  intros Hr Hid Hd Ho Ha. pose proof (neither_owner_nor_admin d user Ho Ha).
  destruct r; try discriminate;
    cbn [Endpoints.put_handler Endpoints.model_of Endpoints.schema_of coll]
      in *;
    unfold JobsRouter.put_id, MarketplaceRouter.put_id;
    handler; destruct (Joi.validate _ _); try reflexivity;
    rewrite Hid; unfold Model.findById; handler;
    cbn [coll]; rewrite Hd; handler;
    match goal with Hn : _ && _ = true |- _ => rewrite Hn end; reflexivity.
Qed.

(** Delete by the creator. *)
Lemma delete_by_owner (r : Endpoints.Resource) (user : User)
  (req : Request) (db : Db) (n : nat) (d : Doc) :
  Endpoints.owned r = true ->
  param_id req = Oid n ->
  List.find (Model.has_id n) (coll (Endpoints.model_of r) db) = Some d ->
  createdBy d = user_id user ->
  Endpoints.delete_handler r user req db
  = (Endpoints.deleted r,
     write (Endpoints.model_of r)
       (Model.remove_first n (coll (Endpoints.model_of r) db)) db).
Proof.
  intros Hr Hid Hd Ho. pose proof (owner_passes d user Ho).
  destruct r; try discriminate;
    cbn [Endpoints.delete_handler Endpoints.model_of coll] in *;
    unfold JobsRouter.delete_id, MarketplaceRouter.delete_id;
    handler; rewrite Hid; unfold Model.findById, Model.findByIdAndDelete;
    handler; cbn [coll]; rewrite Hd; handler;
    match goal with Hn : _ && _ = false |- _ => rewrite Hn end;
    handler; cbn [coll]; rewrite Hd; reflexivity.
Qed.

(** The routes of jobs and marketplace let every authenticated caller
    through to the handler. *)
Lemma owned_routes (r : Endpoints.Resource) (user : User) (req : Request)
  (db : Db) :
  Endpoints.owned r = true -> caller req = Some user ->
  Endpoints.DELETE r req db = Endpoints.delete_handler r user req db
  /\ Endpoints.PUT r req db = Endpoints.put_handler r user req db.
Proof.
  intros Hr Hc.
  destruct r; try discriminate; cbn;
    unfold JobsRouter.DELETE, JobsRouter.PUT, MarketplaceRouter.DELETE,
      MarketplaceRouter.PUT; handler; rewrite Hc; split; reflexivity.
Qed.

(** C5, amended. For every existing jobs or marketplace record and every
    authenticated caller who is neither its creator nor an admin, Delete
    answers 403, and Update answers 403 when the payload passes the
    validator and 400 Validation error when it does not; in each case
    nothing is written. *)
Theorem stranger_cannot_mutate (r : Endpoints.Resource) (user : User)
  (req : Request) (db : Db) (n : nat) (d : Doc) :
  Endpoints.owned r = true ->
  caller req = Some user ->
  param_id req = Oid n ->
  List.find (Model.has_id n) (coll (Endpoints.model_of r) db) = Some d ->
  createdBy d <> user_id user ->
  role user <> "admin" ->
  Endpoints.DELETE r req db = (Endpoints.forbidden "delete" r, db)
  /\ Endpoints.PUT r req db
     = (match Joi.validate (Endpoints.schema_of r) (payload req) with
        | inl details => validation_error details
        | inr _ => Endpoints.forbidden "update" r
        end, db).
Proof.
  intros Hr Hc Hid Hd Ho Ha.
  destruct (owned_routes r user req db Hr Hc) as [-> ->]. split.
  - eapply delete_by_stranger; eassumption.
  - eapply update_by_stranger; eassumption.
Qed.

(** C6, amended. On schemes, jobs and marketplace, for every Delete
    request, and every Update request whose payload passes the validator,
    whose id is well formed and resolves to no record, the handler
    answers 404 not-found whoever the caller is, the caller's identity
    not being looked at, and writes nothing; an Update whose payload
    fails the validator is answered 400 before the record is looked up,
    and an id that is not an ObjectId is answered 500. *)
Theorem missing_target_answers (r : Endpoints.Resource) (user : User)
  (req : Request) (db : Db) :
  Endpoints.served r = true ->
  (forall n, param_id req = Oid n ->
             List.find (Model.has_id n) (coll (Endpoints.model_of r) db)
             = None) ->
  Endpoints.delete_handler r user req db
  = (match param_id req with
     | Oid _ => Endpoints.not_found r
     | Malformed => internal_error
     end, db)
  /\ Endpoints.put_handler r user req db
     = (match Joi.validate (Endpoints.schema_of r) (payload req) with
        | inl details => validation_error details
        | inr _ =>
            match param_id req with
            | Oid _ => Endpoints.not_found r
            | Malformed => internal_error
            end
        end, db).
Proof.
  intros Hr Hnone.
  destruct r; try discriminate;
    cbn [Endpoints.delete_handler Endpoints.put_handler Endpoints.model_of
         Endpoints.schema_of coll] in *;
    unfold SchemesRouter.delete_id, SchemesRouter.put_id,
      JobsRouter.delete_id, JobsRouter.put_id,
      MarketplaceRouter.delete_id, MarketplaceRouter.put_id;
    handler; (split; [|destruct (Joi.validate _ _); [reflexivity|]]);
    (destruct (param_id req) as [|n]; [reflexivity|]);
    unfold Model.findById; handler; cbn [coll];
    rewrite (Hnone n eq_refl); reflexivity.
Qed.

End Mutation.

Section SchemeMutation.
Import Mongoose Http.
Context `{External}.

Lemma scheme_delete_found (req : Request) (db : Db) (n : nat) (d : Doc) :
  param_id req = Oid n ->
  List.find (Model.has_id n) (schemes db) = Some d ->
  SchemesRouter.delete_id req db
  = (Endpoints.deleted Endpoints.Schemes,
     write Scheme (Model.remove_first n (schemes db)) db).
Proof.
  intros Hid Hd. unfold SchemesRouter.delete_id. handler. rewrite Hid.
  unfold Model.findById, Model.findByIdAndDelete. handler. cbn [coll].
  rewrite Hd. handler. cbn [coll]. rewrite Hd. reflexivity.
Qed.

Lemma scheme_update_found (req : Request) (db : Db) (n : nat) (d : Doc)
  (value : list (string * Js.value)) :
  param_id req = Oid n ->
  List.find (Model.has_id n) (schemes db) = Some d ->
  Joi.validate SchemesRouter.schemeSchema (payload req) = inr value ->
  SchemesRouter.put_id req db
  = (Endpoints.updated Endpoints.Schemes
       {| doc := Model.assign (apply_setters schemeSchema value) (clock db) d;
          owner := Model.find_user (createdBy d) (users db) |},
     write Scheme
       (Model.update_first n
          (fun _ => Model.assign (apply_setters schemeSchema value)
                      (clock db) d)
          (schemes db)) db).
Proof.
  intros Hid Hd Hv. unfold SchemesRouter.put_id. handler. rewrite Hv, Hid.
  unfold Model.findById, Model.findByIdAndUpdate, Model.populate. handler.
  cbn [coll]. rewrite Hd. handler. cbn [coll]. rewrite Hd. reflexivity.
Qed.

(** C7, amended. Scheme Update and Delete require the role 'admin' and
    never compare the caller with the record's creator: for every
    existing scheme and every admin caller, whoever created the record,
    Delete succeeds and Update succeeds when the payload passes the
    validator; a caller of another role is refused by the role
    middleware, the creator included. Jobs and marketplace do compare: a
    caller who is not an admin is answered 403 by their Delete exactly
    when they are not the creator. *)
Theorem scheme_mutation_is_by_role (user : User) (req : Request) (db : Db)
  (n : nat) (d : Doc) :
  caller req = Some user ->
  param_id req = Oid n ->
  List.find (Model.has_id n) (schemes db) = Some d ->
  (role user = "admin" ->
   SchemesRouter.DELETE req db
   = (Endpoints.deleted Endpoints.Schemes,
      write Scheme (Model.remove_first n (schemes db)) db)
   /\ forall value,
        Joi.validate SchemesRouter.schemeSchema (payload req) = inr value ->
        SchemesRouter.PUT req db
        = (Endpoints.updated Endpoints.Schemes
             {| doc := Model.assign (apply_setters schemeSchema value)
                         (clock db) d;
                owner := Model.find_user (createdBy d) (users db) |},
           write Scheme
             (Model.update_first n
                (fun _ => Model.assign (apply_setters schemeSchema value)
                            (clock db) d)
                (schemes db)) db))
  /\ (role user <> "admin" ->
      SchemesRouter.DELETE req db = (status_json 403 Refused, db)
      /\ SchemesRouter.PUT req db = (status_json 403 Refused, db))
  /\ (forall r req' db' n' d',
        Endpoints.owned r = true ->
        caller req' = Some user ->
        param_id req' = Oid n' ->
        List.find (Model.has_id n') (coll (Endpoints.model_of r) db')
        = Some d' ->
        role user <> "admin" ->
        (Endpoints.DELETE r req' db' = (Endpoints.forbidden "delete" r, db')
         <-> createdBy d' <> user_id user)).
Proof.
  intros Hc Hid Hd. split; [|split].
  - intros Ha. split.
    + unfold SchemesRouter.DELETE. handler.
      rewrite Hc, admin_only, Ha. cbn [String.eqb Ascii.eqb Bool.eqb].
      eapply scheme_delete_found; eassumption.
    + intros value Hv. unfold SchemesRouter.PUT. handler.
      rewrite Hc, admin_only, Ha. cbn [String.eqb Ascii.eqb Bool.eqb].
      eapply scheme_update_found; eassumption.
  - intros Hna. apply String.eqb_neq in Hna. split.
    + unfold SchemesRouter.DELETE. handler.
      now rewrite Hc, admin_only, Hna.
    + unfold SchemesRouter.PUT. handler.
      now rewrite Hc, admin_only, Hna.
  - intros r req' db' n' d' Hr Hc' Hid' Hd' Hna.
    destruct (owned_routes r user req' db' Hr Hc') as [-> _]. split.
    + intros Hdel Hown.
      rewrite (delete_by_owner r user req' db' n' d' Hr Hid' Hd' Hown)
        in Hdel.
      destruct r; discriminate.
    + intros Hown. eapply delete_by_stranger; eassumption.
Qed.

End SchemeMutation.

(* ================================================================== *)
(** * List and search *)
(* ================================================================== *)

Section ListAndSearch.
Import Mongoose Http.
Context `{External}.

(** C3, amended. On the List endpoints of schemes, jobs and marketplace,
    for every combination of the recognized filter parameters in which
    the text parameters (category, location) hold no regular-expression
    metacharacter, and positive page and limit: every record of the
    returned page is a stored record that satisfies all the parameters
    that are supplied and not empty, combined with AND (language by exact
    equality, category and location by case-insensitive substring);
    absent and empty parameters impose no constraint; unrecognized
    parameters are ignored; and totalItems is the number of all stored
    records that satisfy the same predicates, whatever page and limit. *)
Theorem list_returns_matching_records (e : Endpoints.Listing)
  (req : Request) (db : Db) :
  forallb (fun f => Spec.plain_param (Js.prop f (query req)))
          (Endpoints.list_texts e) = true ->
  (0 < default 1 (query_page req))%Z ->
  (0 < default 10 (query_limit req))%Z ->
  exists items pagination,
    Endpoints.list_handler e req db
    = (json (Page (Endpoints.list_key e) items (Some pagination)), db)
    /\ (forall i, In i items ->
          In (doc i) (coll (Endpoints.list_model e) db)
          /\ Spec.list_matches Spec.given (Endpoints.list_texts e)
               (query req) (doc i) = true)
    /\ totalItems pagination
       = Spec.total (coll (Endpoints.list_model e) db)
           (Spec.list_matches Spec.given (Endpoints.list_texts e)
              (query req))
    /\ (forall k v,
          Endpoints.recognized e k = false ->
          Endpoints.list_handler e (Req.with_query ((k, v) :: query req) req)
            db
          = Endpoints.list_handler e req db).
Proof.
  intros Hplain Hp Hl.
  destruct (list_filter_plain e req Hplain) as (p & Hc & Hpd).
  rewrite (list_handler_accepted e req db p Hc Hp Hl).
  eexists. eexists. split; [reflexivity|]. cbn [totalItems].
  split; [|split].
  - intros i Hi. apply listing_sound in Hi as (Hin & Hpi & _).
    split; [exact Hin|]. now rewrite <- Hpd.
  - now destruct (listing_ext db (coll (Endpoints.list_model e) db) _ _
                   1%Z 1%Z Hpd) as [_ Ht].
  - intros k v Hk. rewrite list_handler_ignores by exact Hk.
    apply list_handler_accepted; assumption.
Qed.

(** C4. For every List request (schemes, jobs, marketplace) with positive
    page and limit whose filter the storage engine accepts: totalPages is
    the ceiling of totalItems / itemsPerPage, currentPage is the
    requested page and itemsPerPage the requested limit; the page holds
    at most limit records, those that start at offset (page - 1) * limit
    among the matching records, newest first; a page after the last one
    is empty; and every other page of the same request carries the same
    totalPages, totalItems and itemsPerPage. *)
Theorem list_pagination (e : Endpoints.Listing) (req : Request) (db : Db)
  (p : Doc -> bool) :
  Model.compile (Endpoints.list_filter e req) = Some p ->
  (0 < default 1 (query_page req))%Z ->
  (0 < default 10 (query_limit req))%Z ->
  exists items pagination pages,
    Endpoints.list_handler e req db
    = (json (Page (Endpoints.list_key e) items (Some pagination)), db)
    /\ totalPages pagination = Some pages
    /\ Spec.is_ceiling pages (totalItems pagination)
         (itemsPerPage pagination)
    /\ currentPage pagination = default 1 (query_page req)
    /\ itemsPerPage pagination = default 10 (query_limit req)
    /\ totalItems pagination = Spec.total (coll (Endpoints.list_model e) db) p
    /\ items = Spec.populated db
                 (firstn (Z.to_nat (default 10 (query_limit req)))
                    (skipn (Z.to_nat ((default 1 (query_page req) - 1)
                                      * default 10 (query_limit req)))
                       (Model.sort_desc
                          (List.filter p
                             (coll (Endpoints.list_model e) db)))))
    /\ (Z.of_nat (List.length items) <= default 10 (query_limit req))%Z
    /\ ((pages < default 1 (query_page req))%Z -> items = [])
    /\ (forall page',
          (0 < page')%Z ->
          exists items',
            Endpoints.list_handler e (Req.with_page page' req) db
            = (json (Page (Endpoints.list_key e) items'
                       (Some {| currentPage := page';
                                totalPages := totalPages pagination;
                                totalItems := totalItems pagination;
                                itemsPerPage := itemsPerPage pagination |})),
               db)).
Proof.
  intros Hc Hp Hl.
  rewrite (list_handler_accepted e req db p Hc Hp Hl).
  eexists. eexists. eexists. split; [reflexivity|].
  cbn [totalPages totalItems itemsPerPage currentPage].
  repeat match goal with |- _ /\ _ => split end; try reflexivity.
  - apply ceil_div_spec. exact Hl.
  - apply listing_length. lia.
  - apply listing_beyond. exact Hl.
  - intros page' Hp'. eexists.
    apply (list_handler_accepted e (Req.with_page page' req) db p).
    + now rewrite list_filter_page.
    + exact Hp'.
    + exact Hl.
Qed.

(** C8, amended. For every query string without regular-expression
    metacharacter, optional language parameter and positive page and
    limit, GET /schemes/search/:query answers the requested page (the
    first ten by default), newest first, of the records in which the
    query string occurs case-insensitively in the title, OR the
    description, OR the category, AND whose language equals the language
    parameter when it is present and not empty: every returned record is
    such a record, and a first page they all fit in holds exactly
    them. *)
Theorem scheme_search_returns_matching_page (req : Request) (db : Db) :
  MongoRegex.plain (param req) = true ->
  (0 < default 1 (query_page req))%Z ->
  (0 < default 10 (query_limit req))%Z ->
  exists items,
    SchemesRouter.get_search req db = (json (Page "results" items None), db)
    /\ items
       = Spec.listing db (schemes db)
           (Spec.search_matches Spec.given ["title"; "description"; "category"]
              (param req) (query req))
           (default 1 (query_page req)) (default 10 (query_limit req))
    /\ (forall i, In i items ->
          In (doc i) (schemes db)
          /\ Spec.search_matches Spec.given
               ["title"; "description"; "category"] (param req) (query req)
               (doc i) = true)
    /\ (default 1 (query_page req) = 1%Z ->
        (Spec.total (schemes db)
           (Spec.search_matches Spec.given
              ["title"; "description"; "category"] (param req) (query req))
         <= default 10 (query_limit req))%Z ->
        Permutation (map doc items)
          (List.filter
             (Spec.search_matches Spec.given
                ["title"; "description"; "category"] (param req) (query req))
             (schemes db))).
Proof.
  intros Hplain Hp Hl.
  destruct (search_filter_plain Endpoints.SchemesSearch req Hplain)
    as (p & Hc & Hpd).
  pose proof (search_handler_accepted Endpoints.SchemesSearch req db p
                Hc Hp Hl) as Hrun.
  cbn [Endpoints.search_handler Endpoints.search_model
       Endpoints.search_texts coll] in *.
  rewrite Hrun. eexists. split; [reflexivity|].
  destruct (listing_ext db (schemes db) _ _ (default 1 (query_page req))
              (default 10 (query_limit req)) Hpd) as [-> _].
  split; [reflexivity|]. split.
  - intros i Hi. apply listing_sound in Hi. tauto.
  - intros -> Hfit. now apply listing_complete.
Qed.

(** C9, amended. The Search endpoints (schemes and marketplace) page
    their results as List does, from offset (page - 1) * limit and at
    most limit records of the records matching the search predicate,
    newest first, but the response holds the page of results only: it
    carries no pagination metadata. *)
Theorem search_answers_results_only (e : Endpoints.Search) (req : Request)
  (db : Db) (p : Doc -> bool) :
  Model.compile (Endpoints.search_filter e req) = Some p ->
  (0 < default 1 (query_page req))%Z ->
  (0 < default 10 (query_limit req))%Z ->
  Endpoints.search_handler e req db
  = (json (Page "results"
             (Spec.populated db
                (firstn (Z.to_nat (default 10 (query_limit req)))
                   (skipn (Z.to_nat ((default 1 (query_page req) - 1)
                                     * default 10 (query_limit req)))
                      (Model.sort_desc
                         (List.filter p
                            (coll (Endpoints.search_model e) db))))))
             None),
     db).
Proof. apply search_handler_accepted. Qed.

End ListAndSearch.

(* ================================================================== *)
(** * Reading *)
(* ================================================================== *)

Section ReadingFacts.
Import Mongoose Http.
Context `{External}.

(** Queries leave the database as it is. *)
Lemma exec_reads (q : Model.Query) (db : Db) :
  fst (Model.exec q db) = db.
Proof.
  unfold Model.exec. handler.
  destruct (Model.compile (Model.q_filter q)); [|reflexivity]. cbn.
  destruct (Model.window _ _ _); reflexivity.
Qed.

Lemma count_reads (m : ModelName) (f : Model.Filter) (db : Db) :
  fst (Model.countDocuments m f db) = db.
Proof.
  unfold Model.countDocuments. handler.
  destruct (Model.compile f); reflexivity.
Qed.

Lemma find_by_id_populated (m : ModelName) (id : IdParam) (db : Db) :
  Model.findById_populated m id db
  = (db, match id with
         | Malformed => inl CastError
         | Oid n =>
             inr (option_map (Reading.with_creator db)
                    (List.find (Model.has_id n) (coll m db)))
         end).
Proof.
  unfold Model.findById_populated, Model.findById, Model.populate. handler.
  destruct id as [|n]; [reflexivity|].
  destruct (List.find (Model.has_id n) (coll m db)); reflexivity.
Qed.

(** A listing pipeline, whatever it answers, leaves the database. *)
Lemma page_reads (q : Model.Query) (k : list Item -> Response) (db : Db) :
  snd (try_catch (Async.bind (Model.exec q) (fun l => Async.ret (k l))) db)
  = db.
Proof.
  handler. pose proof (exec_reads q db) as Hq.
  destruct (Model.exec q db) as [db' [e|l]]; cbn in *; now subst.
Qed.

Lemma counted_page_reads (q : Model.Query) (m : ModelName)
  (f : Model.Filter) (k : list Item -> Z -> Response) (db : Db) :
  snd (try_catch
         (Async.bind (Model.exec q) (fun l =>
            Async.bind (Model.countDocuments m f) (fun n =>
              Async.ret (k l n)))) db)
  = db.
Proof.
  handler. pose proof (exec_reads q db) as Hq.
  destruct (Model.exec q db) as [db' [e|l]]; cbn in *; subst;
    [reflexivity|].
  pose proof (count_reads m f db) as Hc.
  destruct (Model.countDocuments m f db) as [db' [e|n]]; cbn in *; now subst.
Qed.

(** X1. No handler of a GET route writes: list, search, get-by-id,
    list-by-category and list-by-type of every router leave the database
    as they found it, whatever the request and whatever they answer. *)
Theorem reads_never_write (x : Reading.Read) (req : Request) (db : Db) :
  snd (Reading.read_handler x req db) = db.
Proof.
  destruct x as [e|e|r| | |]; cbn [Reading.read_handler].
  - destruct e; apply counted_page_reads.
  - destruct e; apply page_reads.
  - destruct r; cbn [Reading.get_handler];
      unfold SchemesRouter.get_id, JobsRouter.get_id,
        MarketplaceRouter.get_id; try reflexivity; handler;
      rewrite find_by_id_populated;
      destruct (param_id req) as [|n]; try reflexivity;
      destruct (List.find (Model.has_id n) _); reflexivity.
  - apply page_reads.
  - reflexivity.
  - reflexivity.
Qed.

Lemma get_by_id_run (r : Endpoints.Resource) (req : Request) (db : Db) :
  Endpoints.served r = true ->
  Reading.get_handler r req db
  = (match param_id req with
     | Malformed => internal_error
     | Oid n =>
         match List.find (Model.has_id n) (coll (Endpoints.model_of r) db) with
         | Some d => Reading.found r (Reading.with_creator db d)
         | None => Endpoints.not_found r
         end
     end, db).
Proof.
  intros Hr.
  destruct r; try discriminate; cbn [Reading.get_handler Endpoints.model_of];
    unfold SchemesRouter.get_id, JobsRouter.get_id, MarketplaceRouter.get_id;
    handler; rewrite find_by_id_populated;
    destruct (param_id req) as [|n]; try reflexivity;
    destruct (List.find (Model.has_id n) _); reflexivity.
Qed.

(** X2. Get-by-id on schemes, jobs and marketplace answers 500 to an id
    that is no ObjectId, 404 to an id of no record, and otherwise 200
    with the first record of that id and its creator as the users
    collection has them now. *)
Theorem get_by_id_answers (r : Endpoints.Resource) (req : Request) (db : Db) :
  Endpoints.served r = true ->
  Reading.get_handler r req db
  = (match param_id req with
     | Malformed => internal_error
     | Oid n =>
         match List.find (Model.has_id n) (coll (Endpoints.model_of r) db) with
         | Some d => Reading.found r (Reading.with_creator db d)
         | None => Endpoints.not_found r
         end
     end, db).
Proof. exact (get_by_id_run r req db). Qed.

(** X3. The name a record is answered with is the name of a user whose
    id is the record's [createdBy], and it is undefined exactly when no
    user has that id. *)
Theorem created_by_name_is_looked_up (db : Db) (d : Doc) :
  (created_by_name (Reading.with_creator db d) = None
   <-> forall u, In u (users db) -> user_id u <> createdBy d)
  /\ (forall n,
        created_by_name (Reading.with_creator db d) = Some n ->
        exists u, In u (users db) /\ user_id u = createdBy d /\ name u = n).
Proof.
  unfold Reading.with_creator, created_by_name, Model.find_user.
  cbn [owner].
  destruct (List.find _ (users db)) as [u|] eqn:Hu; cbn [option_map].
  - apply find_some in Hu as [Hin Hid]. apply Nat.eqb_eq in Hid.
    split; [split; [discriminate|]|].
    + intros Hno. now destruct (Hno u Hin).
    + intros n [= <-]. now exists u.
  - split; [split; [|reflexivity]|discriminate].
    intros _ u Hin Hid.
    pose proof (find_none _ _ Hu u Hin) as Hf. cbn in Hf.
    apply Nat.eqb_neq in Hf. contradiction.
Qed.

End ReadingFacts.

(* ================================================================== *)
(** * Create *)
(* ================================================================== *)

Section CreateFacts.
Import Mongoose Http.
Context `{External}.

(** What a required string key without [valid] list has passed. *)
Lemma check_string_passed (l : string) (rs : list Joi.Rule)
  (v : option Js.value) :
  Joi.check_string l
    {| Joi.required := true; Joi.only := None; Joi.rules := rs |} v = None ->
  exists s, v = Some (Js.VStr s) /\ String.eqb s "" = false
            /\ Joi.check_rules l rs s = None.
Proof.
  unfold Joi.check_string. cbn [Joi.required Joi.only Joi.rules].
  destruct v as [[s|o|]|]; try discriminate.
  destruct (String.eqb s "") eqn:He; [discriminate|].
  intros Hr. now exists s.
Qed.

Lemma min_passed (l : string) (n : nat) (rs : list Joi.Rule) (s : string) :
  Joi.check_rules l (Joi.Min n :: rs) s = None ->
  (n <=? String.length s)%nat = true /\ Joi.check_rules l rs s = None.
Proof.
  cbn [Joi.check_rules Joi.check_rule].
  destruct (n <=? String.length s)%nat; [tauto|discriminate].
Qed.

Lemma max_passed (l : string) (n : nat) (rs : list Joi.Rule) (s : string) :
  Joi.check_rules l (Joi.Max n :: rs) s = None ->
  (String.length s <=? n)%nat = true /\ Joi.check_rules l rs s = None.
Proof.
  cbn [Joi.check_rules Joi.check_rule].
  destruct (String.length s <=? n)%nat; [tauto|discriminate].
Qed.

Lemma opt_list_nil {A : Type} (o : option A) : Joi.opt_list o = [] -> o = None.
Proof. destruct o; [discriminate|reflexivity]. Qed.

(** A required text key that the validator has passed passes the model's
    validators of the same bounds. *)
Lemma text_path_ok (k : string) (mn mx : option nat)
  (o : list (string * Js.value)) (s : string) :
  Js.prop k o = Some (Js.VStr s) ->
  String.eqb s "" = false ->
  opt_ok mn (fun n => (n <=? String.length s)%nat) = true ->
  opt_ok mx (fun n => (String.length s <=? n)%nat) = true ->
  path_ok (text k mn mx) o = true.
Proof.
  intros Hk He Hmn Hmx. unfold path_ok, text.
  cbn [path get_path required minlength maxlength match_ enum opt_ok].
  rewrite Hk, He, Hmn, Hmx. reflexivity.
Qed.

Lemma job_accepted_passes_model (o value : list (string * Js.value)) :
  Joi.validate JobsRouter.jobSchema o = inr value ->
  schema_ok Mongoose.jobSchema (apply_setters Mongoose.jobSchema value)
  = true.
Proof.
  intros Hv. apply validate_accepts in Hv as [-> Hv].
  change (apply_setters Mongoose.jobSchema o) with o.
  unfold Joi.violations in Hv. apply app_eq_nil in Hv as [Hv _].
  cbn [JobsRouter.jobSchema flat_map fst snd Joi.check_key Joi.str] in Hv.
  repeat match type of Hv with
         | _ ++ _ = [] => apply app_eq_nil in Hv as [?Hk Hv]
         end.
  repeat match goal with
         | Hk : Joi.opt_list _ = [] |- _ =>
             apply opt_list_nil, check_string_passed in Hk
               as (? & ? & ? & ?Hr)
         end.
  repeat match goal with
         | Hr : Joi.check_rules _ (Joi.Min _ :: _) _ = None |- _ =>
             apply min_passed in Hr as [? Hr]
         | Hr : Joi.check_rules _ (Joi.Max _ :: _) _ = None |- _ =>
             apply max_passed in Hr as [? Hr]
         end.
  unfold schema_ok, Mongoose.jobSchema. cbn [forallb].
  repeat (erewrite text_path_ok by (cbn [opt_ok]; eassumption || reflexivity)).
  reflexivity.
Qed.

(** X4. The validator and the model of jobs agree: every payload that
    [jobSchema] of the router accepts passes the validators of the Job
    model, so a job that is accepted is never refused by [save]. *)
Theorem job_validator_implies_model (o value : list (string * Js.value)) :
  Joi.validate JobsRouter.jobSchema o = inr value ->
  schema_ok Mongoose.jobSchema (apply_setters Mongoose.jobSchema value)
  = true.
Proof. exact (job_accepted_passes_model o value). Qed.

Lemma find_appended (n : nat) (c : list Doc) (d : Doc) :
  List.find (Model.has_id n) c = None -> _id d = n ->
  List.find (Model.has_id n) (c ++ [d]) = Some d.
Proof.
  intros Hc Hd. induction c as [|x c IH]; cbn in *.
  - unfold Model.has_id. now rewrite Hd, Nat.eqb_refl.
  - destruct (Model.has_id n x); [discriminate|]. now apply IH.
Qed.

Lemma job_create_run (user : User) (req : Request) (db : Db)
  (value : list (string * Js.value)) :
  Joi.validate JobsRouter.jobSchema (payload req) = inr value ->
  List.find (Model.has_id (next_id db)) (jobs db) = None ->
  JobsRouter.post_root user req db
  = (Reading.created Endpoints.Jobs
       (Reading.with_creator db
          (Reading.inserted db (user_id user) (payload req))),
     write Job
       (jobs db ++ [Reading.inserted db (user_id user) (payload req)])
       (fresh_id db)).
Proof.
  intros Hv Hfresh. pose proof (job_accepted_passes_model _ _ Hv) as Hok.
  pose proof (validate_accepts _ _ _ Hv) as [-> _].
  unfold JobsRouter.post_root. handler. rewrite Hv.
  unfold Model.new, Model.save. handler.
  cbn [fields _id createdBy schema_of]. rewrite Hok.
  rewrite find_by_id_populated. cbn [coll write fresh_id jobs].
  change (apply_setters Mongoose.jobSchema (payload req)) with (payload req).
  change (clock (fresh_id db)) with (clock db).
  fold (Reading.inserted db (user_id user) (payload req)).
  rewrite (find_appended (next_id db) (jobs db)
             (Reading.inserted db (user_id user) (payload req))
             Hfresh eq_refl).
  reflexivity.
Qed.

(** X5. A job whose payload the validator accepts is created: the
    handler answers 201 with the new record, whose fields are the
    payload, whose creator is the caller and whose two timestamps are the
    time of the write, and the record is appended to the collection. The
    id generated must be fresh: the handler reads the record back by its
    id. *)
Theorem job_create_succeeds (user : User) (req : Request) (db : Db)
  (value : list (string * Js.value)) :
  Joi.validate JobsRouter.jobSchema (payload req) = inr value ->
  List.find (Model.has_id (next_id db)) (jobs db) = None ->
  JobsRouter.post_root user req db
  = (Reading.created Endpoints.Jobs
       (Reading.with_creator db
          (Reading.inserted db (user_id user) (payload req))),
     write Job
       (jobs db ++ [Reading.inserted db (user_id user) (payload req)])
       (fresh_id db)).
Proof. exact (job_create_run user req db value). Qed.

(** X6. Create, then get: after a job has been created, get-by-id of the
    new id answers 200 with the record that was created. *)
Theorem job_create_then_get (user : User) (req req' : Request) (db : Db)
  (value : list (string * Js.value)) :
  Joi.validate JobsRouter.jobSchema (payload req) = inr value ->
  List.find (Model.has_id (next_id db)) (jobs db) = None ->
  param_id req' = Oid (next_id db) ->
  JobsRouter.get_id req' (snd (JobsRouter.post_root user req db))
  = (json (One None "job"
             (Reading.with_creator db
                (Reading.inserted db (user_id user) (payload req)))),
     snd (JobsRouter.post_root user req db)).
Proof.
  intros Hv Hfresh Hid.
  rewrite (job_create_run user req db value Hv Hfresh). cbn [snd].
  unfold JobsRouter.get_id. handler. rewrite find_by_id_populated, Hid.
  cbn [coll write fresh_id jobs].
  rewrite (find_appended (next_id db) (jobs db)
             (Reading.inserted db (user_id user) (payload req))
             Hfresh eq_refl).
  reflexivity.
Qed.

End CreateFacts.

Section CreateRefusedByModel.
Import Mongoose Http.
Context `{External}.

(** A payload that the validator accepts and the model refuses: [save]
    throws, the handler answers 500, and no record is stored. *)
Lemma create_refused_by_model (r : Endpoints.Resource) (user : User)
  (req : Request) (db : Db) (value : list (string * Js.value)) :
  Endpoints.served r = true ->
  Joi.validate (Endpoints.schema_of r) (payload req) = inr value ->
  schema_ok (Mongoose.schema_of (Endpoints.model_of r))
    (apply_setters (Mongoose.schema_of (Endpoints.model_of r)) value)
  = false ->
  Endpoints.post_handler r user req db = (internal_error, fresh_id db).
Proof.
  intros Hr Hv Hok.
  destruct r; try discriminate;
    cbn [Endpoints.post_handler Endpoints.schema_of Endpoints.model_of
         Mongoose.schema_of] in *;
    unfold SchemesRouter.post_root, JobsRouter.post_root,
      MarketplaceRouter.post_root; handler; rewrite Hv;
    unfold Model.new, Model.save; handler;
    cbn [fields schema_of]; rewrite Hok; reflexivity.
Qed.

(** X7. The validator of schemes accepts an eligibility text of five
    characters, the Scheme model requires ten: a payload that passes the
    validator with an eligibility shorter than ten characters is answered
    500 by create, and no scheme is stored. *)
Theorem scheme_with_short_eligibility_is_not_created (user : User)
  (req : Request) (db : Db) (value : list (string * Js.value)) (s : string) :
  Joi.validate SchemesRouter.schemeSchema (payload req) = inr value ->
  Js.prop "eligibility" (payload req) = Some (Js.VStr s) ->
  String.length s < 10 ->
  SchemesRouter.post_root user req db = (internal_error, fresh_id db)
  /\ schemes (fresh_id db) = schemes db.
Proof.
  intros Hv Hk Hs. split; [|reflexivity].
  apply (create_refused_by_model Endpoints.Schemes user req db value
           eq_refl Hv).
  apply validate_accepts in Hv as [-> _].
  cbn [Endpoints.model_of Mongoose.schema_of].
  change (apply_setters Mongoose.schemeSchema (payload req))
    with (payload req).
  assert (Hf : path_ok (text "eligibility" (Some 10) None) (payload req)
               = false).
  { unfold path_ok, text.
    cbn [path get_path required minlength maxlength match_ enum opt_ok].
    rewrite Hk. apply Nat.leb_gt in Hs. rewrite Hs.
    now rewrite andb_false_r. }
  unfold schema_ok, Mongoose.schemeSchema. cbn [forallb]. rewrite Hf.
  cbn [andb]. now rewrite !andb_false_r.
Qed.

Lemma prop_map_keys {V : Type} (k : string)
  (f : string * V -> string * V) (o : list (string * V)) :
  (forall kv, fst (f kv) = fst kv) ->
  (forall kv, fst kv = k -> f kv = kv) ->
  Js.prop k (map f o) = Js.prop k o.
Proof.
  intros Hfst Hsame. induction o as [|[k' v] o IH]; [reflexivity|].
  cbn [map]. specialize (Hfst (k', v)). specialize (Hsame (k', v)).
  destruct (f (k', v)) as [k'' v'']. cbn [fst] in *. subst k''.
  cbn [Js.prop]. destruct (String.eqb k k') eqn:Hk; [|exact IH].
  apply String.eqb_eq in Hk. symmetry in Hk.
  now injection (Hsame Hk) as ->.
Qed.

(** X8. The validator of the marketplace accepts a product description
    of five characters, the Marketplace model requires ten: a payload
    that passes the validator with a description shorter than ten
    characters is answered 500 by create, and no entry is stored. *)
Theorem entry_with_short_description_is_not_created (user : User)
  (req : Request) (db : Db) (value : list (string * Js.value)) (s : string) :
  Joi.validate MarketplaceRouter.marketplaceSchema (payload req)
  = inr value ->
  Js.prop "productService" (payload req) = Some (Js.VStr s) ->
  String.length s < 10 ->
  MarketplaceRouter.post_root user req db = (internal_error, fresh_id db)
  /\ marketplaces (fresh_id db) = marketplaces db.
Proof.
  intros Hv Hk Hs. split; [|reflexivity].
  apply (create_refused_by_model Endpoints.Marketplaces user req db value
           eq_refl Hv).
  apply validate_accepts in Hv as [-> _].
  cbn [Endpoints.model_of Mongoose.schema_of].
  assert (Hf : path_ok (text "productService" (Some 10) None)
                 (apply_setters Mongoose.marketplaceSchema (payload req))
               = false).
  { unfold path_ok, text.
    cbn [path get_path required minlength maxlength match_ enum opt_ok].
    assert (Hset : apply_setters Mongoose.marketplaceSchema (payload req)
                   = map_path ["contact"; "email"] Js.lowercase (payload req))
      by reflexivity.
    cbn [map_path] in Hset. rewrite Hset.
    rewrite prop_map_keys.
    - rewrite Hk. apply Nat.leb_gt in Hs. rewrite Hs.
      now rewrite andb_false_r.
    - intros [k' v]. cbn [fst snd].
      destruct (String.eqb k' "contact"); reflexivity.
    - intros [k' v] Hk'. cbn [fst snd] in *. subst k'. reflexivity. }
  set (stored := apply_setters Mongoose.marketplaceSchema (payload req))
    in *.
  unfold schema_ok, Mongoose.marketplaceSchema. cbn [forallb]. rewrite Hf.
  cbn [andb]. now rewrite !andb_false_r.
Qed.

End CreateRefusedByModel.

(* ================================================================== *)
(** * Update and delete by the creator or an admin *)
(* ================================================================== *)

Section CollectionFacts.
Import Mongoose.

Lemma coll_write (m : ModelName) (c : list Doc) (db : Db) :
  coll m (write m c db) = c.
Proof. destruct m; reflexivity. Qed.

Lemma users_write (m : ModelName) (c : list Doc) (db : Db) :
  users (write m c db) = users db.
Proof. reflexivity. Qed.

Lemma find_has_id (n : nat) (c : list Doc) (d : Doc) :
  List.find (Model.has_id n) c = Some d -> _id d = n /\ In d c.
Proof.
  intros Hf. apply find_some in Hf as [Hin Hid].
  apply Nat.eqb_eq in Hid. tauto.
Qed.

Lemma find_absent (n : nat) (c : list Doc) :
  ~ In n (map _id c) -> List.find (Model.has_id n) c = None.
Proof.
  induction c as [|x c IH]; [reflexivity|]. cbn. intros Hn.
  unfold Model.has_id at 1. destruct (_id x =? n)%nat eqn:Hx.
  - apply Nat.eqb_eq in Hx. tauto.
  - apply IH. tauto.
Qed.

Lemma find_remove_first_same (n : nat) (c : list Doc) :
  Reading.unique_ids c ->
  List.find (Model.has_id n) (Model.remove_first n c) = None.
Proof.
  unfold Reading.unique_ids. induction c as [|x c IH]; [reflexivity|].
  cbn [map Model.remove_first]. intros Hu. inversion Hu as [|? ? Hx Hc].
  subst. destruct (Model.has_id n x) eqn:Hid.
  - apply Nat.eqb_eq in Hid. subst n. now apply find_absent.
  - cbn [List.find]. rewrite Hid. now apply IH.
Qed.

Lemma find_remove_first_other (n n' : nat) (c : list Doc) :
  n' <> n ->
  List.find (Model.has_id n') (Model.remove_first n c)
  = List.find (Model.has_id n') c.
Proof.
  intros Hn. induction c as [|x c IH]; [reflexivity|].
  cbn [Model.remove_first List.find].
  destruct (Model.has_id n x) eqn:Hid.
  - apply Nat.eqb_eq in Hid.
    assert (Hx : Model.has_id n' x = false)
      by (apply Nat.eqb_neq; congruence).
    now rewrite Hx.
  - cbn [List.find]. now rewrite IH.
Qed.

Lemma find_update_first_same (n : nat) (c : list Doc) (d d' : Doc) :
  List.find (Model.has_id n) c = Some d -> _id d' = n ->
  List.find (Model.has_id n) (Model.update_first n (fun _ => d') c) = Some d'.
Proof.
  intros Hf Hd'. induction c as [|x c IH]; [discriminate|].
  cbn [List.find Model.update_first] in *.
  destruct (Model.has_id n x) eqn:Hid; cbn [List.find].
  - unfold Model.has_id. now rewrite Hd', Nat.eqb_refl.
  - rewrite Hid. now apply IH.
Qed.

Lemma find_update_first_other (n n' : nat) (c : list Doc) (d' : Doc) :
  n' <> n -> _id d' = n ->
  List.find (Model.has_id n') (Model.update_first n (fun _ => d') c)
  = List.find (Model.has_id n') c.
Proof.
  intros Hn Hd'. induction c as [|x c IH]; [reflexivity|].
  cbn [List.find Model.update_first].
  destruct (Model.has_id n x) eqn:Hid; cbn [List.find].
  - apply Nat.eqb_eq in Hid.
    assert (Hx : Model.has_id n' x = false)
      by (apply Nat.eqb_neq; congruence).
    assert (Hx' : Model.has_id n' d' = false)
      by (apply Nat.eqb_neq; congruence).
    now rewrite Hx, Hx'.
  - now rewrite IH.
Qed.

Lemma update_first_ids (n : nat) (c : list Doc) (d' : Doc) :
  _id d' = n ->
  map _id (Model.update_first n (fun _ => d') c) = map _id c.
Proof.
  intros Hd'. induction c as [|x c IH]; [reflexivity|].
  cbn [Model.update_first]. destruct (Model.has_id n x) eqn:Hid; cbn [map].
  - apply Nat.eqb_eq in Hid. congruence.
  - now rewrite IH.
Qed.

Lemma remove_first_length (n : nat) (c : list Doc) (d : Doc) :
  List.find (Model.has_id n) c = Some d ->
  S (List.length (Model.remove_first n c)) = List.length c.
Proof.
  induction c as [|x c IH]; [discriminate|].
  cbn [List.find Model.remove_first].
  destruct (Model.has_id n x); [reflexivity|].
  intros Hf. cbn [List.length]. now rewrite IH.
Qed.

End CollectionFacts.

Section AllowedMutation.
Import Mongoose Http.
Context `{External}.

Lemma allowed_passes (user : User) (d : Doc) :
  Reading.may_mutate user d ->
  negb (createdBy d =? user_id user)%nat
  && negb (String.eqb (role user) "admin") = false.
Proof.
  intros [Ho | Ha].
  - now apply owner_passes.
  - rewrite Ha. apply andb_false_r.
Qed.

Lemma delete_allowed (r : Endpoints.Resource) (user : User) (req : Request)
  (db : Db) (n : nat) (d : Doc) :
  Endpoints.owned r = true ->
  param_id req = Oid n ->
  List.find (Model.has_id n) (coll (Endpoints.model_of r) db) = Some d ->
  Reading.may_mutate user d ->
  Endpoints.delete_handler r user req db
  = (Endpoints.deleted r, Reading.without r n db).
Proof.
  intros Hr Hid Hd Hm. pose proof (allowed_passes user d Hm).
  destruct r; try discriminate;
    cbn [Endpoints.delete_handler Endpoints.model_of coll] in *;
    unfold JobsRouter.delete_id, MarketplaceRouter.delete_id;
    handler; rewrite Hid; unfold Model.findById, Model.findByIdAndDelete;
    handler; cbn [coll]; rewrite Hd; handler;
    match goal with Hn : _ && _ = false |- _ => rewrite Hn end;
    handler; cbn [coll]; rewrite Hd; reflexivity.
Qed.

Lemma delete_missing (r : Endpoints.Resource) (user : User) (req : Request)
  (db : Db) (n : nat) :
  Endpoints.owned r = true ->
  param_id req = Oid n ->
  List.find (Model.has_id n) (coll (Endpoints.model_of r) db) = None ->
  Endpoints.delete_handler r user req db = (Endpoints.not_found r, db).
Proof.
  intros Hr Hid Hd.
  destruct r; try discriminate;
    cbn [Endpoints.delete_handler Endpoints.model_of coll] in *;
    unfold JobsRouter.delete_id, MarketplaceRouter.delete_id;
    handler; rewrite Hid; unfold Model.findById; handler; cbn [coll];
    rewrite Hd; reflexivity.
Qed.

(** X9. On jobs and marketplace, the creator of a record and every admin
    can delete it: the answer is 200 '... deleted successfully' and the
    record is removed. When the ids of the collection are unique, the
    record is gone afterwards: get-by-id and a second delete of the same
    id answer 404, and every other id resolves as before. *)
Theorem delete_removes_the_record (r : Endpoints.Resource) (user : User)
  (req : Request) (db : Db) (n : nat) (d : Doc) :
  Endpoints.owned r = true ->
  caller req = Some user ->
  param_id req = Oid n ->
  List.find (Model.has_id n) (coll (Endpoints.model_of r) db) = Some d ->
  Reading.may_mutate user d ->
  Reading.unique_ids (coll (Endpoints.model_of r) db) ->
  Endpoints.DELETE r req db = (Endpoints.deleted r, Reading.without r n db)
  /\ Reading.get_handler r req (Reading.without r n db)
     = (Endpoints.not_found r, Reading.without r n db)
  /\ Endpoints.DELETE r req (Reading.without r n db)
     = (Endpoints.not_found r, Reading.without r n db)
  /\ (forall n', n' <> n ->
        List.find (Model.has_id n')
          (coll (Endpoints.model_of r) (Reading.without r n db))
        = List.find (Model.has_id n') (coll (Endpoints.model_of r) db))
  /\ S (List.length (coll (Endpoints.model_of r) (Reading.without r n db)))
     = List.length (coll (Endpoints.model_of r) db).
Proof.
  intros Hr Hc Hid Hd Hm Hu.
  assert (Hgone : List.find (Model.has_id n)
                    (coll (Endpoints.model_of r) (Reading.without r n db))
                  = None).
  { unfold Reading.without. rewrite coll_write.
    now apply find_remove_first_same. }
  split; [|split; [|split; [|split]]].
  - destruct (owned_routes r user req db Hr Hc) as [-> _].
    eapply delete_allowed; eassumption.
  - rewrite get_by_id_run by (destruct r; try discriminate; reflexivity).
    now rewrite Hid, Hgone.
  - destruct (owned_routes r user req (Reading.without r n db) Hr Hc)
      as [-> _].
    eapply delete_missing; eassumption.
  - intros n' Hn. unfold Reading.without. rewrite coll_write.
    now apply find_remove_first_other.
  - unfold Reading.without. rewrite coll_write.
    eapply remove_first_length; eassumption.
Qed.

Lemma update_allowed (r : Endpoints.Resource) (user : User) (req : Request)
  (db : Db) (n : nat) (d : Doc) (value : list (string * Js.value)) :
  Endpoints.owned r = true ->
  param_id req = Oid n ->
  List.find (Model.has_id n) (coll (Endpoints.model_of r) db) = Some d ->
  Reading.may_mutate user d ->
  Joi.validate (Endpoints.schema_of r) (payload req) = inr value ->
  Endpoints.put_handler r user req db
  = (Endpoints.updated r
       (Reading.with_creator db (Reading.revised r value db d)),
     Reading.with_revision r n (Reading.revised r value db d) db).
Proof.
  intros Hr Hid Hd Hm Hv. pose proof (allowed_passes user d Hm).
  destruct r; try discriminate;
    cbn [Endpoints.put_handler Endpoints.model_of Endpoints.schema_of coll]
      in *;
    unfold JobsRouter.put_id, MarketplaceRouter.put_id;
    handler; rewrite Hv, Hid;
    unfold Model.findById, Model.findByIdAndUpdate, Model.populate;
    handler; cbn [coll]; rewrite Hd; handler;
    match goal with Hn : _ && _ = false |- _ => rewrite Hn end;
    handler; cbn [coll]; rewrite Hd; reflexivity.
Qed.

(** X10. On jobs and marketplace, the creator of a record and every
    admin can update it with a payload the validator accepts: the answer
    is 200 with the revised record, which keeps its id, creator and
    creation time and takes the time of the write as update time; a
    get-by-id that follows answers the revised record; every other id
    resolves as before, and the ids of the collection are unchanged. *)
Theorem update_revises_the_record (r : Endpoints.Resource) (user : User)
  (req : Request) (db : Db) (n : nat) (d : Doc)
  (value : list (string * Js.value)) :
  Endpoints.owned r = true ->
  caller req = Some user ->
  param_id req = Oid n ->
  List.find (Model.has_id n) (coll (Endpoints.model_of r) db) = Some d ->
  Reading.may_mutate user d ->
  Joi.validate (Endpoints.schema_of r) (payload req) = inr value ->
  Endpoints.PUT r req db
  = (Endpoints.updated r
       (Reading.with_creator db (Reading.revised r value db d)),
     Reading.with_revision r n (Reading.revised r value db d) db)
  /\ (_id (Reading.revised r value db d) = n
      /\ createdBy (Reading.revised r value db d) = createdBy d
      /\ createdAt (Reading.revised r value db d) = createdAt d
      /\ updatedAt (Reading.revised r value db d) = clock db)
  /\ Reading.get_handler r req
       (Reading.with_revision r n (Reading.revised r value db d) db)
     = (Reading.found r
          (Reading.with_creator db (Reading.revised r value db d)),
        Reading.with_revision r n (Reading.revised r value db d) db)
  /\ (forall n', n' <> n ->
        List.find (Model.has_id n')
          (coll (Endpoints.model_of r)
             (Reading.with_revision r n (Reading.revised r value db d) db))
        = List.find (Model.has_id n') (coll (Endpoints.model_of r) db))
  /\ map _id
       (coll (Endpoints.model_of r)
          (Reading.with_revision r n (Reading.revised r value db d) db))
     = map _id (coll (Endpoints.model_of r) db).
Proof.
  intros Hr Hc Hid Hd Hm Hv.
  destruct (find_has_id n _ d Hd) as [Hn _].
  assert (Hn' : _id (Reading.revised r value db d) = n) by exact Hn.
  split; [|split; [|split; [|split]]].
  - destruct (owned_routes r user req db Hr Hc) as [_ ->].
    eapply update_allowed; eassumption.
  - repeat split. exact Hn.
  - rewrite get_by_id_run by (destruct r; try discriminate; reflexivity).
    rewrite Hid. unfold Reading.with_revision at 1. rewrite coll_write.
    rewrite (find_update_first_same n _ d _ Hd Hn'). reflexivity.
  - intros n' Hne. unfold Reading.with_revision. rewrite coll_write.
    now apply find_update_first_other.
  - unfold Reading.with_revision. rewrite coll_write.
    now apply update_first_ids.
Qed.

End AllowedMutation.

Section AssignedFields.
Import Mongoose.

Lemma prop_set_prop {V : Type} (k k' : string) (v : V)
  (o : list (string * V)) :
  Js.prop k (Js.set_prop k' v o)
  = if String.eqb k k' then Some v else Js.prop k o.
Proof.
  induction o as [|[k'' v''] o IH]; cbn [Js.set_prop Js.prop].
  - reflexivity.
  - destruct (String.eqb k' k'') eqn:Hk; cbn [Js.prop].
    + apply String.eqb_eq in Hk. subst k''.
      now destruct (String.eqb k k').
    + rewrite IH. destruct (String.eqb k k'') eqn:Hk''; [|reflexivity].
      apply String.eqb_eq in Hk''. subst k''.
      rewrite String.eqb_sym in Hk. now rewrite Hk.
Qed.

Lemma prop_app {V : Type} (k : string) (a b : list (string * V)) :
  Js.prop k (a ++ b)
  = match Js.prop k a with Some v => Some v | None => Js.prop k b end.
Proof.
  induction a as [|[k' v'] a IH]; [reflexivity|]. cbn [app Js.prop].
  now destruct (String.eqb k k').
Qed.

Lemma prop_assigned {V : Type} (k : string) (value o : list (string * V)) :
  Js.prop k (fold_left (fun o kv => Js.set_prop (fst kv) (snd kv) o) value o)
  = match Js.prop k (rev value) with
    | Some v => Some v
    | None => Js.prop k o
    end.
Proof.
  revert o. induction value as [|[k' v'] value IH]; intros o;
    [reflexivity|].
  cbn [fold_left rev fst snd]. rewrite IH, prop_app, prop_set_prop.
  destruct (Js.prop k (rev value)); [reflexivity|]. cbn [Js.prop].
  now destruct (String.eqb k k').
Qed.

Lemma prop_some_in {V : Type} (k : string) (v : V) (o : list (string * V)) :
  Js.prop k o = Some v -> In (k, v) o.
Proof.
  induction o as [|[k' v'] o IH]; [discriminate|]. cbn [Js.prop].
  destruct (String.eqb k k') eqn:Hk.
  - apply String.eqb_eq in Hk. intros [= ->]. left. now subst.
  - intros Hp. right. now apply IH.
Qed.

Lemma prop_none_iff {V : Type} (k : string) (o : list (string * V)) :
  Js.prop k o = None <-> ~ In k (map fst o).
Proof.
  induction o as [|[k' v'] o IH]; cbn [Js.prop map fst In]; [tauto|].
  destruct (String.eqb k k') eqn:Hk.
  - apply String.eqb_eq in Hk. split; [discriminate|]. intros Hn.
    destruct Hn. now left.
  - apply String.eqb_neq in Hk. rewrite IH. split; [|tauto].
    intros Hn [He|Hin]; [congruence|tauto].
Qed.

Lemma prop_of_unique {V : Type} (k : string) (v : V)
  (o : list (string * V)) :
  NoDup (map fst o) -> In (k, v) o -> Js.prop k o = Some v.
Proof.
  induction o as [|[k' v'] o IH]; [contradiction|].
  cbn [map fst Js.prop]. intros Hu [He|Hin]; inversion Hu as [|? ? Hk Ho].
  - injection He as -> ->. now rewrite String.eqb_refl.
  - subst. destruct (String.eqb k k') eqn:Hkk.
    + apply String.eqb_eq in Hkk. subst k'. destruct Hk.
      apply (in_map fst) in Hin. exact Hin.
    + now apply IH.
Qed.

Lemma prop_rev {V : Type} (k : string) (o : list (string * V)) :
  NoDup (map fst o) -> Js.prop k (rev o) = Js.prop k o.
Proof.
  intros Hu. destruct (Js.prop k o) as [v|] eqn:Hp.
  - apply prop_of_unique.
    + rewrite map_rev. apply NoDup_rev. exact Hu.
    + apply in_rev. rewrite rev_involutive. now apply prop_some_in.
  - apply prop_none_iff. apply prop_none_iff in Hp.
    rewrite map_rev. intros Hin. apply in_rev in Hin. contradiction.
Qed.

(** X11. An update writes the payload into the record: on schemes, jobs
    and training (whose models have no setter), each key of a payload
    with distinct keys reads back from the revised record with the
    payload's value, and a key that the payload lacks keeps the value the
    record had. *)
Theorem revised_fields_read_back (r : Endpoints.Resource)
  (value : list (string * Js.value)) (db : Db) (d : Doc) (k : string) :
  r <> Endpoints.Marketplaces ->
  NoDup (map fst value) ->
  Js.prop k (fields (Reading.revised r value db d))
  = match Js.prop k value with
    | Some v => Some v
    | None => Js.prop k (fields d)
    end.
Proof.
  intros Hr Hu. unfold Reading.revised, Model.assign. cbn [fields].
  assert (Hset : apply_setters (Mongoose.schema_of (Endpoints.model_of r))
                   value = value)
    by (destruct r; [reflexivity..|congruence]).
  rewrite Hset, prop_assigned. now rewrite prop_rev.
Qed.

End AssignedFields.

(* ================================================================== *)
(** * Pages *)
(* ================================================================== *)

Section PageFacts.

Lemma firstn_then_firstn {A : Type} (a b : nat) (l : list A) :
  firstn a l ++ firstn b (skipn a l) = firstn (a + b) l.
Proof.
  revert l. induction a as [|a IH]; intros l; [reflexivity|].
  destruct l as [|x l]; cbn [firstn skipn Nat.add app].
  - now rewrite firstn_nil.
  - now rewrite IH.
Qed.

Lemma pages_concat {A B : Type} (f : A -> B) (m n : nat) (l : list A) :
  flat_map (fun k => map f (firstn m (skipn (k * m) l))) (seq 0 n)
  = map f (firstn (n * m) l).
Proof.
  induction n as [|n IH]; [reflexivity|].
  rewrite seq_S, flat_map_app, IH. cbn [flat_map Nat.add].
  rewrite app_nil_r, <- map_app, firstn_then_firstn.
  now replace (n * m + m) with (S n * m) by lia.
Qed.

Lemma sorted_firstn {A : Type} (R : A -> A -> Prop) (n : nat) (l : list A) :
  StronglySorted R l -> StronglySorted R (firstn n l).
Proof.
  revert l. induction n as [|n IH]; intros l Hs; [constructor|].
  destruct Hs as [|x l Hs Hx]; [constructor|]. cbn [firstn].
  constructor; [now apply IH|].
  apply Forall_forall. intros y Hy.
  eapply Forall_forall in Hx; [eassumption|]. eapply in_firstn; eassumption.
Qed.

Lemma sorted_skipn {A : Type} (R : A -> A -> Prop) (n : nat) (l : list A) :
  StronglySorted R l -> StronglySorted R (skipn n l).
Proof.
  revert l. induction n as [|n IH]; intros l Hs; [exact Hs|].
  destruct Hs as [|x l Hs Hx]; [constructor|]. cbn [skipn]. now apply IH.
Qed.

Import Mongoose.

Lemma insert_desc_sorted (d : Doc) (l : list Doc) :
  Reading.newest_first l -> Reading.newest_first (Model.insert_desc d l).
Proof.
  unfold Reading.newest_first.
  induction l as [|x l IH]; intros Hs; cbn [Model.insert_desc].
  - repeat constructor.
  - inversion Hs as [|? ? Hl Hx]; subst.
    destruct (createdAt x <=? createdAt d)%nat eqn:Hle.
    + apply Nat.leb_le in Hle. constructor; [exact Hs|].
      constructor; [exact Hle|].
      eapply Forall_impl; [|exact Hx]. cbn. intros y Hy. lia.
    + apply Nat.leb_gt in Hle. constructor; [now apply IH|].
      eapply Permutation_Forall;
        [symmetry; apply insert_desc_perm|].
      constructor; [lia|exact Hx].
Qed.

Lemma sort_desc_sorted (l : list Doc) :
  Reading.newest_first (Model.sort_desc l).
Proof.
  induction l as [|d l IH]; [constructor|].
  cbn [Model.sort_desc fold_right]. now apply insert_desc_sorted.
Qed.

Lemma window_sorted (skip limit : Z) (l page : list Doc) :
  Reading.newest_first l ->
  Model.window skip limit l = Some page ->
  Reading.newest_first page.
Proof.
  unfold Model.window, Reading.newest_first. intros Hs.
  destruct (skip <? 0)%Z; [discriminate|]. intros [= <-].
  destruct (limit =? 0)%Z; [|apply sorted_firstn]; now apply sorted_skipn.
Qed.

End PageFacts.

Section Pages.
Import Mongoose Http.
Context `{External}.

(** What a sorted query answers is in the order newest first. *)
Lemma exec_sorted (q : Model.Query) (db db' : Db) (items : list Item) :
  Model.q_sort q = true ->
  Model.exec q db = (db', inr items) ->
  Reading.newest_first (map doc items).
Proof.
  intros Hsort. unfold Model.exec. handler. rewrite Hsort.
  destruct (Model.compile (Model.q_filter q)) as [p|]; [|discriminate].
  cbn.
  destruct (Model.window _ _ _) as [page|] eqn:Hw; [|discriminate].
  intros [= _ <-]. rewrite map_map. cbn [doc]. rewrite map_id.
  eapply window_sorted; [apply sort_desc_sorted|exact Hw].
Qed.

Lemma exec_negative_skip (q : Model.Query) (db : Db) :
  (Model.q_skip q < 0)%Z ->
  Model.exec q db = (db, inl MongoServerError).
Proof.
  intros Hs. unfold Model.exec. handler.
  destruct (Model.compile (Model.q_filter q)); [|reflexivity]. cbn.
  unfold Model.window. apply Z.ltb_lt in Hs. now rewrite Hs.
Qed.

Lemma page_sorted (q : Model.Query) (k : list Item -> Body) (db : Db) :
  Model.q_sort q = true ->
  (forall l, Reading.items_of (json (k l)) = l \/ Reading.items_of (json (k l)) = []) ->
  Reading.newest_first
    (map doc
       (Reading.items_of
          (fst (try_catch
                  (Async.bind (Model.exec q)
                     (fun l => Async.ret (json (k l)))) db)))).
Proof.
  intros Hsort Hk. handler.
  destruct (Model.exec q db) as [db' [e|l]] eqn:Hq; cbn [fst];
    [constructor|].
  destruct (Hk l) as [-> | ->]; [|constructor].
  eapply exec_sorted; eassumption.
Qed.

(** X12. The records that List, search and list-by-category answer are
    in the order newest first, whatever the request: no record of a page
    is older than one that follows it. *)
Theorem pages_are_newest_first (x : Reading.Read) (req : Request) (db : Db) :
  Reading.newest_first
    (map doc (Reading.items_of (fst (Reading.read_handler x req db)))).
Proof.
  destruct x as [e|e|r| | |]; cbn [Reading.read_handler].
  - destruct e; cbn [Endpoints.list_handler];
      unfold SchemesRouter.get_root, JobsRouter.get_root,
        MarketplaceRouter.get_root; handler;
      match goal with
      | |- context [Model.exec ?q db] =>
          destruct (Model.exec q db) as [db' [err|l]] eqn:Hq
      end; cbn [fst]; try constructor;
      match goal with
      | |- context [Model.countDocuments ?m ?f ?d] =>
          destruct (Model.countDocuments m f d) as [db'' [err|n]]
      end; cbn [fst]; try constructor;
      (eapply exec_sorted; [|exact Hq]; reflexivity).
  - destruct e; cbn [Endpoints.search_handler];
      unfold SchemesRouter.get_search, MarketplaceRouter.get_search;
      (apply page_sorted; [reflexivity | intros l; now left]).
  - destruct r; cbn [Reading.get_handler];
      unfold SchemesRouter.get_id, JobsRouter.get_id,
        MarketplaceRouter.get_id; try (cbn; constructor); handler;
      rewrite find_by_id_populated;
      destruct (param_id req) as [|n]; try (cbn; constructor);
      destruct (List.find (Model.has_id n) _); cbn; constructor.
  - unfold SchemesRouter.get_category.
    apply page_sorted; [reflexivity | intros l; now left].
  - cbn. constructor.
  - cbn. constructor.
Qed.

(** X13. Paging through a List visits every matching record once: for
    positive limit and a filter the engine accepts, the pages 1 to
    totalPages of a request, one after the other, are all the records
    that match, newest first, each once. *)
Theorem pages_cover_the_matches (e : Endpoints.Listing) (req : Request)
  (db : Db) (p : Doc -> bool) :
  Model.compile (Endpoints.list_filter e req) = Some p ->
  (0 < default 10 (query_limit req))%Z ->
  flat_map
    (fun k =>
       Reading.items_of
         (fst (Endpoints.list_handler e
                 (Req.with_page (Z.of_nat (S k)) req) db)))
    (seq 0 (Z.to_nat (Js.ceil_div
                        (Spec.total (coll (Endpoints.list_model e) db) p)
                        (default 10 (query_limit req)))))
  = Spec.populated db
      (Model.sort_desc (List.filter p (coll (Endpoints.list_model e) db))).
Proof.
  intros Hc Hl.
  set (limit := default 10 (query_limit req)) in *.
  set (c := coll (Endpoints.list_model e) db).
  set (sorted := Model.sort_desc (List.filter p c)).
  rewrite (flat_map_ext _
             (fun k => map (Reading.with_creator db)
                         (firstn (Z.to_nat limit)
                            (skipn (k * Z.to_nat limit) sorted)))).
  - rewrite pages_concat. unfold Spec.populated.
    rewrite firstn_all2; [reflexivity|].
    subst sorted. rewrite sort_desc_length.
    pose proof (ceil_div_spec (Spec.total c p) limit Hl) as Hceil.
    unfold Spec.total in *.
    pose proof (ceil_div_nonneg (Z.of_nat (List.length (List.filter p c)))
                  limit ltac:(lia) Hl).
    nia.
  - intros k.
    rewrite (list_handler_accepted e (Req.with_page (Z.of_nat (S k)) req)
               db p).
    + cbn [fst Reading.items_of body json query_page query_limit
           Req.with_page default].
      unfold Spec.listing, Spec.populated, Spec.page_of.
      fold limit c sorted.
      replace (Z.to_nat ((Z.of_nat (S k) - 1) * limit))
        with (k * Z.to_nat limit)%nat by nia.
      reflexivity.
    + now rewrite list_filter_page.
    + cbn. lia.
    + exact Hl.
Qed.

(** X14. A List that nothing matches, the List of an empty collection
    among them, answers an empty page with totalItems 0 and totalPages
    0. *)
Theorem list_of_no_match (e : Endpoints.Listing) (req : Request) (db : Db)
  (p : Doc -> bool) :
  Model.compile (Endpoints.list_filter e req) = Some p ->
  (0 < default 1 (query_page req))%Z ->
  (0 < default 10 (query_limit req))%Z ->
  (forall d, In d (coll (Endpoints.list_model e) db) -> p d = false) ->
  Endpoints.list_handler e req db
  = (json (Page (Endpoints.list_key e) []
             (Some {| currentPage := default 1 (query_page req);
                      totalPages := Some 0%Z;
                      totalItems := 0%Z;
                      itemsPerPage := default 10 (query_limit req) |})),
     db).
Proof.
  intros Hc Hp Hl Hnone.
  rewrite (list_handler_accepted e req db p Hc Hp Hl).
  assert (Hf : List.filter p (coll (Endpoints.list_model e) db) = []).
  { induction (coll (Endpoints.list_model e) db) as [|d c IH];
      [reflexivity|].
    cbn [List.filter]. rewrite (Hnone d (or_introl eq_refl)).
    apply IH. intros d' Hd'. apply Hnone. now right. }
  unfold Spec.listing, Spec.total, Spec.page_of, Spec.populated.
  rewrite Hf. cbn [Model.sort_desc fold_right List.length Z.of_nat].
  rewrite skipn_nil, firstn_nil. cbn [map].
  unfold Js.ceil_div. cbn [Z.opp]. now rewrite Z.div_0_l by lia.
Qed.

(** X15. A page before the first is an error: List and search with
    positive limit and a page of zero or less, whose offset
    (page - 1) * limit is negative, answer 500. *)
Theorem page_before_the_first_answers_500 (req : Request) (db : Db) :
  ((default 1 (query_page req) - 1) * default 10 (query_limit req) < 0)%Z ->
  (forall e, Endpoints.list_handler e req db = (internal_error, db))
  /\ (forall e, Endpoints.search_handler e req db = (internal_error, db))
  /\ SchemesRouter.get_category req db = (internal_error, db).
Proof.
  intros Hneg. split; [|split]; [intros e; destruct e|intros e; destruct e|];
    cbn [Endpoints.list_handler Endpoints.search_handler];
    unfold SchemesRouter.get_root, JobsRouter.get_root,
      MarketplaceRouter.get_root, SchemesRouter.get_search,
      MarketplaceRouter.get_search, SchemesRouter.get_category;
    handler; rewrite exec_negative_skip by exact Hneg; reflexivity.
Qed.

End Pages.

(* ================================================================== *)
(** * The patterns of the models *)
(* ================================================================== *)

Section PatternFacts.

Lemma run_literals (p l : list ascii) (k : list ascii -> bool) :
  Regex.run (fold_right (fun c r => Regex.Cat (Regex.Lit c) r) Regex.Eps p)
            l k
  = match Reading.strip p l with
    | Some rest => k rest
    | None => false
    end.
Proof.
  revert l. induction p as [|a p IH]; intros l; [reflexivity|].
  cbn [fold_right Regex.run Regex.Lit Reading.strip].
  destruct l as [|b l]; [reflexivity|].
  rewrite IH. now destruct (Ascii.eqb a b).
Qed.

Lemma run_star_anything (a : Regex.re) (l : list ascii) :
  Regex.run (Regex.Star a) l Regex.anything = true.
Proof. cbn [Regex.run]. now destruct (List.length l). Qed.

Lemma run_upto (p : ascii -> bool) (n : nat) (l : list ascii) :
  Regex.run (Regex.UpTo n (Regex.Chr p)) l Regex.at_end
  = forallb p l && (List.length l <=? n)%nat.
Proof.
  revert l. induction n as [|n IH]; intros l.
  - destruct l as [|c l]; cbn; [reflexivity|]. now rewrite andb_false_r.
  - cbn [Regex.UpTo Regex.Opt Regex.run]. destruct l as [|c l].
    + reflexivity.
    + rewrite IH. cbn [Regex.at_end forallb List.length Nat.leb].
      rewrite orb_false_r. now rewrite andb_assoc.
Qed.

Lemma strip_app (a b l : list ascii) :
  Reading.strip (a ++ b) l
  = match Reading.strip a l with
    | Some rest => Reading.strip b rest
    | None => None
    end.
Proof.
  revert l. induction a as [|x a IH]; intros l; [reflexivity|].
  cbn [app Reading.strip]. destruct l as [|y l]; [reflexivity|].
  now destruct (Ascii.eqb x y).
Qed.

(** X16. The phone pattern of the marketplace, [^[\+]?[1-9][\d]{0,15}$],
    accepts exactly an optional [+], a digit from 1 to 9, and then at
    most fifteen digits. *)
Theorem phone_pattern_accepts (s : string) :
  Mongoose.phone_test s = Reading.is_phone s.
Proof.
  unfold Mongoose.phone_test, Regex.test_whole, Mongoose.phone_re,
    Reading.is_phone.
  cbn [Regex.run Regex.Opt Regex.Lit Regex.OneOf].
  destruct (Js.chars s) as [|c l]; [reflexivity|].
  rewrite (Ascii.eqb_sym c "+"%char).
  destruct (Ascii.eqb "+" c) eqn:Hc.
  - apply Ascii.eqb_eq in Hc. subst c. cbn [andb orb].
    change (existsb (Ascii.eqb "+") (Js.chars "123456789")) with false.
    cbn [andb]. rewrite orb_false_r.
    destruct l as [|d l]; [reflexivity|].
    now rewrite run_upto, andb_assoc.
  - cbn [andb orb]. now rewrite run_upto, andb_assoc.
Qed.

(** X17. The URL pattern of the Scheme and TrainingContent models,
    [^https?:\/\/.+], accepts exactly the strings that start with
    [http://] or [https://] followed by a character that ends no line;
    nothing is asked of what follows. *)
Theorem url_pattern_accepts (s : string) :
  Mongoose.url_test s = Reading.is_http_url s.
Proof.
  assert (Hplus : forall r,
             Regex.run (Regex.Str "://") r
               (fun rest => Regex.run (Regex.Plus Regex.js_dot) rest
                              Regex.anything)
             = match Reading.strip (Js.chars "://") r with
               | Some (c :: _) => negb (Reading.line_terminator c)
               | _ => false
               end).
  { intros r. unfold Regex.Str. rewrite run_literals.
    destruct (Reading.strip (Js.chars "://") r) as [[|c rest]|];
      try reflexivity.
    unfold Regex.Plus, Regex.js_dot.
    change (Regex.run (Regex.Cat ?a ?b) ?l ?k)
      with (Regex.run a l (fun l' => Regex.run b l' k)).
    change (Regex.run (Regex.Chr ?p) (c :: rest) ?k) with (p c && k rest).
    cbv beta. rewrite run_star_anything. apply andb_true_r. }
  unfold Mongoose.url_test, Regex.test_prefix, Mongoose.url_re,
    Reading.is_http_url.
  change (Regex.run (Regex.Cat ?a ?b) ?l ?k)
    with (Regex.run a l (fun l' => Regex.run b l' k)).
  unfold Regex.Str at 1. rewrite run_literals.
  change (Js.chars "http://") with (Js.chars "http" ++ Js.chars "://").
  change (Js.chars "https://")
    with (Js.chars "http" ++ (Js.chars "s" ++ Js.chars "://")).
  rewrite !strip_app.
  destruct (Reading.strip (Js.chars "http") (Js.chars s)) as [l|];
    [|reflexivity].
  unfold Regex.Opt.
  change (Regex.run (Regex.Cat ?a ?b) ?l ?k)
    with (Regex.run a l (fun l' => Regex.run b l' k)).
  change (Regex.run (Regex.Alt ?a ?b) ?l ?k)
    with (Regex.run a l k || Regex.run b l k).
  change (Regex.run Regex.Eps ?l ?k) with (k l). cbv beta.
  change (fun l' => Regex.run (Regex.Cat ?a ?b) l' ?k)
    with (fun l' => Regex.run a l' (fun l'' => Regex.run b l'' k)).
  change (Regex.run (Regex.Cat ?a ?b) ?l ?k)
    with (Regex.run a l (fun l' => Regex.run b l' k)).
  rewrite Hplus, strip_app, orb_comm. f_equal.
  destruct l as [|c l]; [reflexivity|].
  change (Regex.run (Regex.Lit "s") (c :: l) ?k)
    with (Ascii.eqb "s" c && k l).
  cbv beta. rewrite Hplus.
  cbn [Reading.strip Js.chars list_ascii_of_string].
  now destruct (Ascii.eqb "s" c).
Qed.

End PatternFacts.

(* ================================================================== *)
(** * Search and list-by-category *)
(* ================================================================== *)

Section CaseFacts.

Lemma to_lower_idempotent (c : ascii) :
  Js.to_lower (Js.to_lower c) = Js.to_lower c.
Proof. destruct c as [[] [] [] [] [] [] [] []]; reflexivity. Qed.

Lemma to_lower_plain (c : ascii) :
  negb (MongoRegex.is_other_meta c) && negb (Ascii.eqb c "."%char) = true ->
  negb (MongoRegex.is_other_meta (Js.to_lower c))
  && negb (Ascii.eqb (Js.to_lower c) "."%char) = true.
Proof.
  destruct c as [[] [] [] [] [] [] [] []]; vm_compute; intros Hc;
    exact Hc || reflexivity.
Qed.

Lemma chars_lowercase (s : string) :
  Js.chars (Js.lowercase s) = map Js.to_lower (Js.chars s).
Proof.
  unfold Js.lowercase, Js.chars. apply list_ascii_of_string_of_list_ascii.
Qed.

Lemma prefix_ci_lower (p s : list ascii) :
  Substring.prefix_ci (map Js.to_lower p) s = Substring.prefix_ci p s.
Proof.
  revert s. induction p as [|a p IH]; intros s; [reflexivity|].
  destruct s as [|b s]; [reflexivity|]. cbn [map Substring.prefix_ci].
  unfold Js.eqb_ci. now rewrite to_lower_idempotent, IH.
Qed.

Lemma contains_ci_lower (t s : string) :
  Substring.contains_ci (Js.lowercase t) s = Substring.contains_ci t s.
Proof.
  unfold Substring.contains_ci. rewrite chars_lowercase.
  induction (Js.chars s) as [|b l IH]; cbn [Substring.occurs_ci];
    rewrite prefix_ci_lower; [reflexivity|]. now rewrite IH.
Qed.

Lemma plain_lowercase (t : string) :
  MongoRegex.plain t = true -> MongoRegex.plain (Js.lowercase t) = true.
Proof.
  unfold MongoRegex.plain. rewrite chars_lowercase.
  induction (Js.chars t) as [|c l IH]; [reflexivity|].
  cbn [map forallb]. intros Hp. apply andb_true_iff in Hp as [Hc Hl].
  now rewrite (to_lower_plain c Hc), IH.
Qed.

End CaseFacts.

Section SearchFacts.
Import Mongoose Http.
Context `{External}.

Lemma exec_filter_ext (m : ModelName) (f f' : Model.Filter)
  (p p' : Doc -> bool) (skip limit : Z) (db : Db) :
  Model.compile f = Some p -> Model.compile f' = Some p' ->
  (forall d, p d = p' d) ->
  Model.exec (Model.limit limit
                (Model.skip skip
                   (Model.sort_createdAt_desc
                      (Model.populate_createdBy (Model.find m f))))) db
  = Model.exec (Model.limit limit
                  (Model.skip skip
                     (Model.sort_createdAt_desc
                        (Model.populate_createdBy (Model.find m f'))))) db.
Proof.
  intros Hf Hf' Hpp. unfold Model.exec. handler. cbn.
  rewrite Hf, Hf'. cbn. now rewrite (filter_ext p p' Hpp).
Qed.

(** X18. Search does not tell the case of the query string: for a query
    without regular-expression metacharacter, the search for its
    lower-case form answers what the search for the query answers, on
    schemes and on the marketplace. *)
Theorem search_ignores_case (e : Endpoints.Search) (req : Request) (db : Db) :
  MongoRegex.plain (param req) = true ->
  Endpoints.search_handler e
    (Req.on_param (Js.lowercase (param req)) req) db
  = Endpoints.search_handler e req db.
Proof.
  intros Hp.
  destruct (search_filter_plain e req Hp) as (p & Hc & Hpd).
  destruct (search_filter_plain e
              (Req.on_param (Js.lowercase (param req)) req)
              (plain_lowercase _ Hp)) as (p' & Hc' & Hpd').
  assert (Hpp : forall d, p' d = p d).
  { intros d. rewrite Hpd, Hpd'. cbn [param query Req.on_param].
    unfold Spec.search_matches. f_equal. clear Hpd Hpd'.
    induction (Endpoints.search_texts e) as [|f l IH]; [reflexivity|].
    cbn [existsb]. rewrite IH. f_equal.
    unfold Spec.field_contains, Model.on_field.
    destruct (Model.field_string f d); [apply contains_ci_lower|reflexivity]. }
  destruct e; cbn [Endpoints.search_handler Endpoints.search_filter] in *;
    unfold SchemesRouter.get_search, MarketplaceRouter.get_search; handler;
    cbn [query_page query_limit Req.on_param];
    now rewrite (exec_filter_ext _ _ _ p' p _ _ db Hc' Hc Hpp).
Qed.

(** X19. For every query string without regular-expression
    metacharacter and positive page and limit, the marketplace search
    answers the requested page, newest first, of the entries whose
    business name OR product description holds the query string,
    whatever the case, AND whose language is the language parameter when
    it is given and not empty; a first page they all fit in holds exactly
    them. *)
Theorem marketplace_search_returns_matching_page (req : Request) (db : Db) :
  MongoRegex.plain (param req) = true ->
  (0 < default 1 (query_page req))%Z ->
  (0 < default 10 (query_limit req))%Z ->
  exists items,
    MarketplaceRouter.get_search req db
    = (json (Page "results" items None), db)
    /\ items
       = Spec.listing db (marketplaces db)
           (Spec.search_matches Spec.given ["businessName"; "productService"]
              (param req) (query req))
           (default 1 (query_page req)) (default 10 (query_limit req))
    /\ (forall i, In i items ->
          In (doc i) (marketplaces db)
          /\ Spec.search_matches Spec.given
               ["businessName"; "productService"] (param req) (query req)
               (doc i) = true)
    /\ (default 1 (query_page req) = 1%Z ->
        (Spec.total (marketplaces db)
           (Spec.search_matches Spec.given
              ["businessName"; "productService"] (param req) (query req))
         <= default 10 (query_limit req))%Z ->
        Permutation (map doc items)
          (List.filter
             (Spec.search_matches Spec.given
                ["businessName"; "productService"] (param req) (query req))
             (marketplaces db))).
Proof.
  intros Hplain Hp Hl.
  destruct (search_filter_plain Endpoints.MarketplaceSearch req Hplain)
    as (p & Hc & Hpd).
  pose proof (search_handler_accepted Endpoints.MarketplaceSearch req db p
                Hc Hp Hl) as Hrun.
  cbn [Endpoints.search_handler Endpoints.search_model
       Endpoints.search_texts coll] in *.
  rewrite Hrun. eexists. split; [reflexivity|].
  destruct (listing_ext db (marketplaces db) _ _ (default 1 (query_page req))
              (default 10 (query_limit req)) Hpd) as [-> _].
  split; [reflexivity|]. split.
  - intros i Hi. apply listing_sound in Hi. tauto.
  - intros -> Hfit. now apply listing_complete.
Qed.

Lemma category_filter_plain (req : Request) :
  MongoRegex.plain (param req) = true ->
  exists p,
    Model.compile (SchemesRouter.category_filter req) = Some p
    /\ forall d, p d = Reading.category_matches (param req) (query req) d.
Proof.
  intros Hp. destruct (regex_i_plain (param req) Hp) as (m & Hm & Hms).
  destruct (compile_language (Js.prop "language" (query req)))
    as (pl & Hl & Hld).
  assert (Hcat : Model.compile
                   [Model.Field "category" (Model.RegexI (param req))]
                 = Some (fun d => Model.on_field "category" m d && true)).
  { cbn. now rewrite Hm. }
  destruct (compile_app _ _ _ _ Hcat Hl) as (r & Hr & Hrd).
  exists r. split; [exact Hr|]. intros d.
  rewrite Hrd, Hld, andb_true_r. unfold Reading.category_matches. f_equal.
  unfold Spec.field_contains, Model.on_field.
  destruct (Model.field_string "category" d); auto.
Qed.

(** X20. For every category without regular-expression metacharacter
    and positive page and limit, list-by-category of schemes answers the
    requested page, newest first, of the schemes whose category holds the
    route's category, whatever the case, and whose language is the
    language parameter when it is given and not empty; the answer holds
    the page only, without pagination metadata. *)
Theorem schemes_by_category_returns_matching_page (req : Request) (db : Db) :
  MongoRegex.plain (param req) = true ->
  (0 < default 1 (query_page req))%Z ->
  (0 < default 10 (query_limit req))%Z ->
  exists items,
    SchemesRouter.get_category req db = (json (Page "schemes" items None), db)
    /\ items
       = Spec.listing db (schemes db)
           (Reading.category_matches (param req) (query req))
           (default 1 (query_page req)) (default 10 (query_limit req))
    /\ (forall i, In i items ->
          In (doc i) (schemes db)
          /\ Reading.category_matches (param req) (query req) (doc i) = true)
    /\ (default 1 (query_page req) = 1%Z ->
        (Spec.total (schemes db)
           (Reading.category_matches (param req) (query req))
         <= default 10 (query_limit req))%Z ->
        Permutation (map doc items)
          (List.filter (Reading.category_matches (param req) (query req))
             (schemes db))).
Proof.
  intros Hplain Hp Hl.
  destruct (category_filter_plain req Hplain) as (p & Hc & Hpd).
  unfold SchemesRouter.get_category. handler.
  rewrite (exec_listing Scheme _ p _ _ db Hc Hp Hl).
  eexists. split; [reflexivity|]. cbn [coll].
  destruct (listing_ext db (schemes db) _ _ (default 1 (query_page req))
              (default 10 (query_limit req)) Hpd) as [-> _].
  split; [reflexivity|]. split.
  - intros i Hi. apply listing_sound in Hi. tauto.
  - intros -> Hfit. now apply listing_complete.
Qed.

Lemma compile_app_none_l (f g : Model.Filter) :
  Model.compile f = None -> Model.compile (f ++ g) = None.
Proof.
  induction f as [|cl f IH]; [discriminate|]. cbn [app Model.compile].
  destruct (Model.compile_clause cl); [|reflexivity].
  destruct (Model.compile f); [discriminate|]. intros _.
  now rewrite IH.
Qed.

Lemma compile_app_none_r (f g : Model.Filter) :
  Model.compile g = None -> Model.compile (f ++ g) = None.
Proof.
  intros Hg. induction f as [|cl f IH]; [exact Hg|]. cbn [app Model.compile].
  rewrite IH. now destruct (Model.compile_clause cl).
Qed.

Lemma compile_rejected_text (f v : string) :
  v <> "" -> MongoRegex.regex_i v = None ->
  Model.compile
    (when_given (Some v) (fun s => Model.Field f (Model.RegexI s))) = None.
Proof.
  intros Hv Hr. unfold when_given, Js.truthy.
  apply String.eqb_neq in Hv. rewrite Hv. cbn. now rewrite Hr.
Qed.

(** X21. A pattern that the storage engine rejects is answered 500 and
    nothing else happens: a search or a list-by-category whose route
    parameter is rejected, and a List one of whose text parameters is
    given, not empty and rejected. *)
Theorem rejected_pattern_answers_500 (req : Request) (db : Db) :
  (MongoRegex.regex_i (param req) = None ->
   (forall e, Endpoints.search_handler e req db = (internal_error, db))
   /\ SchemesRouter.get_category req db = (internal_error, db))
  /\ (forall e f v,
        In f (Endpoints.list_texts e) ->
        Js.prop f (query req) = Some v ->
        v <> "" ->
        MongoRegex.regex_i v = None ->
        Endpoints.list_handler e req db = (internal_error, db)).
Proof.
  split.
  - intros Hr. split; [intros e; destruct e|];
      cbn [Endpoints.search_handler];
      unfold SchemesRouter.get_search, MarketplaceRouter.get_search,
        SchemesRouter.get_category; handler;
      rewrite exec_rejected; try reflexivity;
      cbn [Model.q_filter Model.limit Model.skip Model.sort_createdAt_desc
           Model.populate_createdBy Model.find];
      apply compile_app_none_l; cbn; now rewrite Hr.
  - intros e f v Hin Hf Hv Hr. apply list_handler_rejected.
    pose proof (compile_rejected_text f v Hv Hr) as Hnone.
    destruct e; cbn [Endpoints.list_texts In] in Hin;
      cbn [Endpoints.list_filter];
      unfold SchemesRouter.list_filter, JobsRouter.list_filter,
        MarketplaceRouter.list_filter;
      repeat destruct Hin as [<-|Hin]; try contradiction; rewrite Hf.
    + now apply compile_app_none_r.
    + now apply compile_app_none_l.
    + apply compile_app_none_r. now apply compile_app_none_l.
    + now apply compile_app_none_r.
Qed.

(** X22. A key that the schema of the resource does not declare is
    refused: create and update of every resource answer 400 Validation
    error to a payload that holds such a key, and write nothing. *)
Theorem unknown_key_is_refused (r : Endpoints.Resource) (user : User)
  (req : Request) (db : Db) (k : string) (v : Js.value) :
  In (k, v) (payload req) ->
  Js.mem k (map fst (Endpoints.schema_of r)) = false ->
  exists detail,
    Endpoints.post_handler r user req db = (validation_error [detail], db)
    /\ Endpoints.put_handler r user req db = (validation_error [detail], db).
Proof.
  intros Hin Hk.
  assert (Hne : Joi.violations (Endpoints.schema_of r) (payload req) <> []).
  { unfold Joi.violations. intros Hnil. apply app_eq_nil in Hnil as [_ Hu].
    assert (Hhas : In (Joi.err k " is not allowed")
                     (Joi.unknown_keys "" (Endpoints.schema_of r)
                        (payload req))).
    { unfold Joi.unknown_keys. apply in_flat_map. exists (k, v).
      split; [exact Hin|]. cbn [fst]. rewrite Hk. now left. }
    rewrite Hu in Hhas. contradiction. }
  destruct (Joi.violations (Endpoints.schema_of r) (payload req))
    as [|first rest] eqn:Hv; [congruence|].
  exists first. apply refused_payload.
  eapply validate_first; eassumption.
Qed.

End SearchFacts.

Section UpdateSkipsModel.
Import Mongoose Http.
Context `{External}.

(** X23. Update does not run the validators of the model: an update of
    an existing scheme with a payload (of distinct keys) that the
    validator accepts and whose eligibility is shorter than the ten
    characters the Scheme model requires succeeds, and the record it
    stores, which get-by-id then answers, does not pass the model's
    validators; create answers 500 to the same payload. *)
Theorem update_stores_what_create_refuses (user : User) (req : Request)
  (db : Db) (n : nat) (d : Doc) (value : list (string * Js.value))
  (s : string) :
  param_id req = Oid n ->
  List.find (Model.has_id n) (schemes db) = Some d ->
  Joi.validate SchemesRouter.schemeSchema (payload req) = inr value ->
  NoDup (map fst (payload req)) ->
  Js.prop "eligibility" (payload req) = Some (Js.VStr s) ->
  String.length s < 10 ->
  SchemesRouter.put_id req db
  = (Endpoints.updated Endpoints.Schemes
       (Reading.with_creator db
          (Reading.revised Endpoints.Schemes value db d)),
     Reading.with_revision Endpoints.Schemes n
       (Reading.revised Endpoints.Schemes value db d) db)
  /\ schema_ok Mongoose.schemeSchema
       (fields (Reading.revised Endpoints.Schemes value db d)) = false
  /\ SchemesRouter.get_id req
       (Reading.with_revision Endpoints.Schemes n
          (Reading.revised Endpoints.Schemes value db d) db)
     = (Reading.found Endpoints.Schemes
          (Reading.with_creator db
             (Reading.revised Endpoints.Schemes value db d)),
        Reading.with_revision Endpoints.Schemes n
          (Reading.revised Endpoints.Schemes value db d) db)
  /\ SchemesRouter.post_root user req db = (internal_error, fresh_id db).
Proof.
  intros Hid Hd Hv Hu Hk Hs.
  pose proof (validate_accepts _ _ _ Hv) as [Hval _].
  destruct (find_has_id n _ d Hd) as [Hn _].
  assert (Hshort : path_ok (text "eligibility" (Some 10) None) (payload req)
                   = false).
  { unfold path_ok, text.
    cbn [path get_path required minlength maxlength match_ enum opt_ok].
    rewrite Hk. pose proof Hs as Hs'. apply Nat.leb_gt in Hs'. rewrite Hs'.
    now rewrite andb_false_r. }
  split; [|split; [|split]].
  - exact (scheme_update_found req db n d value Hid Hd Hv).
  - assert (Hf : path_ok (text "eligibility" (Some 10) None)
                   (fields (Reading.revised Endpoints.Schemes value db d))
                 = false).
    { unfold path_ok, text.
      cbn [path get_path required minlength maxlength match_ enum opt_ok].
      unfold Reading.revised, Model.assign. cbn [fields].
      change (apply_setters
                (Mongoose.schema_of (Endpoints.model_of Endpoints.Schemes))
                value) with value.
      rewrite prop_assigned, prop_rev by (subst value; exact Hu).
      subst value. rewrite Hk.
      pose proof Hs as Hs'. apply Nat.leb_gt in Hs'. rewrite Hs'.
      now rewrite andb_false_r. }
    set (stored := fields (Reading.revised Endpoints.Schemes value db d))
      in *.
    unfold schema_ok, Mongoose.schemeSchema. cbn [forallb]. rewrite Hf.
    cbn [andb]. now rewrite !andb_false_r.
  - change (SchemesRouter.get_id) with (Reading.get_handler Endpoints.Schemes).
    rewrite get_by_id_run by reflexivity. rewrite Hid.
    unfold Reading.with_revision at 1. rewrite coll_write.
    cbn [Endpoints.model_of coll].
    rewrite (find_update_first_same n _ d
               (Reading.revised Endpoints.Schemes value db d) Hd Hn).
    reflexivity.
  - apply (create_refused_by_model Endpoints.Schemes user req db value
             eq_refl Hv).
    subst value. cbn [Endpoints.model_of Mongoose.schema_of].
    change (apply_setters Mongoose.schemeSchema (payload req))
      with (payload req).
    unfold schema_ok, Mongoose.schemeSchema. cbn [forallb]. rewrite Hshort.
    cbn [andb]. now rewrite !andb_false_r.
Qed.

End UpdateSkipsModel.

(* ================================================================== *)
(** * The theorems on the sample store, and where the specification's
      wording departs from the handlers *)
(* ================================================================== *)

#[local] Existing Instance Sample.libraries.

Section OnTheSampleStore.
Import Mongoose Http.

(** The training scenario, sent by Ravi. *)
Lemma training_scenario_by_ravi :
  role Sample.ravi = "entrepreneur"
  /\ joi_uri "https://x.test/a" = true
  /\ TrainingRouter.POST (Sample.scenario Sample.ravi) Sample.store
     = (internal_error, Sample.store).
Proof.
  split; [reflexivity|]. split; [reflexivity|].
  apply (training_scenario_answers_500 Sample.ravi Sample.store);
    reflexivity.
Defined.

(** C2 as stated fails: a training create with an empty payload, by a
    caller of role entrepreneur, is answered 400, not 500. *)
Lemma training_create_without_payload_is_400 :
  TrainingRouter.POST (Req.sent_by Sample.ravi Req.empty) Sample.store
  = (status_json 400
       (Errors "Validation error"
          [(Joi.label "title" ++ " is required")%string]),
     Sample.store)
  /\ fst (TrainingRouter.POST (Req.sent_by Sample.ravi Req.empty)
            Sample.store)
     <> internal_error.
Proof. split; [reflexivity|discriminate]. Qed.

(** C3 as stated fails. [?category=.] lists a job whose category holds
    no dot, and [?language=] lists a job whose language is not the empty
    string. *)
Lemma list_parameters_are_not_substrings :
  (exists items pagination i,
     Endpoints.list_handler Endpoints.JobsList
       (Req.with_query [("category", ".")] Req.empty) Sample.store
     = (json (Page "jobs" items (Some pagination)), Sample.store)
     /\ In i items
     /\ Spec.list_matches Spec.supplied ["category"; "location"]
          [("category", ".")] (doc i) = false)
  /\ (exists items pagination i,
        Endpoints.list_handler Endpoints.JobsList
          (Req.with_query [("language", "")] Req.empty) Sample.store
        = (json (Page "jobs" items (Some pagination)), Sample.store)
        /\ In i items
        /\ Spec.list_matches Spec.supplied ["category"; "location"]
             [("language", "")] (doc i) = false).
Proof.
  split; eexists; eexists; eexists;
    (split; [reflexivity|]); (split; [left; reflexivity|]); reflexivity.
Qed.

(** The jobs in English whose category holds "FAR", whatever the case. *)
Lemma jobs_list_in_english :
  forallb (fun f =>
             Spec.plain_param
               (Js.prop f [("category", "FAR"); ("language", "en")]))
          (Endpoints.list_texts Endpoints.JobsList) = true
  /\ (0 < 1)%Z /\ (0 < 10)%Z
  /\ exists items pagination,
       Endpoints.list_handler Endpoints.JobsList
         (Req.with_query [("category", "FAR"); ("language", "en")] Req.empty)
         Sample.store
       = (json (Page "jobs" items (Some pagination)), Sample.store)
       /\ (forall i, In i items ->
             In (doc i) (jobs Sample.store)
             /\ Spec.list_matches Spec.given ["category"; "location"]
                  [("category", "FAR"); ("language", "en")] (doc i) = true)
       /\ totalItems pagination
          = Spec.total (jobs Sample.store)
              (Spec.list_matches Spec.given ["category"; "location"]
                 [("category", "FAR"); ("language", "en")])
       /\ (forall k v,
             Endpoints.recognized Endpoints.JobsList k = false ->
             Endpoints.list_handler Endpoints.JobsList
               (Req.with_query
                  ((k, v) :: [("category", "FAR"); ("language", "en")])
                  (Req.with_query [("category", "FAR"); ("language", "en")]
                     Req.empty))
               Sample.store
             = Endpoints.list_handler Endpoints.JobsList
                 (Req.with_query [("category", "FAR"); ("language", "en")]
                    Req.empty)
                 Sample.store).
Proof.
  split; [reflexivity|]. split; [lia|]. split; [lia|].
  apply (list_returns_matching_records Endpoints.JobsList
           (Req.with_query [("category", "FAR"); ("language", "en")]
              Req.empty)
           Sample.store); [reflexivity | reflexivity | reflexivity].
Defined.

(** The second page of the schemes, two by two. *)
Lemma schemes_second_page :
  Model.compile
    (Endpoints.list_filter Endpoints.SchemesList
       (Req.with_page 2 (Req.with_limit 2 Req.empty)))
  = Some (fun _ => true)
  /\ (0 < 2)%Z /\ (0 < 2)%Z
  /\ exists items pagination pages,
       Endpoints.list_handler Endpoints.SchemesList
         (Req.with_page 2 (Req.with_limit 2 Req.empty)) Sample.store
       = (json (Page "schemes" items (Some pagination)), Sample.store)
       /\ totalPages pagination = Some pages
       /\ Spec.is_ceiling pages (totalItems pagination)
            (itemsPerPage pagination)
       /\ currentPage pagination = 2%Z
       /\ itemsPerPage pagination = 2%Z
       /\ totalItems pagination
          = Spec.total (schemes Sample.store) (fun _ => true)
       /\ items = Spec.populated Sample.store
                    (firstn (Z.to_nat 2)
                       (skipn (Z.to_nat ((2 - 1) * 2))
                          (Model.sort_desc
                             (List.filter (fun _ => true)
                                (schemes Sample.store)))))
       /\ (Z.of_nat (List.length items) <= 2)%Z
       /\ ((pages < 2)%Z -> items = [])
       /\ (forall page',
             (0 < page')%Z ->
             exists items',
               Endpoints.list_handler Endpoints.SchemesList
                 (Req.with_page page'
                    (Req.with_page 2 (Req.with_limit 2 Req.empty)))
                 Sample.store
               = (json (Page "schemes" items'
                          (Some {| currentPage := page';
                                   totalPages := totalPages pagination;
                                   totalItems := totalItems pagination;
                                   itemsPerPage := itemsPerPage pagination |})),
                  Sample.store)).
Proof.
  split; [reflexivity|]. split; [lia|]. split; [lia|].
  apply (list_pagination Endpoints.SchemesList
           (Req.with_page 2 (Req.with_limit 2 Req.empty)) Sample.store
           (fun _ => true)); [reflexivity | reflexivity | reflexivity].
Defined.

(** C5 as stated fails. An update of Meena's job by Ravi, who is neither
    its creator nor an admin, with an empty payload is answered 400, not
    403; and a delete of Ravi's training record by Kiran is answered 500,
    not 403. *)
Lemma stranger_is_not_always_answered_403 :
  fst (JobsRouter.PUT (Req.sent_by Sample.ravi (Req.on_id 20 Req.empty))
         Sample.store)
  = status_json 400
      (Errors "Validation error"
         [(Joi.label "title" ++ " is required")%string])
  /\ fst (TrainingRouter.DELETE
            (Req.sent_by Sample.kiran (Req.on_id 30 Req.empty)) Sample.store)
     = internal_error.
Proof. split; reflexivity. Qed.

(** Ravi on Meena's job. *)
Lemma ravi_cannot_mutate_job_of_meena :
  Endpoints.owned Endpoints.Jobs = true
  /\ caller (Req.sent_by Sample.ravi (Req.on_id 20 Req.empty))
     = Some Sample.ravi
  /\ param_id (Req.sent_by Sample.ravi (Req.on_id 20 Req.empty)) = Oid 20
  /\ List.find (Model.has_id 20) (jobs Sample.store)
     = Some (Sample.stored 20
               (Sample.job_fields "Picker" "farm" "Pune" "en") 3 4)
  /\ 3 <> user_id Sample.ravi
  /\ role Sample.ravi <> "admin"
  /\ Endpoints.DELETE Endpoints.Jobs
       (Req.sent_by Sample.ravi (Req.on_id 20 Req.empty)) Sample.store
     = (Endpoints.forbidden "delete" Endpoints.Jobs, Sample.store)
  /\ Endpoints.PUT Endpoints.Jobs
       (Req.sent_by Sample.ravi (Req.on_id 20 Req.empty)) Sample.store
     = (match Joi.validate JobsRouter.jobSchema [] with
        | inl details => validation_error details
        | inr _ => Endpoints.forbidden "update" Endpoints.Jobs
        end, Sample.store).
Proof.
  split; [reflexivity|]. split; [reflexivity|]. split; [reflexivity|].
  split; [reflexivity|]. split; [discriminate|]. split; [discriminate|].
  apply (stranger_cannot_mutate Endpoints.Jobs Sample.ravi
           (Req.sent_by Sample.ravi (Req.on_id 20 Req.empty)) Sample.store
           20 (Sample.stored 20
                 (Sample.job_fields "Picker" "farm" "Pune" "en") 3 4));
    [reflexivity | reflexivity | reflexivity | reflexivity
     | discriminate | discriminate].
Defined.

(** C6 as stated fails. An update of a job that does not exist, with an
    empty payload, is answered 400, not 404; and a delete with an id that
    is no ObjectId is answered 500, not 404. *)
Lemma missing_target_is_not_always_answered_404 :
  List.find (Model.has_id 99) (jobs Sample.store) = None
  /\ fst (JobsRouter.PUT (Req.sent_by Sample.ravi (Req.on_id 99 Req.empty))
            Sample.store)
     = status_json 400
         (Errors "Validation error"
            [(Joi.label "title" ++ " is required")%string])
  /\ param_id (Req.sent_by Sample.ravi Req.empty) = Malformed
  /\ fst (JobsRouter.DELETE (Req.sent_by Sample.ravi Req.empty) Sample.store)
     = internal_error.
Proof. repeat split; reflexivity. Qed.

(** A job that does not exist. *)
Lemma job_99_is_not_found :
  Endpoints.served Endpoints.Jobs = true
  /\ (forall n, param_id (Req.on_id 99 Req.empty) = Oid n ->
                List.find (Model.has_id n) (jobs Sample.store) = None)
  /\ Endpoints.delete_handler Endpoints.Jobs Sample.ravi
       (Req.on_id 99 Req.empty) Sample.store
     = (Endpoints.not_found Endpoints.Jobs, Sample.store)
  /\ Endpoints.put_handler Endpoints.Jobs Sample.ravi
       (Req.on_id 99 Req.empty) Sample.store
     = (match Joi.validate JobsRouter.jobSchema [] with
        | inl details => validation_error details
        | inr _ => Endpoints.not_found Endpoints.Jobs
        end, Sample.store).
Proof.
  split; [reflexivity|].
  split; [intros n [= <-]; reflexivity|].
  apply (missing_target_answers Endpoints.Jobs Sample.ravi
           (Req.on_id 99 Req.empty) Sample.store);
    [reflexivity | intros n [= <-]; reflexivity].
Defined.

(** C7 as stated fails. An update of an existing scheme by an admin with
    an empty payload does not succeed; and the training update never
    reaches its comparison: Kiran's update of Ravi's record, with a valid
    payload, is answered 500. *)
Lemma admin_update_may_fail_and_training_never_compares :
  List.find (Model.has_id 11) (schemes Sample.store) <> None
  /\ fst (SchemesRouter.PUT (Req.sent_by Sample.asha (Req.on_id 11 Req.empty))
            Sample.store)
     = status_json 400
         (Errors "Validation error"
            [(Joi.label "title" ++ " is required")%string])
  /\ Joi.validate TrainingRouter.trainingSchema Sample.training_fields
     = inr Sample.training_fields
  /\ fst (TrainingRouter.PUT
            (Req.sent_by Sample.kiran
               (Req.on_id 30 (Req.with_payload Sample.training_fields
                                Req.empty)))
            Sample.store)
     = internal_error.
Proof. repeat split; try reflexivity. discriminate. Qed.

(** Asha, an admin, on the scheme that Ravi created. *)
Lemma asha_mutates_scheme_of_ravi :
  caller (Req.sent_by Sample.asha (Req.on_id 11 Req.empty))
  = Some Sample.asha
  /\ param_id (Req.sent_by Sample.asha (Req.on_id 11 Req.empty)) = Oid 11
  /\ List.find (Model.has_id 11) (schemes Sample.store)
     = Some (Sample.stored 11
               (Sample.scheme_fields "Crop cover" "Farming" "en") 2 2)
  /\ SchemesRouter.DELETE (Req.sent_by Sample.asha (Req.on_id 11 Req.empty))
       Sample.store
     = (Endpoints.deleted Endpoints.Schemes,
        write Scheme (Model.remove_first 11 (schemes Sample.store))
          Sample.store).
Proof.
  split; [reflexivity|]. split; [reflexivity|]. split; [reflexivity|].
  apply (scheme_mutation_is_by_role Sample.asha
           (Req.sent_by Sample.asha (Req.on_id 11 Req.empty)) Sample.store
           11 (Sample.stored 11
                 (Sample.scheme_fields "Crop cover" "Farming" "en") 2 2)
           eq_refl eq_refl eq_refl).
  reflexivity.
Defined.

(** C8 as stated fails. With [limit=1] the search for "farm" returns one
    of the two schemes that hold it, and the search for "." returns a
    scheme that holds no dot in its title, description or category. *)
Lemma search_does_not_return_exactly_the_matches :
  (exists items d,
     SchemesRouter.get_search
       (Req.with_limit 1 (Req.on_param "farm" Req.empty)) Sample.store
     = (json (Page "results" items None), Sample.store)
     /\ In d (schemes Sample.store)
     /\ Spec.search_matches Spec.supplied
          ["title"; "description"; "category"] "farm" [] d = true
     /\ ~ In d (map doc items))
  /\ (exists items i,
        SchemesRouter.get_search (Req.on_param "." Req.empty) Sample.store
        = (json (Page "results" items None), Sample.store)
        /\ In i items
        /\ Spec.search_matches Spec.supplied
             ["title"; "description"; "category"] "." [] (doc i) = false).
Proof.
  split.
  - eexists. exists (Sample.stored 10
                       (Sample.scheme_fields "Farm credit" "agriculture" "en")
                       1 1).
    split; [reflexivity|]. split; [left; reflexivity|].
    split; [reflexivity|]. cbn. intros [E|[]]. discriminate E.
  - eexists. eexists. split; [reflexivity|].
    split; [left; reflexivity|]. reflexivity.
Qed.

(** The search for "farm" among the schemes. *)
Lemma search_for_farm :
  MongoRegex.plain "farm" = true
  /\ (0 < 1)%Z /\ (0 < 10)%Z
  /\ exists items,
       SchemesRouter.get_search (Req.on_param "farm" Req.empty) Sample.store
       = (json (Page "results" items None), Sample.store)
       /\ items
          = Spec.listing Sample.store (schemes Sample.store)
              (Spec.search_matches Spec.given
                 ["title"; "description"; "category"] "farm" [])
              1 10
       /\ (forall i, In i items ->
             In (doc i) (schemes Sample.store)
             /\ Spec.search_matches Spec.given
                  ["title"; "description"; "category"] "farm" [] (doc i)
                = true)
       /\ (1%Z = 1%Z ->
           (Spec.total (schemes Sample.store)
              (Spec.search_matches Spec.given
                 ["title"; "description"; "category"] "farm" [])
            <= 10)%Z ->
           Permutation (map doc items)
             (List.filter
                (Spec.search_matches Spec.given
                   ["title"; "description"; "category"] "farm" [])
                (schemes Sample.store))).
Proof.
  split; [reflexivity|]. split; [lia|]. split; [lia|].
  apply (scheme_search_returns_matching_page
           (Req.on_param "farm" Req.empty) Sample.store);
    [reflexivity | reflexivity | reflexivity].
Defined.

(** C9 as stated fails: the answers of both searches hold the results
    and no pagination metadata. *)
Lemma search_answers_carry_no_pagination :
  (exists items,
     Endpoints.search_handler Endpoints.SchemesSearch
       (Req.on_param "farm" Req.empty) Sample.store
     = (json (Page "results" items None), Sample.store))
  /\ (exists items,
        Endpoints.search_handler Endpoints.MarketplaceSearch
          (Req.on_param "basket" Req.empty) Sample.store
        = (json (Page "results" items None), Sample.store)).
Proof. split; eexists; reflexivity. Qed.

(** The search for "basket" on the marketplace. *)
Lemma search_for_basket :
  (exists p,
     Model.compile (Endpoints.search_filter Endpoints.MarketplaceSearch
                      (Req.on_param "basket" Req.empty)) = Some p
     /\ (0 < 1)%Z /\ (0 < 10)%Z
     /\ Endpoints.search_handler Endpoints.MarketplaceSearch
          (Req.on_param "basket" Req.empty) Sample.store
        = (json (Page "results"
                   (Spec.populated Sample.store
                      (firstn (Z.to_nat 10)
                         (skipn (Z.to_nat ((1 - 1) * 10))
                            (Model.sort_desc
                               (List.filter p
                                  (marketplaces Sample.store))))))
                   None),
           Sample.store)).
Proof.
  eexists. split; [reflexivity|]. split; [lia|]. split; [lia|].
  apply (search_answers_results_only Endpoints.MarketplaceSearch
           (Req.on_param "basket" Req.empty) Sample.store);
    [reflexivity | reflexivity | reflexivity].
Defined.

(** C10 as stated fails: of the six keys that an empty scheme payload
    lacks, the answer names the first only. *)
Lemma only_the_first_failing_key_is_named :
  In "description" (Spec.failing_keys SchemesRouter.schemeSchema [])
  /\ exists errors,
       Endpoints.post_handler Endpoints.Schemes Sample.asha Req.empty
         Sample.store
       = (status_json 400 (Errors "Validation error" errors), Sample.store)
       /\ List.length errors = 1
       /\ forallb (fun m => negb (Spec.names_key m "description")) errors
          = true.
Proof.
  split; [cbn; tauto|]. eexists. split; [reflexivity|].
  split; reflexivity.
Qed.

(** A scheme without any field. *)
Lemma empty_scheme_is_refused :
  Joi.violations (Endpoints.schema_of Endpoints.Schemes) [] <> []
  /\ exists first rest,
       Joi.violations (Endpoints.schema_of Endpoints.Schemes) []
       = first :: rest
       /\ Spec.names_key (Joi.message first) (Joi.path first) = true
       /\ Endpoints.post_handler Endpoints.Schemes Sample.asha Req.empty
            Sample.store
          = (status_json 400 (Errors "Validation error" [Joi.message first]),
             Sample.store)
       /\ Endpoints.put_handler Endpoints.Schemes Sample.asha Req.empty
            Sample.store
          = (status_json 400 (Errors "Validation error" [Joi.message first]),
             Sample.store).
Proof.
  split; [discriminate|].
  apply (invalid_payload_answers_first_violation Endpoints.Schemes
           Sample.asha Req.empty Sample.store).
  discriminate.
Defined.

End OnTheSampleStore.

(* ================================================================== *)
(** * The further theorems on the sample store *)
(* ================================================================== *)

Section FurtherOnTheSampleStore.
Import Mongoose Http.

Lemma job_20_is_answered :
  Endpoints.served Endpoints.Jobs = true
  /\ Reading.get_handler Endpoints.Jobs (Req.on_id 20 Req.empty) Sample.store
     = (Reading.found Endpoints.Jobs
          (Reading.with_creator Sample.store MoreSamples.job_20),
        Sample.store).
Proof.
  split; [reflexivity|].
  apply (get_by_id_answers Endpoints.Jobs (Req.on_id 20 Req.empty)
           Sample.store).
  reflexivity.
Defined.

Lemma picker_passes_both :
  Joi.validate JobsRouter.jobSchema MoreSamples.picker
  = inr MoreSamples.picker
  /\ schema_ok Mongoose.jobSchema
       (apply_setters Mongoose.jobSchema MoreSamples.picker) = true.
Proof.
  split; [reflexivity|].
  apply (job_validator_implies_model MoreSamples.picker MoreSamples.picker).
  reflexivity.
Defined.

Lemma packer_is_created :
  Joi.validate JobsRouter.jobSchema
    (payload (Req.with_payload MoreSamples.packer Req.empty))
  = inr MoreSamples.packer
  /\ List.find (Model.has_id (next_id Sample.store)) (jobs Sample.store)
     = None
  /\ JobsRouter.post_root Sample.ravi
       (Req.with_payload MoreSamples.packer Req.empty) Sample.store
     = (Reading.created Endpoints.Jobs
          (Reading.with_creator Sample.store
             (Reading.inserted Sample.store 2 MoreSamples.packer)),
        write Job
          (jobs Sample.store
           ++ [Reading.inserted Sample.store 2 MoreSamples.packer])
          (fresh_id Sample.store)).
Proof.
  split; [reflexivity|]. split; [reflexivity|].
  apply (job_create_succeeds Sample.ravi
           (Req.with_payload MoreSamples.packer Req.empty) Sample.store
           MoreSamples.packer); reflexivity.
Defined.

Lemma packer_is_found_again :
  Joi.validate JobsRouter.jobSchema
    (payload (Req.with_payload MoreSamples.packer Req.empty))
  = inr MoreSamples.packer
  /\ List.find (Model.has_id (next_id Sample.store)) (jobs Sample.store)
     = None
  /\ param_id (Req.on_id 50 Req.empty) = Oid (next_id Sample.store)
  /\ JobsRouter.get_id (Req.on_id 50 Req.empty)
       (snd (JobsRouter.post_root Sample.ravi
               (Req.with_payload MoreSamples.packer Req.empty) Sample.store))
     = (json (One None "job"
                (Reading.with_creator Sample.store
                   (Reading.inserted Sample.store 2 MoreSamples.packer))),
        snd (JobsRouter.post_root Sample.ravi
               (Req.with_payload MoreSamples.packer Req.empty) Sample.store)).
Proof.
  split; [reflexivity|]. split; [reflexivity|]. split; [reflexivity|].
  apply (job_create_then_get Sample.ravi
           (Req.with_payload MoreSamples.packer Req.empty)
           (Req.on_id 50 Req.empty) Sample.store MoreSamples.packer);
    reflexivity.
Defined.

Lemma short_scheme_is_not_created :
  Joi.validate SchemesRouter.schemeSchema
    (payload (Req.with_payload MoreSamples.short_scheme Req.empty))
  = inr MoreSamples.short_scheme
  /\ Js.prop "eligibility"
       (payload (Req.with_payload MoreSamples.short_scheme Req.empty))
     = Some (Js.VStr "Growers")
  /\ String.length "Growers" < 10
  /\ SchemesRouter.post_root Sample.asha
       (Req.with_payload MoreSamples.short_scheme Req.empty) Sample.store
     = (internal_error, fresh_id Sample.store).
Proof.
  split; [reflexivity|]. split; [reflexivity|]. split; [cbn; lia|].
  apply (scheme_with_short_eligibility_is_not_created Sample.asha
           (Req.with_payload MoreSamples.short_scheme Req.empty)
           Sample.store MoreSamples.short_scheme "Growers");
    [reflexivity | reflexivity | cbn; lia].
Defined.

Lemma short_entry_is_not_created :
  Joi.validate MarketplaceRouter.marketplaceSchema
    (payload (Req.with_payload MoreSamples.short_entry Req.empty))
  = inr MoreSamples.short_entry
  /\ Js.prop "productService"
       (payload (Req.with_payload MoreSamples.short_entry Req.empty))
     = Some (Js.VStr "Baskets")
  /\ String.length "Baskets" < 10
  /\ MarketplaceRouter.post_root Sample.meena
       (Req.with_payload MoreSamples.short_entry Req.empty) Sample.store
     = (internal_error, fresh_id Sample.store).
Proof.
  split; [reflexivity|]. split; [reflexivity|]. split; [cbn; lia|].
  apply (entry_with_short_description_is_not_created Sample.meena
           (Req.with_payload MoreSamples.short_entry Req.empty)
           Sample.store MoreSamples.short_entry "Baskets");
    [reflexivity | reflexivity | cbn; lia].
Defined.

Lemma jobs_have_unique_ids : Reading.unique_ids (jobs Sample.store).
Proof.
  unfold Reading.unique_ids. cbn.
  repeat constructor; cbn; intuition discriminate.
Defined.

Lemma meena_deletes_her_job :
  Endpoints.owned Endpoints.Jobs = true
  /\ caller (Req.sent_by Sample.meena (Req.on_id 20 Req.empty))
     = Some Sample.meena
  /\ param_id (Req.sent_by Sample.meena (Req.on_id 20 Req.empty)) = Oid 20
  /\ List.find (Model.has_id 20) (jobs Sample.store)
     = Some MoreSamples.job_20
  /\ Reading.may_mutate Sample.meena MoreSamples.job_20
  /\ Reading.unique_ids (jobs Sample.store)
  /\ Endpoints.DELETE Endpoints.Jobs
       (Req.sent_by Sample.meena (Req.on_id 20 Req.empty)) Sample.store
     = (Endpoints.deleted Endpoints.Jobs,
        Reading.without Endpoints.Jobs 20 Sample.store).
Proof.
  split; [reflexivity|]. split; [reflexivity|]. split; [reflexivity|].
  split; [reflexivity|]. split; [left; reflexivity|].
  split; [exact jobs_have_unique_ids|].
  apply (delete_removes_the_record Endpoints.Jobs Sample.meena
           (Req.sent_by Sample.meena (Req.on_id 20 Req.empty)) Sample.store
           20 MoreSamples.job_20 eq_refl eq_refl eq_refl eq_refl
           (or_introl eq_refl) jobs_have_unique_ids).
Defined.

Lemma asha_updates_job_of_meena :
  Endpoints.owned Endpoints.Jobs = true
  /\ caller (Req.sent_by Sample.asha
               (Req.on_id 20 (Req.with_payload MoreSamples.packer Req.empty)))
     = Some Sample.asha
  /\ List.find (Model.has_id 20) (jobs Sample.store)
     = Some MoreSamples.job_20
  /\ Reading.may_mutate Sample.asha MoreSamples.job_20
  /\ Joi.validate JobsRouter.jobSchema MoreSamples.packer
     = inr MoreSamples.packer
  /\ Endpoints.PUT Endpoints.Jobs
       (Req.sent_by Sample.asha
          (Req.on_id 20 (Req.with_payload MoreSamples.packer Req.empty)))
       Sample.store
     = (Endpoints.updated Endpoints.Jobs
          (Reading.with_creator Sample.store
             (Reading.revised Endpoints.Jobs MoreSamples.packer Sample.store
                MoreSamples.job_20)),
        Reading.with_revision Endpoints.Jobs 20
          (Reading.revised Endpoints.Jobs MoreSamples.packer Sample.store
             MoreSamples.job_20)
          Sample.store).
Proof.
  split; [reflexivity|]. split; [reflexivity|]. split; [reflexivity|].
  split; [right; reflexivity|]. split; [reflexivity|].
  apply (update_revises_the_record Endpoints.Jobs Sample.asha
           (Req.sent_by Sample.asha
              (Req.on_id 20 (Req.with_payload MoreSamples.packer Req.empty)))
           Sample.store 20 MoreSamples.job_20 MoreSamples.packer
           eq_refl eq_refl eq_refl eq_refl (or_intror eq_refl) eq_refl).
Defined.

Lemma packer_has_distinct_keys : NoDup (map fst MoreSamples.packer).
Proof. cbn. repeat constructor; cbn; intuition discriminate. Defined.

Lemma short_scheme_has_distinct_keys :
  NoDup (map fst MoreSamples.short_scheme).
Proof. cbn. repeat constructor; cbn; intuition discriminate. Defined.

Lemma title_of_revised_job :
  Endpoints.Jobs <> Endpoints.Marketplaces
  /\ NoDup (map fst MoreSamples.packer)
  /\ Js.prop "title"
       (fields (Reading.revised Endpoints.Jobs MoreSamples.packer
                  Sample.store MoreSamples.job_20))
     = Some (Js.VStr "Packer").
Proof.
  split; [discriminate|]. split; [exact packer_has_distinct_keys|].
  apply (revised_fields_read_back Endpoints.Jobs MoreSamples.packer
           Sample.store MoreSamples.job_20 "title");
    [discriminate | exact packer_has_distinct_keys].
Defined.

Lemma schemes_two_by_two :
  Model.compile
    (Endpoints.list_filter Endpoints.SchemesList (Req.with_limit 2 Req.empty))
  = Some (fun _ => true)
  /\ (0 < 2)%Z
  /\ flat_map
       (fun k =>
          Reading.items_of
            (fst (Endpoints.list_handler Endpoints.SchemesList
                    (Req.with_page (Z.of_nat (S k))
                       (Req.with_limit 2 Req.empty))
                    Sample.store)))
       (seq 0 (Z.to_nat (Js.ceil_div
                           (Spec.total (schemes Sample.store) (fun _ => true))
                           2)))
     = Spec.populated Sample.store
         (Model.sort_desc
            (List.filter (fun _ => true) (schemes Sample.store))).
Proof.
  split; [reflexivity|]. split; [lia|].
  apply (pages_cover_the_matches Endpoints.SchemesList
           (Req.with_limit 2 Req.empty) Sample.store (fun _ => true));
    reflexivity.
Defined.

Lemma no_job_in_tamil :
  exists p,
    Model.compile
      (Endpoints.list_filter Endpoints.JobsList
         (Req.with_query [("language", "ta")] Req.empty)) = Some p
    /\ (forall d, In d (jobs Sample.store) -> p d = false)
    /\ Endpoints.list_handler Endpoints.JobsList
         (Req.with_query [("language", "ta")] Req.empty) Sample.store
       = (json (Page "jobs" []
                  (Some {| currentPage := 1; totalPages := Some 0%Z;
                           totalItems := 0; itemsPerPage := 10 |})),
          Sample.store).
Proof.
  eexists. split; [reflexivity|].
  split; [intros d [<-|[<-|[]]]; reflexivity|].
  eapply (list_of_no_match Endpoints.JobsList
            (Req.with_query [("language", "ta")] Req.empty) Sample.store);
    [reflexivity | reflexivity | reflexivity
     | intros d [<-|[<-|[]]]; reflexivity].
Defined.

Lemma page_zero_of_jobs :
  ((0 - 1) * 10 < 0)%Z
  /\ Endpoints.list_handler Endpoints.JobsList (Req.with_page 0 Req.empty)
       Sample.store
     = (internal_error, Sample.store).
Proof.
  split; [lia|].
  apply (page_before_the_first_answers_500 (Req.with_page 0 Req.empty)
           Sample.store).
  reflexivity.
Defined.

Lemma search_for_FARM :
  MongoRegex.plain "FARM" = true
  /\ Endpoints.search_handler Endpoints.SchemesSearch
       (Req.on_param (Js.lowercase "FARM") (Req.on_param "FARM" Req.empty))
       Sample.store
     = Endpoints.search_handler Endpoints.SchemesSearch
         (Req.on_param "FARM" Req.empty) Sample.store.
Proof.
  split; [reflexivity|].
  apply (search_ignores_case Endpoints.SchemesSearch
           (Req.on_param "FARM" Req.empty) Sample.store).
  reflexivity.
Defined.

Lemma marketplace_search_for_basket :
  MongoRegex.plain "basket" = true
  /\ (0 < 1)%Z /\ (0 < 10)%Z
  /\ exists items,
       MarketplaceRouter.get_search (Req.on_param "basket" Req.empty)
         Sample.store
       = (json (Page "results" items None), Sample.store)
       /\ items
          = Spec.listing Sample.store (marketplaces Sample.store)
              (Spec.search_matches Spec.given
                 ["businessName"; "productService"] "basket" [])
              1 10.
Proof.
  split; [reflexivity|]. split; [lia|]. split; [lia|].
  destruct (marketplace_search_returns_matching_page
              (Req.on_param "basket" Req.empty) Sample.store
              eq_refl eq_refl eq_refl) as (items & Hrun & Hitems & _).
  exists items. split; [exact Hrun | exact Hitems].
Defined.

Lemma schemes_of_farming :
  MongoRegex.plain "farm" = true
  /\ (0 < 1)%Z /\ (0 < 10)%Z
  /\ exists items,
       SchemesRouter.get_category (Req.on_param "farm" Req.empty)
         Sample.store
       = (json (Page "schemes" items None), Sample.store)
       /\ items
          = Spec.listing Sample.store (schemes Sample.store)
              (Reading.category_matches "farm" []) 1 10.
Proof.
  split; [reflexivity|]. split; [lia|]. split; [lia|].
  destruct (schemes_by_category_returns_matching_page
              (Req.on_param "farm" Req.empty) Sample.store
              eq_refl eq_refl eq_refl) as (items & Hrun & Hitems & _).
  exists items. split; [exact Hrun | exact Hitems].
Defined.

Lemma search_for_an_open_parenthesis :
  MongoRegex.regex_i "(" = None
  /\ Endpoints.search_handler Endpoints.SchemesSearch
       (Req.on_param "(" Req.empty) Sample.store
     = (internal_error, Sample.store).
Proof.
  split; [reflexivity|].
  apply (rejected_pattern_answers_500 (Req.on_param "(" Req.empty)
           Sample.store).
  reflexivity.
Defined.

Lemma job_with_a_salary_is_refused :
  In ("salary", Js.VOther)
     (payload (Req.with_payload (MoreSamples.picker
                                 ++ [("salary", Js.VOther)]) Req.empty))
  /\ Js.mem "salary" (map fst (Endpoints.schema_of Endpoints.Jobs)) = false
  /\ exists detail,
       Endpoints.post_handler Endpoints.Jobs Sample.ravi
         (Req.with_payload (MoreSamples.picker ++ [("salary", Js.VOther)])
            Req.empty)
         Sample.store
       = (validation_error [detail], Sample.store)
       /\ Endpoints.put_handler Endpoints.Jobs Sample.ravi
            (Req.with_payload (MoreSamples.picker ++ [("salary", Js.VOther)])
               Req.empty)
            Sample.store
          = (validation_error [detail], Sample.store).
Proof.
  split; [cbn; tauto|]. split; [reflexivity|].
  apply (unknown_key_is_refused Endpoints.Jobs Sample.ravi
           (Req.with_payload (MoreSamples.picker ++ [("salary", Js.VOther)])
              Req.empty)
           Sample.store "salary" Js.VOther); [cbn; tauto | reflexivity].
Defined.

Lemma short_scheme_is_stored_by_update :
  param_id (Req.on_id 11
              (Req.with_payload MoreSamples.short_scheme Req.empty))
  = Oid 11
  /\ List.find (Model.has_id 11) (schemes Sample.store)
     = Some MoreSamples.scheme_11
  /\ Joi.validate SchemesRouter.schemeSchema MoreSamples.short_scheme
     = inr MoreSamples.short_scheme
  /\ NoDup (map fst MoreSamples.short_scheme)
  /\ Js.prop "eligibility" MoreSamples.short_scheme
     = Some (Js.VStr "Growers")
  /\ String.length "Growers" < 10
  /\ SchemesRouter.put_id
       (Req.on_id 11 (Req.with_payload MoreSamples.short_scheme Req.empty))
       Sample.store
     = (Endpoints.updated Endpoints.Schemes
          (Reading.with_creator Sample.store
             (Reading.revised Endpoints.Schemes MoreSamples.short_scheme
                Sample.store MoreSamples.scheme_11)),
        Reading.with_revision Endpoints.Schemes 11
          (Reading.revised Endpoints.Schemes MoreSamples.short_scheme
             Sample.store MoreSamples.scheme_11)
          Sample.store).
Proof.
  split; [reflexivity|]. split; [reflexivity|]. split; [reflexivity|].
  split; [exact short_scheme_has_distinct_keys|].
  split; [reflexivity|]. split; [cbn; lia|].
  apply (update_stores_what_create_refuses Sample.asha
           (Req.on_id 11
              (Req.with_payload MoreSamples.short_scheme Req.empty))
           Sample.store 11 MoreSamples.scheme_11 MoreSamples.short_scheme
           "Growers");
    [reflexivity | reflexivity | reflexivity
     | exact short_scheme_has_distinct_keys | reflexivity | cbn; lia].
Defined.

End FurtherOnTheSampleStore.
